(** * SafeEdge control plane: repository queries, device registry, hashing

    A shallow embedding of the parts of netf/safeedge that the rollout and
    connectivity specification talks about:

    - [Crypto]    pkg/crypto: BLAKE3Hash, VerifyBLAKE3 (hex encoding written out,
                  the BLAKE3 compression function a parameter);
    - [Store]     the sqlc queries over rollouts, rollout_device_status and
                  devices, as functions on an in-memory image of the tables;
    - [Rest]      the REST handler StartRollout;
    - [Spec]      the transition table and the artifact checks in the words of
                  the specification, to compare the code with;
    - [Registry]  the gRPC DeviceService: the stream map, the send operations,
                  the inbound handlers and the DeviceStream loop;
    - [Samples]   concrete rows, services and messages.

    Definitions come first, the theorems after them. *)

From Stdlib Require Import ZArith NArith List Ascii String Lia.
From Stdlib Require Import Strings.Byte.
From stdpp Require Import base option list gmap strings.

Local Open Scope string_scope.

(** ** Results of fallible calls *)

Inductive Result (E A : Type) : Type :=
| Ok (a : A)
| Err (e : E).
Arguments Ok {E A} a.
Arguments Err {E A} e.

(** ** pkg/crypto: content hashes *)

Module Crypto.

(** encoding/hex: [hextable] and [EncodeToString]; every byte becomes its
    high nibble and then its low nibble, in lower case. *)
Definition hextable : string := "0123456789abcdef".

Definition hexdigit (n : N) : ascii :=
  match String.get (N.to_nat n) hextable with
  | Some c => c
  | None => "0"%char
  end.

Fixpoint EncodeToString (src : list byte) : string :=
  match src with
  | [] => EmptyString
  | v :: rest =>
      let n := Byte.to_N v in
      String (hexdigit (N.shiftr n 4))
        (String (hexdigit (N.land n 15)) (EncodeToString rest))
  end.

(** Replace the byte at index [i] of a Go string; out of range the string
    is returned as it is. *)
Fixpoint set_byte (i : nat) (c : ascii) (s : string) : string :=
  match s, i with
  | EmptyString, _ => EmptyString
  | String _ rest, O => String c rest
  | String a rest, S j => String a (set_byte j c rest)
  end.

Section Hashing.

(** blake3.Sum256 of github.com/zeebo/blake3: a function from the data to a
    32-byte digest. *)
Variable blake3_Sum256 : list byte -> list byte.

Definition BLAKE3Hash (data : list byte) : string :=
  let hash := blake3_Sum256 data in
  EncodeToString hash.

(** Go's [==] on strings compares the bytes. *)
Definition VerifyBLAKE3 (data : list byte) (expectedHash : string) : bool :=
  let actualHash := BLAKE3Hash data in
  String.eqb actualHash expectedHash.

End Hashing.

End Crypto.

(** ** The repository: schema and sqlc queries *)

Module Store.

(** uuid.UUID is [16]byte: a 128-bit value. *)
Definition UUID : Type := N.
(** TIMESTAMPTZ, as microseconds since the epoch. *)
Definition Timestamp : Type := Z.
(** A JSONB document, held as its text. *)
Definition JSONB : Type := string.

(** rollouts.state: TEXT with CHECK (state IN (...)); the column only ever
    holds one of the six texts. *)
Inductive RolloutState : Type :=
| DRAFT | CANARY | FULL | COMPLETE | ROLLBACK | FAILED.

(** rollout_device_status.status: TEXT with its CHECK. *)
Inductive RolloutDeviceState : Type :=
| PENDING | IN_PROGRESS | HEALTHY | UNHEALTHY | ROLLED_BACK.

(** devices.status: TEXT with its CHECK. *)
Inductive DeviceState : Type :=
| ACTIVE | SUSPENDED | DECOMMISSIONED.

(** artifacts.type: TEXT with its CHECK. *)
Inductive ArtifactType : Type :=
| CONTAINER | BINARY.

Definition rollout_state_of_text (s : string) : option RolloutState :=
  if String.eqb s "DRAFT" then Some DRAFT
  else if String.eqb s "CANARY" then Some CANARY
  else if String.eqb s "FULL" then Some FULL
  else if String.eqb s "COMPLETE" then Some COMPLETE
  else if String.eqb s "ROLLBACK" then Some ROLLBACK
  else if String.eqb s "FAILED" then Some FAILED
  else None.

Definition rollout_device_state_of_text (s : string) : option RolloutDeviceState :=
  if String.eqb s "PENDING" then Some PENDING
  else if String.eqb s "IN_PROGRESS" then Some IN_PROGRESS
  else if String.eqb s "HEALTHY" then Some HEALTHY
  else if String.eqb s "UNHEALTHY" then Some UNHEALTHY
  else if String.eqb s "ROLLED_BACK" then Some ROLLED_BACK
  else None.

(** A row of devices (the key [id] is the key of the table's map). *)
Record Device : Type := mkDevice {
  device_organization_id : UUID;
  public_key : string;
  wireguard_public_key : string;
  wireguard_ip : string;
  agent_version : string;
  platform : string;
  site_tag : option string;
  device_status : DeviceState;
  last_seen_at : option Timestamp;
  device_created_at : Timestamp
}.

(** A row of artifacts. *)
Record Artifact : Type := mkArtifact {
  artifact_organization_id : UUID;
  name : string;
  artifact_type : ArtifactType;
  blake3_hash : string;
  signature : list byte;
  signing_key_id : string;
  s3_url : string;
  size_bytes : Z;
  artifact_created_at : Timestamp
}.

(** A row of rollouts. *)
Record Rollout : Type := mkRollout {
  rollout_organization_id : UUID;
  artifact_id : UUID;
  target_selector : JSONB;
  canary_percent : Z;
  soak_time_seconds : Z;
  health_check_url : string;
  state : RolloutState;
  rollout_created_at : Timestamp;
  started_at : option Timestamp;
  completed_at : option Timestamp
}.

(** A row of rollout_device_status; PRIMARY KEY (rollout_id, device_id) is
    the key of the table's map. *)
Record RolloutDeviceStatus : Type := mkRolloutDeviceStatus {
  is_canary : bool;
  status : RolloutDeviceState;
  health_check_result : option JSONB;
  updated_at : Timestamp
}.

(** What a query can fail with: pgx.ErrNoRows of a [:one] query that matched
    no row, a violated CHECK constraint, or the connection's own error. *)
Inductive DBError : Type :=
| ErrNoRows
| ErrCheckViolation (constraint : string)
| ErrConnection (msg : string).

(** The tables the queries below touch. [fault] is [Some e] while the
    connection to the database fails: every query then returns [e]. *)
Record Database : Type := mkDatabase {
  devices : gmap UUID Device;
  artifacts : gmap UUID Artifact;
  rollouts : gmap UUID Rollout;
  rollout_device_status : gmap (UUID * UUID) RolloutDeviceStatus;
  fault : option DBError
}.

Definition set_devices (db : Database) (t : gmap UUID Device) : Database :=
  mkDatabase t (artifacts db) (rollouts db) (rollout_device_status db) (fault db).

Definition set_rollouts (db : Database) (t : gmap UUID Rollout) : Database :=
  mkDatabase (devices db) (artifacts db) t (rollout_device_status db) (fault db).

Definition set_rollout_device_status (db : Database)
    (t : gmap (UUID * UUID) RolloutDeviceStatus) : Database :=
  mkDatabase (devices db) (artifacts db) (rollouts db) t (fault db).

(** *** rollouts.sql *)

(** SET state = $2,
        started_at = CASE WHEN started_at IS NULL THEN NOW() ELSE started_at END *)
Definition set_state_started (now : Timestamp) (s : RolloutState) (r : Rollout) : Rollout :=
  mkRollout (rollout_organization_id r) (artifact_id r) (target_selector r)
    (canary_percent r) (soak_time_seconds r) (health_check_url r)
    s
    (rollout_created_at r)
    (match started_at r with
     | None => Some now
     | Some t => Some t
     end)
    (completed_at r).

(** SET state = <terminal>, completed_at = NOW() *)
Definition set_state_completed (now : Timestamp) (s : RolloutState) (r : Rollout) : Rollout :=
  mkRollout (rollout_organization_id r) (artifact_id r) (target_selector r)
    (canary_percent r) (soak_time_seconds r) (health_check_url r)
    s
    (rollout_created_at r)
    (started_at r)
    (Some now).

(** -- name: GetRollout :one *)
Definition GetRollout (db : Database) (id : UUID) : Result DBError Rollout :=
  match fault db with
  | Some e => Err e
  | None =>
      match rollouts db !! id with
      | Some r => Ok r
      | None => Err ErrNoRows
      end
  end.

(** -- name: UpdateRolloutState :one
    UPDATE rollouts SET state = $2, started_at = CASE ... END
    WHERE id = $1 RETURNING *;
    [now] is the value of NOW() in the statement. *)
Definition UpdateRolloutState (now : Timestamp) (db : Database)
    (id : UUID) (newState : string) : Database * Result DBError Rollout :=
  match fault db with
  | Some e => (db, Err e)
  | None =>
      match rollouts db !! id with
      | None => (db, Err ErrNoRows)
      | Some r =>
          match rollout_state_of_text newState with
          | None => (db, Err (ErrCheckViolation "rollouts_state_check"))
          | Some s =>
              let r' := set_state_started now s r in
              (set_rollouts db (<[id := r']> (rollouts db)), Ok r')
          end
      end
  end.

(** -- name: CompleteRollout :one
    UPDATE rollouts SET state = 'COMPLETE', completed_at = NOW()
    WHERE id = $1 RETURNING *; *)
Definition CompleteRollout (now : Timestamp) (db : Database)
    (id : UUID) : Database * Result DBError Rollout :=
  match fault db with
  | Some e => (db, Err e)
  | None =>
      match rollouts db !! id with
      | None => (db, Err ErrNoRows)
      | Some r =>
          let r' := set_state_completed now COMPLETE r in
          (set_rollouts db (<[id := r']> (rollouts db)), Ok r')
      end
  end.

(** -- name: FailRollout :one
    UPDATE rollouts SET state = 'FAILED', completed_at = NOW()
    WHERE id = $1 RETURNING *; *)
Definition FailRollout (now : Timestamp) (db : Database)
    (id : UUID) : Database * Result DBError Rollout :=
  match fault db with
  | Some e => (db, Err e)
  | None =>
      match rollouts db !! id with
      | None => (db, Err ErrNoRows)
      | Some r =>
          let r' := set_state_completed now FAILED r in
          (set_rollouts db (<[id := r']> (rollouts db)), Ok r')
      end
  end.

(** The three state-changing operations, as commands, and runs of them; each
    command comes with the NOW() of its statement. *)
Inductive RolloutOp : Type :=
| OpUpdateRolloutState (id : UUID) (newState : string)
| OpCompleteRollout (id : UUID)
| OpFailRollout (id : UUID).

Definition exec (db : Database) (c : Timestamp * RolloutOp) : Database :=
  match c with
  | (now, OpUpdateRolloutState id newState) => fst (UpdateRolloutState now db id newState)
  | (now, OpCompleteRollout id) => fst (CompleteRollout now db id)
  | (now, OpFailRollout id) => fst (FailRollout now db id)
  end.

Definition run (db : Database) (cs : list (Timestamp * RolloutOp)) : Database :=
  fold_left exec cs db.

(** The rollout a command addresses and the state it asks for, when the
    state is one the column admits. *)
Definition op_id (o : RolloutOp) : UUID :=
  match o with
  | OpUpdateRolloutState id _ => id
  | OpCompleteRollout id => id
  | OpFailRollout id => id
  end.

Definition op_target (o : RolloutOp) : option RolloutState :=
  match o with
  | OpUpdateRolloutState _ newState => rollout_state_of_text newState
  | OpCompleteRollout _ => Some COMPLETE
  | OpFailRollout _ => Some FAILED
  end.

(** The row a successful command writes over the row [r] of the rollout it
    addresses, [s] being the state it names. *)
Definition op_row (now : Timestamp) (o : RolloutOp) (s : RolloutState) (r : Rollout)
    : Rollout :=
  match o with
  | OpUpdateRolloutState _ _ => set_state_started now s r
  | OpCompleteRollout _ | OpFailRollout _ => set_state_completed now s r
  end.

(** The state a command leaves rollout [id] in, [r] being its row before:
    the state the command names when it addresses [id] and goes through, the
    state of [r] otherwise. *)
Definition state_after (db : Database) (o : RolloutOp) (id : UUID) (r : Rollout)
    : RolloutState :=
  match fault db, op_target o with
  | None, Some s => if decide (op_id o = id) then s else state r
  | _, _ => state r
  end.

(** *** rollout_device_status queries *)

(** SET status = $3, health_check_result = $4, updated_at = NOW() *)
Definition set_status (now : Timestamp) (s : RolloutDeviceState)
    (res : option JSONB) (row : RolloutDeviceStatus) : RolloutDeviceStatus :=
  mkRolloutDeviceStatus (is_canary row) s res now.

(** -- name: GetRolloutDeviceStatus :one *)
Definition GetRolloutDeviceStatus (db : Database) (rollout_id device_id : UUID)
    : Result DBError RolloutDeviceStatus :=
  match fault db with
  | Some e => Err e
  | None =>
      match rollout_device_status db !! (rollout_id, device_id) with
      | Some row => Ok row
      | None => Err ErrNoRows
      end
  end.

(** -- name: UpdateRolloutDeviceStatus :one
    UPDATE rollout_device_status
    SET status = $3, health_check_result = $4, updated_at = NOW()
    WHERE rollout_id = $1 AND device_id = $2 RETURNING *; *)
Definition UpdateRolloutDeviceStatus (now : Timestamp) (db : Database)
    (rollout_id device_id : UUID) (new_status : string) (result : option JSONB)
    : Database * Result DBError RolloutDeviceStatus :=
  match fault db with
  | Some e => (db, Err e)
  | None =>
      match rollout_device_status db !! (rollout_id, device_id) with
      | None => (db, Err ErrNoRows)
      | Some row =>
          match rollout_device_state_of_text new_status with
          | None => (db, Err (ErrCheckViolation "rollout_device_status_status_check"))
          | Some s =>
              let row' := set_status now s result row in
              (set_rollout_device_status db
                 (<[(rollout_id, device_id) := row']> (rollout_device_status db)),
               Ok row')
          end
      end
  end.

(** *** devices queries *)

(** SET last_seen_at = NOW() *)
Definition set_last_seen_at (now : Timestamp) (d : Device) : Device :=
  mkDevice (device_organization_id d) (public_key d) (wireguard_public_key d)
    (wireguard_ip d) (agent_version d) (platform d) (site_tag d)
    (device_status d) (Some now) (device_created_at d).

(** -- name: UpdateDeviceHeartbeat :one
    UPDATE devices SET last_seen_at = NOW() WHERE id = $1 RETURNING *; *)
Definition UpdateDeviceHeartbeat (now : Timestamp) (db : Database)
    (id : UUID) : Database * Result DBError Device :=
  match fault db with
  | Some e => (db, Err e)
  | None =>
      match devices db !! id with
      | None => (db, Err ErrNoRows)
      | Some d =>
          let d' := set_last_seen_at now d in
          (set_devices db (<[id := d']> (devices db)), Ok d')
      end
  end.

End Store.

(** ** REST handlers *)

Module Rest.
Import Store.

(** What a handler sees of *http.Request: the method, the route and the
    {id} parameter of the route, and the body. *)
Record Request : Type := mkRequest {
  method : string;
  route : string;
  url_id : string;
  request_body : string
}.

(** What a handler wrote to its http.ResponseWriter. *)
Record Response : Type := mkResponse {
  status_code : Z;
  header : list (string * string);
  body : string
}.

Definition StatusNotImplemented : Z := 501.

(** net/http.Error: the plain-text headers, the status code, and the
    message followed by a newline (Fprintln). *)
Definition http_Error (error : string) (code : Z) : Response :=
  mkResponse code
    [("Content-Type", "text/plain; charset=utf-8");
     ("X-Content-Type-Options", "nosniff")]
    (error ++ String (ascii_of_nat 10) EmptyString).

(** The queries of the repository a rollout handler can issue. *)
Inductive Query : Type :=
| QGetRollout (id : UUID)
| QGetArtifact (id : UUID)
| QUpdateRolloutState (id : UUID) (newState : string).

(** A handler run: the database after it, the queries it issued in order,
    and the response. *)
Record Handled : Type := mkHandled {
  db_after : Database;
  issued : list Query;
  response : Response
}.

(** func StartRollout(queries, logger) http.HandlerFunc: the handler answers
    every request with http.Error(w, "not implemented", 501); it never touches
    [queries] or the request. *)
Definition StartRollout (queries : Database) (r : Request) : Handled :=
  mkHandled queries [] (http_Error "not implemented" StatusNotImplemented).

End Rest.

(** ** The specification's words, for comparison with the code *)

Module Spec.
Import Store.

(** The transition table of §4.6, an edge per row; abort() goes through
    ROLLBACK to FAILED, which adds DRAFT -> ROLLBACK to the edges of the
    failure path. *)
Definition spec_edge (a b : RolloutState) : bool :=
  match a, b with
  | DRAFT, CANARY => true
  | CANARY, FULL => true
  | CANARY, ROLLBACK => true
  | ROLLBACK, FAILED => true
  | FULL, COMPLETE => true
  | FULL, ROLLBACK => true
  | DRAFT, ROLLBACK => true
  | _, _ => false
  end.


(** §4.4, the checks start() is to make on the referenced artifact: the
    content hash is a well-formed 256-bit hash (64 lower-case hex digits), the
    signature has the length of an Ed25519 signature, and the signing key id
    is in the trusted-keys set. The source has no such verifier; these
    definitions only say which artifacts the specification calls untrusted. *)
Definition is_hex_digit (c : ascii) : bool :=
  let n := nat_of_ascii c in
  ((48 <=? n)%nat && (n <=? 57)%nat) || ((97 <=? n)%nat && (n <=? 102)%nat).

Fixpoint all_hex (s : string) : bool :=
  match s with
  | EmptyString => true
  | String c rest => is_hex_digit c && all_hex rest
  end.

Definition hash_well_formed (h : string) : bool :=
  (String.length h =? 64)%nat && all_hex h.

Definition signature_well_formed (sig : list byte) : bool :=
  (List.length sig =? 64)%nat.

Definition artifact_trusted (trusted_keys : list string) (a : Artifact) : bool :=
  hash_well_formed (blake3_hash a)
  && signature_well_formed (signature a)
  && existsb (String.eqb (signing_key_id a)) trusted_keys.

(** What the specification asks of start() on a rollout whose artifact
    fails a check, read on a run of the handler: the artifact was fetched to
    be verified, the answer is a rejection of the artifact (so, at the least,
    not the answer of an endpoint that is not implemented), and the database
    is as it was. *)
Definition start_rejects_untrusted (db : Database) (rollout : Rollout)
    (out : Rest.Handled) : Prop :=
  In (Rest.QGetArtifact (artifact_id rollout)) (Rest.issued out)
  /\ Rest.status_code (Rest.response out) <> Rest.StatusNotImplemented
  /\ Rest.db_after out = db.

(** A step of the database moves every rollout along an edge of the table,
    or leaves its state as it was. *)
Definition step_follows_table (db db' : Database) : Prop :=
  forall (id : UUID) (r r' : Rollout),
    rollouts db !! id = Some r ->
    rollouts db' !! id = Some r' ->
    state r = state r' \/ spec_edge (state r) (state r') = true.

Fixpoint run_follows_table (db : Database) (cs : list (Timestamp * RolloutOp)) : Prop :=
  match cs with
  | [] => True
  | c :: rest => step_follows_table db (exec db c) /\ run_follows_table (exec db c) rest
  end.

(** The caller of a command asks for the current state of the rollout or
    for a successor of it in the table. *)
Definition asks_table_edge (db : Database) (c : Timestamp * RolloutOp) : Prop :=
  forall (r : Rollout) (s : RolloutState),
    rollouts db !! op_id (snd c) = Some r ->
    op_target (snd c) = Some s ->
    state r = s \/ spec_edge (state r) s = true.

Fixpoint run_asks_table_edges (db : Database) (cs : list (Timestamp * RolloutOp)) : Prop :=
  match cs with
  | [] => True
  | c :: rest => asks_table_edge db c /\ run_asks_table_edges (exec db c) rest
  end.

End Spec.

(** ** The gRPC device service *)

Module Registry.
Import Store.

(** google.golang.org/grpc/codes, the codes the service uses. *)
Inductive Code : Type :=
| InvalidArgument | NotFound | Internal.

Definition code_name (c : Code) : string :=
  match c with
  | InvalidArgument => "InvalidArgument"
  | NotFound => "NotFound"
  | Internal => "Internal"
  end.

(** The values of Go's [error] that flow through the service. *)
Inductive error : Type :=
| io_EOF
| StatusError (c : Code) (msg : string)
| DatabaseError (e : DBError)
| OtherError (text : string).

(** err.Error(), as "%v" prints it. *)
Definition error_text (e : error) : string :=
  match e with
  | io_EOF => "EOF"
  | StatusError c msg => "rpc error: code = " ++ code_name c ++ " desc = " ++ msg
  | DatabaseError ErrNoRows => "no rows in result set"
  | DatabaseError (ErrCheckViolation c) => "violates check constraint " ++ c
  | DatabaseError (ErrConnection m) => m
  | OtherError text => text
  end.

(** status.Errorf(c, format, ...), the message already formatted. *)
Definition status_Errorf (c : Code) (msg : string) : error := StatusError c msg.

(** The messages of the DeviceService protocol, with the fields the service
    reads. *)
Record HeartbeatRequest : Type := mkHeartbeatRequest {
  hb_DeviceId : string;
  hb_AgentVersion : string;
  hb_Timestamp : Z
}.

Record HealthReport : Type := mkHealthReport {
  health_DeviceId : string;
  health_RolloutId : string;
  health_Healthy : bool
}.

Record UpdateAck : Type := mkUpdateAck {
  ack_DeviceId : string;
  ack_RolloutId : string;
  ack_Status : string
}.

Record UpdateNotification : Type := mkUpdateNotification {
  update_RolloutId : string;
  update_ArtifactId : string
}.

Record RollbackRequest : Type := mkRollbackRequest {
  rollback_RolloutId : string;
  rollback_Reason : string
}.

(** pb.DeviceMessage: the oneof payload; [UnknownPayload] is the [default]
    case of the type switch. *)
Inductive DeviceMessage : Type :=
| DeviceMessage_Heartbeat (Heartbeat : HeartbeatRequest)
| DeviceMessage_Health (Health : HealthReport)
| DeviceMessage_UpdateAck (Ack : UpdateAck)
| UnknownPayload.

(** pb.ControlMessage: the oneof payload. *)
Inductive ControlMessage : Type :=
| ControlMessage_HeartbeatAck (Timestamp : Z)
| ControlMessage_Update (Update : UpdateNotification)
| ControlMessage_Rollback (Rollback : RollbackRequest).

(** zap: the calls made on the logger, in order. *)
Inductive Level : Type :=
| DebugLevel | InfoLevel | WarnLevel | ErrorLevel.

Inductive Field : Type :=
| zap_String (key val : string)
| zap_Bool (key : string) (val : bool)
| zap_Error (err : error).

Record LogEntry : Type := mkLogEntry {
  level : Level;
  message : string;
  fields : list Field
}.

(** A pb.DeviceService_DeviceStreamServer: one handle per open stream. *)
Definition Stream : Type := nat.

(** The DeviceService and what it reaches: the repository, the logger, the
    map of active streams, and the streams themselves: what Send has put on
    each, and for a stream whose transport is gone the error its Send
    returns. *)
Record DeviceService : Type := mkDeviceService {
  queries : Database;
  logger : list LogEntry;
  streams : gmap string Stream;
  sent : gmap Stream (list ControlMessage);
  send_error : gmap Stream error
}.

Definition NewDeviceService (queries : Database) : DeviceService :=
  mkDeviceService queries [] ∅ ∅ ∅.

Definition set_queries (s : DeviceService) (db : Database) : DeviceService :=
  mkDeviceService db (logger s) (streams s) (sent s) (send_error s).

Definition set_streams (s : DeviceService) (m : gmap string Stream) : DeviceService :=
  mkDeviceService (queries s) (logger s) m (sent s) (send_error s).

Definition set_sent (s : DeviceService) (m : gmap Stream (list ControlMessage))
    : DeviceService :=
  mkDeviceService (queries s) (logger s) (streams s) m (send_error s).

Definition log (s : DeviceService) (l : Level) (msg : string) (fs : list Field)
    : DeviceService :=
  mkDeviceService (queries s) (logger s ++ [mkLogEntry l msg fs])%list (streams s)
    (sent s) (send_error s).

(** The transport of a stream goes away: from now on its Send returns [e]. *)
Definition break_stream (s : DeviceService) (stream : Stream) (e : error)
    : DeviceService :=
  mkDeviceService (queries s) (logger s) (streams s) (sent s)
    (<[stream := e]> (send_error s)).

(** What has been sent on a stream so far. *)
Definition sent_on (s : DeviceService) (stream : Stream) : list ControlMessage :=
  default [] (sent s !! stream).

(** stream.Send(msg): the message goes out on the stream, or the stream's
    transport error comes back and nothing is sent. *)
Definition stream_Send (s : DeviceService) (stream : Stream) (msg : ControlMessage)
    : DeviceService * option error :=
  match send_error s !! stream with
  | Some e => (s, Some e)
  | None => (set_sent s (<[stream := (sent_on s stream ++ [msg])%list]> (sent s)), None)
  end.

Definition addStream (s : DeviceService) (deviceID : string) (stream : Stream)
    : DeviceService :=
  let s := set_streams s (<[deviceID := stream]> (streams s)) in
  log s InfoLevel "device stream registered" [zap_String "device_id" deviceID].

Definition removeStream (s : DeviceService) (deviceID : string) : DeviceService :=
  let s := set_streams s (delete deviceID (streams s)) in
  log s InfoLevel "device stream removed" [zap_String "device_id" deviceID].

(** SendUpdateNotification sends an update notification to a specific device *)
Definition SendUpdateNotification (s : DeviceService) (deviceID : string)
    (update : UpdateNotification) : DeviceService * option error :=
  match streams s !! deviceID with
  | None =>
      (s, Some (status_Errorf NotFound ("device " ++ deviceID ++ " not connected")))
  | Some stream =>
      let msg := ControlMessage_Update update in
      stream_Send s stream msg
  end.

(** SendRollbackRequest sends a rollback request to a specific device *)
Definition SendRollbackRequest (s : DeviceService) (deviceID : string)
    (rollback : RollbackRequest) : DeviceService * option error :=
  match streams s !! deviceID with
  | None =>
      (s, Some (status_Errorf NotFound ("device " ++ deviceID ++ " not connected")))
  | Some stream =>
      let msg := ControlMessage_Rollback rollback in
      stream_Send s stream msg
  end.

Definition handleHealthReport (s : DeviceService) (health : HealthReport)
    : DeviceService * option error :=
  let s := log s InfoLevel "health report received"
             [zap_String "device_id" (health_DeviceId health);
              zap_String "rollout_id" (health_RolloutId health);
              zap_Bool "healthy" (health_Healthy health)] in
  (* TODO: Update rollout_device_status table *)
  (s, None).

Definition handleUpdateAck (s : DeviceService) (ack : UpdateAck)
    : DeviceService * option error :=
  let s := log s InfoLevel "update ack received"
             [zap_String "device_id" (ack_DeviceId ack);
              zap_String "rollout_id" (ack_RolloutId ack);
              zap_String "status" (ack_Status ack)] in
  (* TODO: Update rollout_device_status table *)
  (s, None).

(** What one turn of the DeviceStream loop meets: the context is done (with
    ctx.Err()), or it is not and stream.Recv() returns, at server time [now]. *)
Inductive Turn : Type :=
| CtxDone (err : error)
| Recv (now : Timestamp) (r : Result error DeviceMessage).

(** The return statement a DeviceStream call left by. *)
Inductive Exit : Type :=
| ExitContextDone
| ExitStreamClosed
| ExitReceiveError
| ExitHeartbeatError.

(** A DeviceStream call after the turns given to it: still in its loop
    (blocked in Recv), or returned. [deviceID] is the local variable. *)
Inductive Outcome : Type :=
| Running (s : DeviceService) (deviceID : string)
| Returned (s : DeviceService) (deviceID : string) (by_ : Exit) (ret : option error).

Section Service.

(** uuid.Parse of github.com/google/uuid; on failure, the text of its error. *)
Variable uuid_Parse : string -> Result string UUID.

Definition handleHeartbeat (s : DeviceService) (now : Timestamp) (stream : Stream)
    (hb : HeartbeatRequest) : DeviceService * option error :=
  match uuid_Parse (hb_DeviceId hb) with
  | Err err =>
      (s, Some (status_Errorf InvalidArgument ("invalid device ID: " ++ err)))
  | Ok deviceUUID =>
      (* Update last_seen_at in database *)
      let '(db, res) := UpdateDeviceHeartbeat now (queries s) deviceUUID in
      let s := set_queries s db in
      let s :=
        match res with
        | Err err =>
            log s WarnLevel "failed to update device heartbeat"
              [zap_String "device_id" (hb_DeviceId hb); zap_Error (DatabaseError err)]
        | Ok _ => s
        end in
      let s := log s DebugLevel "heartbeat received"
                 [zap_String "device_id" (hb_DeviceId hb);
                  zap_String "agent_version" (hb_AgentVersion hb)] in
      (* Send heartbeat acknowledgment *)
      let ack := ControlMessage_HeartbeatAck (hb_Timestamp hb) in
      stream_Send s stream ack
  end.

(** One message of the type switch in DeviceStream: the service and the
    local [deviceID] after it, or the error the loop returns with. *)
Definition dispatch (s : DeviceService) (now : Timestamp) (stream : Stream)
    (deviceID : string) (msg : DeviceMessage)
    : DeviceService * Result error string :=
  match msg with
  | DeviceMessage_Heartbeat hb =>
      match handleHeartbeat s now stream hb with
      | (s, Some err) =>
          (log s ErrorLevel "heartbeat error"
             [zap_String "device_id" (hb_DeviceId hb); zap_Error err],
           Err err)
      | (s, None) =>
          let deviceID := hb_DeviceId hb in
          (addStream s deviceID stream, Ok deviceID)
      end
  | DeviceMessage_Health health =>
      match handleHealthReport s health with
      | (s, Some err) =>
          (log s ErrorLevel "health report error"
             [zap_String "device_id" (health_DeviceId health); zap_Error err],
           Ok deviceID)
      | (s, None) => (s, Ok deviceID)
      end
  | DeviceMessage_UpdateAck ack =>
      match handleUpdateAck s ack with
      | (s, Some err) =>
          (log s ErrorLevel "update ack error"
             [zap_String "device_id" (ack_DeviceId ack); zap_Error err],
           Ok deviceID)
      | (s, None) => (s, Ok deviceID)
      end
  | UnknownPayload =>
      (log s WarnLevel "unknown message type" [], Ok deviceID)
  end.

(** The [for] loop of DeviceStream, a turn per iteration. *)
Fixpoint DeviceStream_loop (s : DeviceService) (stream : Stream) (deviceID : string)
    (turns : list Turn) : Outcome :=
  match turns with
  | [] => Running s deviceID
  | CtxDone ctx_err :: _ =>
      let s := log s InfoLevel "device stream context done"
                 [zap_String "device_id" deviceID] in
      let s := removeStream s deviceID in
      Returned s deviceID ExitContextDone (Some ctx_err)
  | Recv _ (Err io_EOF) :: _ =>
      let s := log s InfoLevel "device stream closed"
                 [zap_String "device_id" deviceID] in
      let s := removeStream s deviceID in
      Returned s deviceID ExitStreamClosed None
  | Recv _ (Err err) :: _ =>
      let s := log s ErrorLevel "error receiving from device stream"
                 [zap_String "device_id" deviceID; zap_Error err] in
      let s := removeStream s deviceID in
      Returned s deviceID ExitReceiveError
        (Some (status_Errorf Internal ("receive error: " ++ error_text err)))
  | Recv now (Ok msg) :: rest =>
      match dispatch s now stream deviceID msg with
      | (s, Err err) => Returned s deviceID ExitHeartbeatError (Some err)
      | (s, Ok deviceID) => DeviceStream_loop s stream deviceID rest
      end
  end.

Definition DeviceStream (s : DeviceService) (stream : Stream) (turns : list Turn)
    : Outcome :=
  let deviceID := "" in
  DeviceStream_loop s stream deviceID turns.

End Service.

End Registry.

From stdpp Require Import pretty sorting.

Local Open Scope string_scope.

(** ** internal/controlplane/service: WireGuard address allocation *)

Module Ipam.
Import Store.

(** net.IP: a slice of bytes, the most significant first; each byte is a
    number below 256. *)
Definition IP : Type := list Z.

(** net.IPNet *)
Record IPNet : Type := mkIPNet {
  IPNet_IP : IP;
  IPNet_Mask : list Z
}.

(** type IPAM struct (the mutex left to Go) *)
Record IPAM : Type := mkIPAM {
  ipam_queries : Database;
  subnet : IPNet
}.

(** The number a slice of bytes spells, most significant byte first. *)
Definition be_value (ip : list Z) : Z :=
  fold_left (fun acc b => acc * 256 + b)%Z ip 0%Z.

(** The loop of incrementIP, [n] being i + 1:
    for i := len(result) - 1; i >= 0; i-- { result[i]++; if result[i] != 0 { break } } *)
Fixpoint incrementIP_loop (n : nat) (result : list Z) : list Z :=
  match n with
  | O => result
  | S i =>
      match result !! i with
      | None => result
      | Some b =>
          let b' := ((b + 1) mod 256)%Z in
          let result := <[i := b']> result in
          if decide (b' <> 0%Z) then result else incrementIP_loop i result
      end
  end.

(** incrementIP increments an IP address by one *)
Definition incrementIP (ip : IP) : IP :=
  let result := ip in
  incrementIP_loop (List.length result) result.

Section Cidr.

(** net.ParseCIDR: the address and the network of a CIDR text, or the text
    of its error. *)
Variable net_ParseCIDR : string -> Result string (IP * IPNet).

(** NewIPAM creates a new IP address manager *)
Definition NewIPAM (queries : Database) (cidr : string) : Result string IPAM :=
  match net_ParseCIDR cidr with
  | Err err => Err ("invalid CIDR: " ++ err)
  | Ok (_, subnet) => Ok (mkIPAM queries subnet)
  end.

End Cidr.

(** AllocateIP allocates the next available IP address in the subnet: the
    first address after the network address; the devices table is not read
    (the pool management is a TODO in the source). *)
Definition AllocateIP (i : IPAM) (orgID : string) : Result string IP :=
  let ip := incrementIP (IPNet_IP (subnet i)) in
  Ok ip.

End Ipam.

(** ** pkg/crypto: keys and streamed hashes *)

Module Keys.

(** A byte of a key, as a number below 256. *)
Definition in_byte_range (b : Z) : Prop := (0 <= b < 256)%Z.

(** The number a key spells, least significant byte first (the scalar of
    Curve25519). *)
Fixpoint le_value (key : list Z) : Z :=
  match key with
  | [] => 0%Z
  | b :: rest => (b + 256 * le_value rest)%Z
  end.

(** type WireGuardKeyPair struct: two [32]byte arrays. *)
Record WireGuardKeyPair : Type := mkWireGuardKeyPair {
  PublicKey : list Z;
  PrivateKey : list Z
}.

(** Clamp the private key as per WireGuard spec:
    privateKey[0] &= 248; privateKey[31] &= 127; privateKey[31] |= 64 *)
Definition clamp (privateKey : list Z) : list Z :=
  let privateKey := alter (fun b => Z.land b 248) 0%nat privateKey in
  let privateKey := alter (fun b => Z.land b 127) 31%nat privateKey in
  alter (fun b => Z.lor b 64) 31%nat privateKey.

(** The zero value of [32]byte. *)
Definition zero_key : list Z := repeat 0%Z 32.

Section Curve.

(** curve25519.ScalarBaseMult, and encoding/base64's StdEncoding. *)
Variable curve25519_ScalarBaseMult : list Z -> list Z.
Variable base64_EncodeToString : list Z -> string.
Variable base64_DecodeString : string -> Result string (list Z).

(** GenerateWireGuardKeyPair generates a new WireGuard key pair; [random] is
    what rand.Read put into the 32 bytes of the private key, or its error. *)
Definition GenerateWireGuardKeyPair (random : Result string (list Z))
    : Result string WireGuardKeyPair :=
  match random with
  | Err err => Err ("failed to generate random bytes: " ++ err)
  | Ok privateKey =>
      let privateKey := clamp privateKey in
      let publicKey := curve25519_ScalarBaseMult privateKey in
      Ok (mkWireGuardKeyPair publicKey privateKey)
  end.

(** PublicKeyString returns the base64-encoded public key *)
Definition PublicKeyString (k : WireGuardKeyPair) : string :=
  base64_EncodeToString (PublicKey k).

(** PrivateKeyString returns the base64-encoded private key *)
Definition PrivateKeyString (k : WireGuardKeyPair) : string :=
  base64_EncodeToString (PrivateKey k).

(** ParseWireGuardPublicKey parses a base64-encoded WireGuard public key; the
    key returned with an error is the zero key. *)
Definition ParseWireGuardPublicKey (encoded : string) : list Z * option string :=
  let key := zero_key in
  match base64_DecodeString encoded with
  | Err err => (key, Some ("failed to decode public key: " ++ err))
  | Ok data =>
      if decide (List.length data <> 32%nat) then
        (key, Some ("invalid public key size: got " ++ pretty (List.length data)
                    ++ ", want 32"))
      else (data, None)
  end.

(** ParseWireGuardPrivateKey parses a base64-encoded WireGuard private key *)
Definition ParseWireGuardPrivateKey (encoded : string) : list Z * option string :=
  let key := zero_key in
  match base64_DecodeString encoded with
  | Err err => (key, Some ("failed to decode private key: " ++ err))
  | Ok data =>
      if decide (List.length data <> 32%nat) then
        (key, Some ("invalid private key size: got " ++ pretty (List.length data)
                    ++ ", want 32"))
      else (data, None)
  end.

(** ed25519.PublicKeySize and ed25519.PrivateKeySize *)
Definition ed25519_PublicKeySize : nat := 32.
Definition ed25519_PrivateKeySize : nat := 64.

(** ParseEd25519PublicKey parses a base64-encoded public key *)
Definition ParseEd25519PublicKey (encoded : string) : Result string (list Z) :=
  match base64_DecodeString encoded with
  | Err err => Err ("failed to decode public key: " ++ err)
  | Ok data =>
      if decide (List.length data <> ed25519_PublicKeySize) then
        Err ("invalid public key size: got " ++ pretty (List.length data)
             ++ ", want " ++ pretty ed25519_PublicKeySize)
      else Ok data
  end.

(** ParseEd25519PrivateKey parses a base64-encoded private key *)
Definition ParseEd25519PrivateKey (encoded : string) : Result string (list Z) :=
  match base64_DecodeString encoded with
  | Err err => Err ("failed to decode private key: " ++ err)
  | Ok data =>
      if decide (List.length data <> ed25519_PrivateKeySize) then
        Err ("invalid private key size: got " ++ pretty (List.length data)
             ++ ", want " ++ pretty ed25519_PrivateKeySize)
      else Ok data
  end.

End Curve.

(** An io.Reader, by what reading it to the end gives: the chunks its Read
    calls deliver in order, and then io.EOF or an error. *)
Record Reader : Type := mkReader {
  chunks : list (list byte);
  read_error : option string
}.

Section Streamed.

Variable blake3_Sum256 : list byte -> list byte.

(** A blake3.Hasher is held as the bytes written to it so far; its Sum(nil)
    is the digest of those bytes (hash.Hash). io.Copy writes every chunk
    the reader delivers. *)
Definition io_Copy (hasher : list byte) (r : Reader) : list byte * option string :=
  (fold_left (fun h chunk => (h ++ chunk)%list) (chunks r) hasher, read_error r).

(** BLAKE3HashReader computes the BLAKE3 hash of data from a reader *)
Definition BLAKE3HashReader (r : Reader) : string * option string :=
  let hasher := [] in
  match io_Copy hasher r with
  | (_, Some err) => ("", Some ("failed to compute hash: " ++ err))
  | (hasher, None) =>
      let hash := blake3_Sum256 hasher in
      (Crypto.EncodeToString hash, None)
  end.

End Streamed.

End Keys.

(** ** The other queries over the rollout and device tables *)

Module Queries.
Import Store.

#[global] Instance RolloutState_eq_dec : EqDecision RolloutState.
Proof. solve_decision. Defined.

#[global] Instance RolloutDeviceState_eq_dec : EqDecision RolloutDeviceState.
Proof. solve_decision. Defined.

#[global] Instance DeviceState_eq_dec : EqDecision DeviceState.
Proof. solve_decision. Defined.

(** What an INSERT can fail with: the connection's error, or a violated
    constraint of the schema. *)
Inductive InsertError : Type :=
| InsertFault (e : DBError)
| CheckViolation (constraint : string)
| UniqueViolation (constraint : string)
| ForeignKeyViolation (constraint : string).

Definition device_state_of_text (s : string) : option DeviceState :=
  if String.eqb s "ACTIVE" then Some ACTIVE
  else if String.eqb s "SUSPENDED" then Some SUSPENDED
  else if String.eqb s "DECOMMISSIONED" then Some DECOMMISSIONED
  else None.

(** *** rollout_device_status *)

(** -- name: CreateRolloutDeviceStatus :one
    INSERT INTO rollout_device_status (rollout_id, device_id, is_canary, status)
    VALUES ($1, $2, $3, 'PENDING') RETURNING *;
    health_check_result is NULL and updated_at its default NOW(). The primary
    key is checked when the row goes into its index, the two foreign keys
    after it, in the order of the schema. *)
Definition CreateRolloutDeviceStatus (now : Timestamp) (db : Database)
    (rollout_id device_id : UUID) (canary : bool)
    : Database * Result InsertError RolloutDeviceStatus :=
  match fault db with
  | Some e => (db, Err (InsertFault e))
  | None =>
      match rollout_device_status db !! (rollout_id, device_id) with
      | Some _ => (db, Err (UniqueViolation "rollout_device_status_pkey"))
      | None =>
          match rollouts db !! rollout_id with
          | None => (db, Err (ForeignKeyViolation "rollout_device_status_rollout_id_fkey"))
          | Some _ =>
              match devices db !! device_id with
              | None =>
                  (db, Err (ForeignKeyViolation "rollout_device_status_device_id_fkey"))
              | Some _ =>
                  let row := mkRolloutDeviceStatus canary PENDING None now in
                  (set_rollout_device_status db
                     (<[(rollout_id, device_id) := row]> (rollout_device_status db)),
                   Ok row)
              end
          end
      end
  end.

(** status = $2, the column compared with a text. *)
Definition status_is (text : string) (row : RolloutDeviceStatus) : bool :=
  match rollout_device_state_of_text text with
  | Some s => bool_decide (status row = s)
  | None => false
  end.

(** COUNT( * ) ... WHERE rollout_id = $1 AND status = $2, on the table. *)
Definition count_rows (t : gmap (UUID * UUID) RolloutDeviceStatus)
    (rollout_id : UUID) (status_text : string) : nat :=
  size (filter
          (fun kv : UUID * UUID * RolloutDeviceStatus =>
             fst (fst kv) = rollout_id /\ status_is status_text (snd kv) = true)
          t).

(** -- name: CountRolloutDevicesByStatus :one
    SELECT COUNT( * ) FROM rollout_device_status
    WHERE rollout_id = $1 AND status = $2; *)
Definition CountRolloutDevicesByStatus (db : Database) (rollout_id : UUID)
    (status_text : string) : Result DBError Z :=
  match fault db with
  | Some e => Err e
  | None => Ok (Z.of_nat (count_rows (rollout_device_status db) rollout_id status_text))
  end.

(** ORDER BY is_canary DESC, updated_at ASC: [a] may come before [b]. *)
Definition canary_then_oldest (a b : UUID * UUID * RolloutDeviceStatus) : bool :=
  (is_canary (snd a) && negb (is_canary (snd b)))
  || (Bool.eqb (is_canary (snd a)) (is_canary (snd b))
      && (updated_at (snd a) <=? updated_at (snd b))%Z).

(** ORDER BY updated_at ASC *)
Definition oldest_first (a b : UUID * UUID * RolloutDeviceStatus) : bool :=
  (updated_at (snd a) <=? updated_at (snd b))%Z.

Definition by_canary_then_oldest : relation (UUID * UUID * RolloutDeviceStatus) :=
  fun a b => canary_then_oldest a b = true.

Definition by_oldest_first : relation (UUID * UUID * RolloutDeviceStatus) :=
  fun a b => oldest_first a b = true.

#[global] Instance by_canary_then_oldest_dec : RelDecision by_canary_then_oldest.
Proof. intros a b. unfold by_canary_then_oldest. apply _. Defined.

#[global] Instance by_oldest_first_dec : RelDecision by_oldest_first.
Proof. intros a b. unfold by_oldest_first. apply _. Defined.

(** -- name: ListRolloutDeviceStatuses :many
    SELECT * FROM rollout_device_status WHERE rollout_id = $1
    ORDER BY is_canary DESC, updated_at ASC;
    rows that the ORDER BY does not tell apart come in the order the sort
    meets them, which SQL leaves open. *)
Definition ListRolloutDeviceStatuses (db : Database) (rollout_id : UUID)
    : Result DBError (list (UUID * UUID * RolloutDeviceStatus)) :=
  match fault db with
  | Some e => Err e
  | None =>
      Ok (merge_sort by_canary_then_oldest
            (map_to_list (filter
               (fun kv : UUID * UUID * RolloutDeviceStatus => fst (fst kv) = rollout_id)
               (rollout_device_status db))))
  end.

(** -- name: GetCanaryDevices :many
    SELECT * FROM rollout_device_status
    WHERE rollout_id = $1 AND is_canary = true ORDER BY updated_at ASC; *)
Definition GetCanaryDevices (db : Database) (rollout_id : UUID)
    : Result DBError (list (UUID * UUID * RolloutDeviceStatus)) :=
  match fault db with
  | Some e => Err e
  | None =>
      Ok (merge_sort by_oldest_first
            (map_to_list (filter
               (fun kv : UUID * UUID * RolloutDeviceStatus =>
                  fst (fst kv) = rollout_id /\ is_canary (snd kv) = true)
               (rollout_device_status db))))
  end.

(** *** devices *)

(** -- name: GetDevice :one *)
Definition GetDevice (db : Database) (id : UUID) : Result DBError Device :=
  match fault db with
  | Some e => Err e
  | None =>
      match devices db !! id with
      | Some d => Ok d
      | None => Err ErrNoRows
      end
  end.

(** SET status = $2 *)
Definition set_device_status (s : DeviceState) (d : Device) : Device :=
  mkDevice (device_organization_id d) (public_key d) (wireguard_public_key d)
    (wireguard_ip d) (agent_version d) (platform d) (site_tag d)
    s (last_seen_at d) (device_created_at d).

(** -- name: UpdateDeviceStatus :one
    UPDATE devices SET status = $2 WHERE id = $1 RETURNING *; *)
Definition UpdateDeviceStatus (db : Database) (id : UUID) (new_status : string)
    : Database * Result DBError Device :=
  match fault db with
  | Some e => (db, Err e)
  | None =>
      match devices db !! id with
      | None => (db, Err ErrNoRows)
      | Some d =>
          match device_state_of_text new_status with
          | None => (db, Err (ErrCheckViolation "devices_status_check"))
          | Some s =>
              let d' := set_device_status s d in
              (set_devices db (<[id := d']> (devices db)), Ok d')
          end
      end
  end.

(** INTERVAL '5 minutes', in the unit of [Timestamp]. *)
Definition five_minutes : Z := 300000000.

(** WHERE status = 'ACTIVE' AND last_seen_at < NOW() - INTERVAL '5 minutes';
    the comparison with a NULL last_seen_at is not true. *)
Definition stale_at (now : Timestamp) (d : Device) : bool :=
  bool_decide (device_status d = ACTIVE)
  && match last_seen_at d with
     | Some t => (t <? now - five_minutes)%Z
     | None => false
     end.

(** ORDER BY last_seen_at ASC, over rows whose last_seen_at is not NULL. *)
Definition seen_before (a b : UUID * Device) : bool :=
  match last_seen_at (snd a), last_seen_at (snd b) with
  | Some ta, Some tb => (ta <=? tb)%Z
  | None, Some _ => false
  | _, None => true
  end.

Definition by_seen_before : relation (UUID * Device) :=
  fun a b => seen_before a b = true.

#[global] Instance by_seen_before_dec : RelDecision by_seen_before.
Proof. intros a b. unfold by_seen_before. apply _. Defined.

#[global] Instance by_canary_then_oldest_total : Total by_canary_then_oldest.
Proof.
  intros a b. unfold by_canary_then_oldest, canary_then_oldest.
  destruct (is_canary (snd a)), (is_canary (snd b)); simpl;
    rewrite ?Z.leb_le; lia.
Qed.

#[global] Instance by_canary_then_oldest_trans : Transitive by_canary_then_oldest.
Proof.
  intros a b c. unfold by_canary_then_oldest, canary_then_oldest.
  destruct (is_canary (snd a)), (is_canary (snd b)), (is_canary (snd c)); simpl;
    rewrite ?Z.leb_le; try discriminate; try reflexivity; lia.
Qed.

#[global] Instance by_oldest_first_total : Total by_oldest_first.
Proof.
  intros a b. unfold by_oldest_first, oldest_first. rewrite !Z.leb_le. lia.
Qed.

#[global] Instance by_oldest_first_trans : Transitive by_oldest_first.
Proof.
  intros a b c. unfold by_oldest_first, oldest_first. rewrite !Z.leb_le. lia.
Qed.

#[global] Instance by_seen_before_total : Total by_seen_before.
Proof.
  intros a b. unfold by_seen_before, seen_before.
  destruct (last_seen_at (snd a)), (last_seen_at (snd b));
    rewrite ?Z.leb_le; try lia; auto.
Qed.

#[global] Instance by_seen_before_trans : Transitive by_seen_before.
Proof.
  intros a b c. unfold by_seen_before, seen_before.
  destruct (last_seen_at (snd a)), (last_seen_at (snd b)), (last_seen_at (snd c));
    rewrite ?Z.leb_le; try discriminate; try reflexivity; lia.
Qed.

(** -- name: GetStaleDevices :many
    SELECT * FROM devices
    WHERE status = 'ACTIVE' AND last_seen_at < NOW() - INTERVAL '5 minutes'
    ORDER BY last_seen_at ASC; *)
Definition GetStaleDevices (now : Timestamp) (db : Database)
    : Result DBError (list (UUID * Device)) :=
  match fault db with
  | Some e => Err e
  | None =>
      Ok (merge_sort by_seen_before
            (map_to_list (filter
               (fun kv : UUID * Device => stale_at now (snd kv) = true)
               (devices db))))
  end.

End Queries.

(** ** What a DeviceStream call leaves behind *)

Module Views.
Import Store Registry.

(** The service and the local deviceID of a DeviceStream call, running or
    returned. *)
Definition service_of (o : Outcome) : DeviceService :=
  match o with
  | Running s _ => s
  | Returned s _ _ _ => s
  end.

Definition deviceID_of (o : Outcome) : string :=
  match o with
  | Running _ deviceID => deviceID
  | Returned _ deviceID _ _ => deviceID
  end.

Definition is_HeartbeatAck (m : ControlMessage) : bool :=
  match m with
  | ControlMessage_HeartbeatAck _ => true
  | _ => false
  end.

(** A device row with its last_seen_at blanked: two rows with the same image
    differ in last_seen_at at most. *)
Definition but_last_seen_at (d : Device) : Device :=
  mkDevice (device_organization_id d) (public_key d) (wireguard_public_key d)
    (wireguard_ip d) (agent_version d) (platform d) (site_tag d)
    (device_status d) None (device_created_at d).

(** What a DeviceStream call on [stream] keeps of the service [s] it starts
    from: every table but devices, the device rows up to last_seen_at, the
    entries of the stream map that do not hold [stream], and what the other
    streams carry; [stream] itself carries what it did and then heartbeat
    acknowledgements only. *)
Definition kept_by_stream (stream : Stream) (s s' : DeviceService) : Prop :=
  rollouts (queries s') = rollouts (queries s)
  /\ rollout_device_status (queries s') = rollout_device_status (queries s)
  /\ artifacts (queries s') = artifacts (queries s)
  /\ fault (queries s') = fault (queries s)
  /\ (forall id : UUID,
        but_last_seen_at <$> devices (queries s') !! id
        = but_last_seen_at <$> devices (queries s) !! id)
  /\ send_error s' = send_error s
  /\ (forall (deviceID : string) (h : Stream),
        streams s' !! deviceID = Some h -> h = stream \/ streams s !! deviceID = Some h)
  /\ (forall other : Stream, other <> stream -> sent_on s' other = sent_on s other)
  /\ (exists acks : list ControlMessage,
        sent_on s' stream = (sent_on s stream ++ acks)%list
        /\ forallb is_HeartbeatAck acks = true).

(** The device ids of the heartbeats among the turns. *)
Fixpoint heartbeat_ids (turns : list Turn) : list string :=
  match turns with
  | [] => []
  | Recv _ (Ok (DeviceMessage_Heartbeat hb)) :: rest => hb_DeviceId hb :: heartbeat_ids rest
  | _ :: rest => heartbeat_ids rest
  end.

End Views.

(** ** REST handlers of the devices *)

Module DeviceRest.
Import Store Registry.

(** A handler run: the database after it, the calls it made on the logger,
    and the response. *)
Record Served : Type := mkServed {
  served_db : Database;
  served_log : list LogEntry;
  served_response : Rest.Response
}.

Definition StatusOK : Z := 200.
Definition StatusCreated : Z := 201.
Definition StatusBadRequest : Z := 400.
Definition StatusUnauthorized : Z := 401.
Definition StatusNotFound : Z := 404.
Definition StatusInternalServerError : Z := 500.

(** w.Header().Set("Content-Type", "application/json"), an optional
    w.WriteHeader(code) (200 without it), and json.NewEncoder(w).Encode(v),
    which writes the document and a newline. *)
Definition json_response (code : Z) (doc : string) : Rest.Response :=
  Rest.mkResponse code [("Content-Type", "application/json")]
    (doc ++ String (ascii_of_nat 10) EmptyString).

Section Handlers.

(** uuid.Parse, and encoding/json on a row of devices (with its id). *)
Variable uuid_Parse : string -> Result string UUID.
Variable json_Device : UUID -> Device -> string.

(** func GetDevice(queries, logger) http.HandlerFunc *)
Definition GetDevice (queries : Database) (r : Rest.Request) : Served :=
  match uuid_Parse (Rest.url_id r) with
  | Err _ =>
      mkServed queries [] (Rest.http_Error "invalid device ID" StatusBadRequest)
  | Ok deviceID =>
      match Queries.GetDevice queries deviceID with
      | Err err =>
          mkServed queries
            [mkLogEntry ErrorLevel "failed to get device" [zap_Error (DatabaseError err)]]
            (Rest.http_Error "not found" StatusNotFound)
      | Ok device =>
          mkServed queries [] (json_response StatusOK (json_Device deviceID device))
      end
  end.

(** func SuspendDevice(queries, logger) http.HandlerFunc *)
Definition SuspendDevice (queries : Database) (r : Rest.Request) : Served :=
  match uuid_Parse (Rest.url_id r) with
  | Err _ =>
      mkServed queries [] (Rest.http_Error "invalid device ID" StatusBadRequest)
  | Ok deviceID =>
      match Queries.UpdateDeviceStatus queries deviceID "SUSPENDED" with
      | (db, Err err) =>
          mkServed db
            [mkLogEntry ErrorLevel "failed to suspend device"
               [zap_Error (DatabaseError err)]]
            (Rest.http_Error "internal error" StatusInternalServerError)
      | (db, Ok device) =>
          mkServed db [] (json_response StatusOK (json_Device deviceID device))
      end
  end.

(** func ReactivateDevice(queries, logger) http.HandlerFunc *)
Definition ReactivateDevice (queries : Database) (r : Rest.Request) : Served :=
  match uuid_Parse (Rest.url_id r) with
  | Err _ =>
      mkServed queries [] (Rest.http_Error "invalid device ID" StatusBadRequest)
  | Ok deviceID =>
      match Queries.UpdateDeviceStatus queries deviceID "ACTIVE" with
      | (db, Err err) =>
          mkServed db
            [mkLogEntry ErrorLevel "failed to reactivate device"
               [zap_Error (DatabaseError err)]]
            (Rest.http_Error "internal error" StatusInternalServerError)
      | (db, Ok device) =>
          mkServed db [] (json_response StatusOK (json_Device deviceID device))
      end
  end.

End Handlers.

End DeviceRest.

(** ** Enrollment: tokens, device creation, the EnrollDevice handler *)

Module Enrollment.
Import Store Registry.

(** A row of organizations. *)
Record Organization : Type := mkOrganization {
  organization_name : string;
  organization_created_at : Timestamp
}.

(** A row of enrollment_tokens; max_uses and used_count are INTEGER
    columns. *)
Record EnrollmentToken : Type := mkEnrollmentToken {
  token_organization_id : UUID;
  token_hash : string;
  token_site_tag : option string;
  expires_at : Timestamp;
  max_uses : Z;
  used_count : Z;
  token_created_at : Timestamp
}.

(** The tables of [Database] and the two that enrollment reads beside
    them. *)
Record Tables : Type := mkTables {
  base : Database;
  organizations : gmap UUID Organization;
  enrollment_tokens : gmap UUID EnrollmentToken
}.

Definition set_base (t : Tables) (db : Database) : Tables :=
  mkTables db (organizations t) (enrollment_tokens t).

Definition set_enrollment_tokens (t : Tables) (m : gmap UUID EnrollmentToken) : Tables :=
  mkTables (base t) (organizations t) m.

(** What a statement of this module can fail with. *)
Inductive SqlError : Type :=
| SqlFault (e : DBError)
| SqlNoRows
| SqlNumericOutOfRange
| SqlUniqueViolation (constraint : string)
| SqlForeignKeyViolation (constraint : string).

Definition sql_error_text (e : SqlError) : string :=
  match e with
  | SqlFault e => error_text (DatabaseError e)
  | SqlNoRows => "no rows in result set"
  | SqlNumericOutOfRange => "integer out of range"
  | SqlUniqueViolation c => "duplicate key value violates unique constraint " ++ c
  | SqlForeignKeyViolation c => "violates foreign key constraint " ++ c
  end.

(** The largest INTEGER. *)
Definition max_int32 : Z := 2147483647.

(** WHERE token_hash = $1 AND expires_at > NOW() AND used_count < max_uses *)
Definition token_usable (now : Timestamp) (hash : string) (tok : EnrollmentToken) : bool :=
  String.eqb (token_hash tok) hash
  && (now <? expires_at tok)%Z
  && (used_count tok <? max_uses tok)%Z.

(** -- name: GetEnrollmentTokenByHash :one
    SELECT * FROM enrollment_tokens
    WHERE token_hash = $1 AND expires_at > NOW() AND used_count < max_uses;
    the first row the scan meets (token_hash is UNIQUE, so there is one at
    most). *)
Definition GetEnrollmentTokenByHash (now : Timestamp) (t : Tables) (hash : string)
    : Result SqlError (UUID * EnrollmentToken) :=
  match fault (base t) with
  | Some e => Err (SqlFault e)
  | None =>
      match map_to_list (filter
              (fun kv : UUID * EnrollmentToken => token_usable now hash (snd kv) = true)
              (enrollment_tokens t)) with
      | row :: _ => Ok row
      | [] => Err SqlNoRows
      end
  end.

(** SET used_count = used_count + 1 *)
Definition set_used_count (n : Z) (tok : EnrollmentToken) : EnrollmentToken :=
  mkEnrollmentToken (token_organization_id tok) (token_hash tok) (token_site_tag tok)
    (expires_at tok) (max_uses tok) n (token_created_at tok).

(** -- name: IncrementTokenUsage :one
    UPDATE enrollment_tokens SET used_count = used_count + 1
    WHERE id = $1 RETURNING *; *)
Definition IncrementTokenUsage (t : Tables) (id : UUID)
    : Tables * Result SqlError EnrollmentToken :=
  match fault (base t) with
  | Some e => (t, Err (SqlFault e))
  | None =>
      match enrollment_tokens t !! id with
      | None => (t, Err SqlNoRows)
      | Some tok =>
          if decide (used_count tok + 1 > max_int32)%Z then (t, Err SqlNumericOutOfRange)
          else
            let tok' := set_used_count (used_count tok + 1) tok in
            (set_enrollment_tokens t (<[id := tok']> (enrollment_tokens t)), Ok tok')
      end
  end.

(** -- name: CreateEnrollmentToken :one
    INSERT INTO enrollment_tokens
      (organization_id, token_hash, site_tag, expires_at, max_uses)
    VALUES ($1, $2, $3, $4, $5) RETURNING *;
    [new_id] is the uuid_generate_v4() of the row; used_count is 0 and
    created_at NOW(). *)
Definition CreateEnrollmentToken (now : Timestamp) (new_id : UUID) (t : Tables)
    (organization_id : UUID) (hash : string) (tag : option string)
    (expires : Timestamp) (uses : Z)
    : Tables * Result SqlError (UUID * EnrollmentToken) :=
  match fault (base t) with
  | Some e => (t, Err (SqlFault e))
  | None =>
      if decide (is_Some (enrollment_tokens t !! new_id)) then
        (t, Err (SqlUniqueViolation "enrollment_tokens_pkey"))
      else if decide (map_Exists (fun _ tok => token_hash tok = hash)
                        (enrollment_tokens t)) then
        (t, Err (SqlUniqueViolation "enrollment_tokens_token_hash_key"))
      else if decide (organizations t !! organization_id = None) then
        (t, Err (SqlForeignKeyViolation "enrollment_tokens_organization_id_fkey"))
      else
        let tok := mkEnrollmentToken organization_id hash tag expires uses 0 now in
        (set_enrollment_tokens t (<[new_id := tok]> (enrollment_tokens t)),
         Ok (new_id, tok))
  end.

(** -- name: CountDevicesByStatus :one
    SELECT COUNT( * ) FROM devices WHERE organization_id = $1 AND status = $2; *)
Definition device_counted (organization_id : UUID) (status_text : string)
    (kv : UUID * Device) : Prop :=
  device_organization_id (snd kv) = organization_id
  /\ Queries.device_state_of_text status_text = Some (device_status (snd kv)).

#[global] Instance device_counted_dec (organization_id : UUID) (status_text : string)
    (kv : UUID * Device) : Decision (device_counted organization_id status_text kv).
Proof. unfold device_counted. apply _. Defined.

Definition CountDevicesByStatus (t : Tables) (organization_id : UUID)
    (status_text : string) : Result SqlError Z :=
  match fault (base t) with
  | Some e => Err (SqlFault e)
  | None =>
      Ok (Z.of_nat (size (filter (device_counted organization_id status_text)
                            (devices (base t)))))
  end.

(** -- name: CreateDevice :one
    INSERT INTO devices (organization_id, public_key, wireguard_public_key,
      wireguard_ip, agent_version, platform, site_tag, status)
    VALUES ($1, ..., $7, 'ACTIVE') RETURNING *;
    the unique indexes are checked in the order of the schema, the foreign
    key after them. *)
Definition CreateDevice (now : Timestamp) (new_id : UUID) (t : Tables)
    (organization_id : UUID) (pk wg_pk wg_ip version plat : string)
    (tag : option string) : Tables * Result SqlError (UUID * Device) :=
  match fault (base t) with
  | Some e => (t, Err (SqlFault e))
  | None =>
      if decide (is_Some (devices (base t) !! new_id)) then
        (t, Err (SqlUniqueViolation "devices_pkey"))
      else if decide (map_Exists (fun _ d => public_key d = pk) (devices (base t))) then
        (t, Err (SqlUniqueViolation "devices_public_key_key"))
      else if decide (map_Exists (fun _ d => wireguard_public_key d = wg_pk)
                        (devices (base t))) then
        (t, Err (SqlUniqueViolation "devices_wireguard_public_key_key"))
      else if decide (organizations t !! organization_id = None) then
        (t, Err (SqlForeignKeyViolation "devices_organization_id_fkey"))
      else
        let d := mkDevice organization_id pk wg_pk wg_ip version plat tag ACTIVE None now in
        (set_base t (set_devices (base t) (<[new_id := d]> (devices (base t)))),
         Ok (new_id, d))
  end.

(** -- name: DeleteExpiredTokens :exec
    DELETE FROM enrollment_tokens
    WHERE expires_at < NOW() AND used_count < max_uses; *)
Definition token_deleted (now : Timestamp) (tok : EnrollmentToken) : bool :=
  (expires_at tok <? now)%Z && (used_count tok <? max_uses tok)%Z.

Definition DeleteExpiredTokens (now : Timestamp) (t : Tables)
    : Tables * option SqlError :=
  match fault (base t) with
  | Some e => (t, Some (SqlFault e))
  | None =>
      (set_enrollment_tokens t
         (filter (fun kv : UUID * EnrollmentToken => token_deleted now (snd kv) = false)
            (enrollment_tokens t)),
       None)
  end.

(** type EnrollDeviceRequest struct *)
Record EnrollDeviceRequest : Type := mkEnrollDeviceRequest {
  Token : string;
  PublicKey : string;
  WireguardPublicKey : string;
  Platform : string;
  AgentVersion : string;
  SiteTag : string
}.

(** type EnrollDeviceResponse struct *)
Record EnrollDeviceResponse : Type := mkEnrollDeviceResponse {
  DeviceID : string;
  WireguardIP : string;
  Status : string
}.

(** A handler run over the tables. *)
Record Enrolled : Type := mkEnrolled {
  tables_after : Tables;
  logged : list LogEntry;
  answer : Rest.Response
}.

(** func stringToText(s string) pgtype.Text *)
Definition stringToText (s : string) : option string :=
  if String.eqb s "" then None else Some s.

(** net.IPv4(a, b, c, d): the 16-byte form of the address, its four bytes
    behind the prefix of the IPv4-mapped addresses. *)
Definition net_IPv4 (a b c d : Z) : list Z :=
  [0; 0; 0; 0; 0; 0; 0; 0; 0; 0; 255; 255; a; b; c; d]%Z.

(** wireguardIP := net.IPv4(10, 100, 0, byte(deviceCount+2)); the conversion
    to byte keeps the low eight bits. *)
Definition allocated_IP (deviceCount : Z) : list Z :=
  net_IPv4 10 100 0 ((deviceCount + 2) mod 256)%Z.

(** IP.String() of a value of net.IPv4: To4 returns its last four bytes,
    which String writes in dotted decimal. The handler calls String on such
    a value only; of the other branches of String the one for the empty
    slice is kept. *)
Definition IPv4_String (ip : list Z) : string :=
  match skipn 12 ip with
  | [a; b; c; d] => pretty a ++ "." ++ pretty b ++ "." ++ pretty c ++ "." ++ pretty d
  | _ => "<nil>"
  end.

(** The text of the address of an enrollment, 10.100.0.x with
    x = byte(deviceCount+2). *)
Definition allocated_address (deviceCount : Z) : string :=
  "10.100.0." ++ pretty ((deviceCount + 2) mod 256)%Z.

Definition device_state_text (s : DeviceState) : string :=
  match s with
  | ACTIVE => "ACTIVE"
  | SUSPENDED => "SUSPENDED"
  | DECOMMISSIONED => "DECOMMISSIONED"
  end.

(** How far the handler has come with a request. The queries run on a
    pgxpool.Pool (generated.New(pool) in cmd/control-plane), each statement
    on its own and in no transaction, and http.Server serves each request in
    a goroutine of its own, so statements of other requests can run between
    the statements of one. *)
Inductive Progress : Type :=
| Received (r : Rest.Request)
| TokenFound (req : EnrollDeviceRequest) (tokenID : UUID)
    (enrollmentToken : EnrollmentToken)
| UsageCounted (req : EnrollDeviceRequest) (enrollmentToken : EnrollmentToken)
| DevicesCounted (req : EnrollDeviceRequest) (enrollmentToken : EnrollmentToken)
    (deviceCount : Z) (log1 : list LogEntry)
| Answered (log : list LogEntry) (response : Rest.Response).

(** A turn of the server: the request that runs its next statement, the
    NOW() of that statement and the id the database generates in it. *)
Definition Slot : Type := (nat * Timestamp * UUID)%type.

Section Handler.

(** encoding/json on the request and the response, crypto/sha256,
    UUID.String, and what the driver stores in the INET column for a net.IP
    (as the text of the column). *)
Variable json_decode_request : string -> Result string EnrollDeviceRequest.
Variable json_response_doc : EnrollDeviceResponse -> string.
Variable sha256_Sum256 : list byte -> list byte.
Variable uuid_String : UUID -> string.
Variable inet_of_IP : list Z -> string.

(** hex.EncodeToString(sha256.Sum256([]byte(token))): the hash a token is
    stored and looked up by. *)
Definition hash_of (token : string) : string :=
  Crypto.EncodeToString (sha256_Sum256 (list_byte_of_string token)).

(** func EnrollDevice(queries, logger) http.HandlerFunc, for a request whose
    statements run with no statement of another request between them; [now]
    is the NOW() of its statements and [new_id] the id the database generates
    for the device. [statement] below gives the same statements one at a
    time. *)
Definition EnrollDevice (now : Timestamp) (new_id : UUID) (t : Tables)
    (r : Rest.Request) : Enrolled :=
  match json_decode_request (Rest.request_body r) with
  | Err err =>
      mkEnrolled t
        [mkLogEntry ErrorLevel "failed to decode request" [zap_Error (OtherError err)]]
        (Rest.http_Error "invalid request" DeviceRest.StatusBadRequest)
  | Ok req =>
      (* Hash the provided token *)
      let tokenHash := hash_of (Token req) in
      (* Verify enrollment token *)
      match GetEnrollmentTokenByHash now t tokenHash with
      | Err _ =>
          mkEnrolled t
            [mkLogEntry WarnLevel "invalid enrollment token"
               [zap_String "token_hash" tokenHash]]
            (Rest.http_Error "unauthorized" DeviceRest.StatusUnauthorized)
      | Ok (tokenID, enrollmentToken) =>
          (* Increment token usage *)
          match IncrementTokenUsage t tokenID with
          | (t, Err err) =>
              mkEnrolled t
                [mkLogEntry ErrorLevel "failed to increment token usage"
                   [zap_Error (OtherError (sql_error_text err))]]
                (Rest.http_Error "internal error" DeviceRest.StatusInternalServerError)
          | (t, Ok _) =>
              let organization := token_organization_id enrollmentToken in
              let '(deviceCount, log1) :=
                match CountDevicesByStatus t organization "ACTIVE" with
                | Err err =>
                    (0%Z, [mkLogEntry ErrorLevel "failed to count devices"
                             [zap_Error (OtherError (sql_error_text err))]])
                | Ok n => (n, [])
                end in
              (* Allocate IP: 10.100.0.x where x = deviceCount + 2 *)
              let wireguardIP := allocated_IP deviceCount in
              (* Create device *)
              match CreateDevice now new_id t organization (PublicKey req)
                      (WireguardPublicKey req) (inet_of_IP wireguardIP)
                      (AgentVersion req) (Platform req)
                      (stringToText (SiteTag req)) with
              | (t, Err err) =>
                  mkEnrolled t
                    (log1 ++ [mkLogEntry ErrorLevel "failed to create device"
                                [zap_Error (OtherError (sql_error_text err))]])%list
                    (Rest.http_Error "internal error"
                       DeviceRest.StatusInternalServerError)
              | (t, Ok (deviceID, device)) =>
                  let resp :=
                    mkEnrollDeviceResponse (uuid_String deviceID)
                      (IPv4_String wireguardIP)
                      (device_state_text (device_status device)) in
                  mkEnrolled t
                    (log1 ++ [mkLogEntry InfoLevel "device enrolled"
                                [zap_String "device_id" (uuid_String deviceID);
                                 zap_String "platform" (platform device)]])%list
                    (DeviceRest.json_response DeviceRest.StatusCreated
                       (json_response_doc resp))
              end
          end
      end
  end.

(** The next statement of the handler for a request that has come as far as
    [p]: the decoding of the body with GetEnrollmentTokenByHash, then
    IncrementTokenUsage, then CountDevicesByStatus, then CreateDevice with
    the answer. Each runs on the tables as they are when it is reached. *)
Definition statement (now : Timestamp) (new_id : UUID) (t : Tables) (p : Progress)
    : Tables * Progress :=
  match p with
  | Received r =>
      match json_decode_request (Rest.request_body r) with
      | Err err =>
          (t, Answered
                [mkLogEntry ErrorLevel "failed to decode request"
                   [zap_Error (OtherError err)]]
                (Rest.http_Error "invalid request" DeviceRest.StatusBadRequest))
      | Ok req =>
          let tokenHash := hash_of (Token req) in
          match GetEnrollmentTokenByHash now t tokenHash with
          | Err _ =>
              (t, Answered
                    [mkLogEntry WarnLevel "invalid enrollment token"
                       [zap_String "token_hash" tokenHash]]
                    (Rest.http_Error "unauthorized" DeviceRest.StatusUnauthorized))
          | Ok (tokenID, enrollmentToken) => (t, TokenFound req tokenID enrollmentToken)
          end
      end
  | TokenFound req tokenID enrollmentToken =>
      match IncrementTokenUsage t tokenID with
      | (t, Err err) =>
          (t, Answered
                [mkLogEntry ErrorLevel "failed to increment token usage"
                   [zap_Error (OtherError (sql_error_text err))]]
                (Rest.http_Error "internal error" DeviceRest.StatusInternalServerError))
      | (t, Ok _) => (t, UsageCounted req enrollmentToken)
      end
  | UsageCounted req enrollmentToken =>
      match CountDevicesByStatus t (token_organization_id enrollmentToken) "ACTIVE" with
      | Err err =>
          (t, DevicesCounted req enrollmentToken 0%Z
                [mkLogEntry ErrorLevel "failed to count devices"
                   [zap_Error (OtherError (sql_error_text err))]])
      | Ok n => (t, DevicesCounted req enrollmentToken n [])
      end
  | DevicesCounted req enrollmentToken deviceCount log1 =>
      let wireguardIP := allocated_IP deviceCount in
      match CreateDevice now new_id t (token_organization_id enrollmentToken)
              (PublicKey req) (WireguardPublicKey req) (inet_of_IP wireguardIP)
              (AgentVersion req) (Platform req) (stringToText (SiteTag req)) with
      | (t, Err err) =>
          (t, Answered
                (log1 ++ [mkLogEntry ErrorLevel "failed to create device"
                            [zap_Error (OtherError (sql_error_text err))]])%list
                (Rest.http_Error "internal error" DeviceRest.StatusInternalServerError))
      | (t, Ok (deviceID, device)) =>
          let resp :=
            mkEnrollDeviceResponse (uuid_String deviceID) (IPv4_String wireguardIP)
              (device_state_text (device_status device)) in
          (t, Answered
                (log1 ++ [mkLogEntry InfoLevel "device enrolled"
                            [zap_String "device_id" (uuid_String deviceID);
                             zap_String "platform" (platform device)]])%list
                (DeviceRest.json_response DeviceRest.StatusCreated
                   (json_response_doc resp)))
      end
  | Answered _ _ => (t, p)
  end.

(** The server on several requests at once: at each turn of the schedule
    the request named runs its next statement. *)
Fixpoint serve (t : Tables) (pool : list Progress) (schedule : list Slot)
    : Tables * list Progress :=
  match schedule with
  | [] => (t, pool)
  | (i, now, new_id) :: rest =>
      match pool !! i with
      | None => serve t pool rest
      | Some p =>
          let '(t', p') := statement now new_id t p in
          serve t' (<[i := p']> pool) rest
      end
  end.

(** Calls served one after another, each to its answer before the next
    begins. *)
Definition serve_in_turn (t : Tables) (calls : list (Timestamp * UUID * Rest.Request))
    : Tables :=
  fold_left (fun t '(now, new_id, r) => tables_after (EnrollDevice now new_id t r))
    calls t.

End Handler.

End Enrollment.

(** ** The artifact queries *)

Module Artifacts.
Import Store Enrollment.

Definition set_artifacts (db : Database) (m : gmap UUID Artifact) : Database :=
  mkDatabase (devices db) m (rollouts db) (rollout_device_status db) (fault db).

(** CHECK (type IN ('CONTAINER', 'BINARY')) *)
Definition artifact_type_of_text (s : string) : option ArtifactType :=
  if String.eqb s "CONTAINER" then Some CONTAINER
  else if String.eqb s "BINARY" then Some BINARY
  else None.

Inductive ArtifactError : Type :=
| ArtifactFault (e : DBError)
| ArtifactNoRows
| ArtifactCheckViolation (constraint : string)
| ArtifactUniqueViolation (constraint : string)
| ArtifactForeignKeyViolation (constraint : string).

(** -- name: CreateArtifact :one
    INSERT INTO artifacts (organization_id, name, type, blake3_hash, signature,
      signing_key_id, s3_url, size_bytes)
    VALUES ($1, ..., $8) RETURNING *;
    the CHECK of the row is evaluated before the row goes into the unique
    indexes, the foreign key after them. *)
Definition CreateArtifact (now : Timestamp) (new_id : UUID) (t : Tables)
    (organization_id : UUID) (artifact_name type_text hash : string)
    (sig : list byte) (key_id url : string) (size : Z)
    : Tables * Result ArtifactError (UUID * Artifact) :=
  match fault (base t) with
  | Some e => (t, Err (ArtifactFault e))
  | None =>
      match artifact_type_of_text type_text with
      | None => (t, Err (ArtifactCheckViolation "artifacts_type_check"))
      | Some ty =>
          if decide (is_Some (artifacts (base t) !! new_id)) then
            (t, Err (ArtifactUniqueViolation "artifacts_pkey"))
          else if decide (map_Exists (fun _ a => blake3_hash a = hash)
                            (artifacts (base t))) then
            (t, Err (ArtifactUniqueViolation "artifacts_blake3_hash_key"))
          else if decide (organizations t !! organization_id = None) then
            (t, Err (ArtifactForeignKeyViolation "artifacts_organization_id_fkey"))
          else
            let a := mkArtifact organization_id artifact_name ty hash sig key_id url
                       size now in
            (set_base t (set_artifacts (base t) (<[new_id := a]> (artifacts (base t)))),
             Ok (new_id, a))
      end
  end.

(** -- name: GetArtifact :one
    SELECT * FROM artifacts WHERE id = $1; *)
Definition GetArtifact (t : Tables) (id : UUID) : Result ArtifactError Artifact :=
  match fault (base t) with
  | Some e => Err (ArtifactFault e)
  | None =>
      match artifacts (base t) !! id with
      | Some a => Ok a
      | None => Err ArtifactNoRows
      end
  end.

(** -- name: GetArtifactByHash :one
    SELECT * FROM artifacts WHERE blake3_hash = $1;
    the first row the scan meets. *)
Definition GetArtifactByHash (t : Tables) (hash : string)
    : Result ArtifactError (UUID * Artifact) :=
  match fault (base t) with
  | Some e => Err (ArtifactFault e)
  | None =>
      match map_to_list (filter
              (fun kv : UUID * Artifact => blake3_hash (snd kv) = hash)
              (artifacts (base t))) with
      | row :: _ => Ok row
      | [] => Err ArtifactNoRows
      end
  end.

(** UNIQUE (blake3_hash), as a property of the table. *)
Definition hashes_unique (t : Tables) : Prop :=
  forall (id id' : UUID) (a a' : Artifact),
    artifacts (base t) !! id = Some a ->
    artifacts (base t) !! id' = Some a' ->
    blake3_hash a = blake3_hash a' -> id = id'.

End Artifacts.

(** ** The access-session queries *)

Module Sessions.
Import Store.

(** A row of access_sessions. *)
Record AccessSession : Type := mkAccessSession {
  session_device_id : UUID;
  user_email : string;
  wireguard_peer_config : string;
  session_expires_at : Timestamp;
  terminated_at : option Timestamp;
  session_created_at : Timestamp
}.

(** The tables of [Database] and access_sessions beside them. *)
Record SessionTables : Type := mkSessionTables {
  session_base : Database;
  access_sessions : gmap UUID AccessSession
}.

Definition set_access_sessions (t : SessionTables) (m : gmap UUID AccessSession)
    : SessionTables :=
  mkSessionTables (session_base t) m.

(** -- name: CreateAccessSession :one
    INSERT INTO access_sessions (device_id, user_email, wireguard_peer_config,
      expires_at)
    VALUES ($1, $2, $3, $4) RETURNING *;
    terminated_at is NULL and created_at NOW(). *)
Definition CreateAccessSession (now : Timestamp) (new_id : UUID) (t : SessionTables)
    (device_id : UUID) (email config : string) (expires : Timestamp)
    : SessionTables * Result Queries.InsertError (UUID * AccessSession) :=
  match fault (session_base t) with
  | Some e => (t, Err (Queries.InsertFault e))
  | None =>
      if decide (is_Some (access_sessions t !! new_id)) then
        (t, Err (Queries.UniqueViolation "access_sessions_pkey"))
      else if decide (devices (session_base t) !! device_id = None) then
        (t, Err (Queries.ForeignKeyViolation "access_sessions_device_id_fkey"))
      else
        let s := mkAccessSession device_id email config expires None now in
        (set_access_sessions t (<[new_id := s]> (access_sessions t)), Ok (new_id, s))
  end.

(** -- name: GetAccessSession :one
    SELECT * FROM access_sessions WHERE id = $1 AND terminated_at IS NULL; *)
Definition GetAccessSession (t : SessionTables) (id : UUID)
    : Result DBError AccessSession :=
  match fault (session_base t) with
  | Some e => Err e
  | None =>
      match access_sessions t !! id with
      | Some s =>
          match terminated_at s with
          | None => Ok s
          | Some _ => Err ErrNoRows
          end
      | None => Err ErrNoRows
      end
  end.

(** WHERE device_id = $1 AND terminated_at IS NULL AND expires_at > NOW() *)
Definition session_active (now : Timestamp) (device_id : UUID) (s : AccessSession)
    : bool :=
  bool_decide (session_device_id s = device_id)
  && bool_decide (terminated_at s = None)
  && (now <? session_expires_at s)%Z.

(** ORDER BY created_at DESC *)
Definition newest_first (a b : UUID * AccessSession) : bool :=
  (session_created_at (snd b) <=? session_created_at (snd a))%Z.

Definition by_newest_first : relation (UUID * AccessSession) :=
  fun a b => newest_first a b = true.

#[global] Instance by_newest_first_dec : RelDecision by_newest_first.
Proof. intros a b. unfold by_newest_first. apply _. Defined.

#[global] Instance by_newest_first_total : Total by_newest_first.
Proof.
  intros a b. unfold by_newest_first, newest_first. rewrite !Z.leb_le. lia.
Qed.

#[global] Instance by_newest_first_trans : Transitive by_newest_first.
Proof.
  intros a b c. unfold by_newest_first, newest_first. rewrite !Z.leb_le. lia.
Qed.

(** -- name: ListActiveAccessSessions :many
    SELECT * FROM access_sessions
    WHERE device_id = $1 AND terminated_at IS NULL AND expires_at > NOW()
    ORDER BY created_at DESC; *)
Definition ListActiveAccessSessions (now : Timestamp) (t : SessionTables)
    (device_id : UUID) : Result DBError (list (UUID * AccessSession)) :=
  match fault (session_base t) with
  | Some e => Err e
  | None =>
      Ok (merge_sort by_newest_first
            (map_to_list (filter
               (fun kv : UUID * AccessSession =>
                  session_active now device_id (snd kv) = true)
               (access_sessions t))))
  end.

(** SET terminated_at = NOW() *)
Definition set_terminated_at (now : Timestamp) (s : AccessSession) : AccessSession :=
  mkAccessSession (session_device_id s) (user_email s) (wireguard_peer_config s)
    (session_expires_at s) (Some now) (session_created_at s).

(** -- name: TerminateAccessSession :one
    UPDATE access_sessions SET terminated_at = NOW() WHERE id = $1 RETURNING *; *)
Definition TerminateAccessSession (now : Timestamp) (t : SessionTables) (id : UUID)
    : SessionTables * Result DBError AccessSession :=
  match fault (session_base t) with
  | Some e => (t, Err e)
  | None =>
      match access_sessions t !! id with
      | None => (t, Err ErrNoRows)
      | Some s =>
          let s' := set_terminated_at now s in
          (set_access_sessions t (<[id := s']> (access_sessions t)), Ok s')
      end
  end.

(** -- name: ExpireOldSessions :exec
    UPDATE access_sessions SET terminated_at = NOW()
    WHERE expires_at < NOW() AND terminated_at IS NULL; *)
Definition expire_row (now : Timestamp) (s : AccessSession) : AccessSession :=
  if ((session_expires_at s <? now)%Z && bool_decide (terminated_at s = None))%bool
  then set_terminated_at now s
  else s.

Definition ExpireOldSessions (now : Timestamp) (t : SessionTables)
    : SessionTables * option DBError :=
  match fault (session_base t) with
  | Some e => (t, Some e)
  | None => (set_access_sessions t (expire_row now <$> access_sessions t), None)
  end.

End Sessions.
(** ** Sample data, for evaluating the definitions *)

Module Samples.
Import Store.
Local Open Scope Z_scope.

(** A stand-in digest: the data cut or zero-padded to 32 bytes. *)
Definition pad32 (data : list byte) : list byte :=
  firstn 32 (data ++ repeat x00 32)%list.

(** A rollout as CreateRollout leaves it, and a database that holds it under
    id 7. *)
Definition draft_rollout : Rollout :=
  mkRollout 1%N 3%N "{}" 10 300 "http://device/health" DRAFT 0 None None.

Definition db_draft : Database :=
  mkDatabase ∅ ∅ {[ 7%N := draft_rollout ]} ∅ None.

(** A finished rollout with one device row. *)
Definition complete_rollout : Rollout :=
  mkRollout 1%N 3%N "{}" 10 300 "http://device/health" COMPLETE 0 (Some 50) (Some 90).

Definition healthy_row : RolloutDeviceStatus :=
  mkRolloutDeviceStatus true HEALTHY None 80.

Definition db_complete : Database :=
  mkDatabase ∅ ∅ {[ 7%N := complete_rollout ]} {[ (7%N, 9%N) := healthy_row ]} None.

(** An artifact that fails each check of §4.4, referenced by the DRAFT
    rollout 7, and a configuration that trusts one other key. *)
Definition bad_artifact : Artifact :=
  mkArtifact 1%N "firmware" BINARY "not-a-hash" [] "unknown-key" "s3://bucket/fw" 1024 0.

Definition db_untrusted : Database :=
  mkDatabase ∅ {[ 3%N := bad_artifact ]} {[ 7%N := draft_rollout ]} ∅ None.

Definition trusted_keys : list string := ["release-key-1"].

Definition start_request : Rest.Request :=
  Rest.mkRequest "POST" "/v1/rollouts/{id}/start" "7" "".

(** A stand-in for uuid.Parse that reads the canonical 36-character form
    (8-4-4-4-12 hex digits) as the number it spells. *)
Definition hex_value (c : ascii) : option N :=
  let n := N_of_ascii c in
  if ((48 <=? n) && (n <=? 57))%N then Some (n - 48)%N
  else if ((97 <=? n) && (n <=? 102))%N then Some (n - 87)%N
  else if ((65 <=? n) && (n <=? 70))%N then Some (n - 55)%N
  else None.

Definition is_dash_position (pos : nat) : bool :=
  ((pos =? 8) || (pos =? 13) || (pos =? 18) || (pos =? 23))%nat.

Fixpoint parse_canonical (pos : nat) (s : string) (acc : N) : option N :=
  match s with
  | EmptyString => Some acc
  | String c rest =>
      if is_dash_position pos then
        if Ascii.eqb c "-" then parse_canonical (S pos) rest acc else None
      else
        match hex_value c with
        | Some v => parse_canonical (S pos) rest (acc * 16 + v)%N
        | None => None
        end
  end.

Definition parse_uuid (s : string) : Result string UUID :=
  if (String.length s =? 36)%nat then
    match parse_canonical 0 s 0%N with
    | Some u => Ok u
    | None => Err "invalid UUID format"
    end
  else Err "invalid UUID length".

(** A device under id 9, a service over a database that holds it, and
    messages of device 9. *)
Definition device9 : Device :=
  mkDevice 1%N "pk" "wgpk" "10.100.0.9" "0.1.0" "linux/arm64" (Some "warehouse-5")
    ACTIVE None 0.

Definition db_devices : Database :=
  mkDatabase {[ 9%N := device9 ]} ∅ {[ 7%N := complete_rollout ]}
    {[ (7%N, 9%N) := healthy_row ]} None.

Definition id9 : string := "00000000-0000-0000-0000-000000000009".

Definition service0 : Registry.DeviceService := Registry.NewDeviceService db_devices.

Definition heartbeat9 : Registry.HeartbeatRequest :=
  Registry.mkHeartbeatRequest id9 "0.1.0" 1700000000.

Definition heartbeat_bad : Registry.HeartbeatRequest :=
  Registry.mkHeartbeatRequest "device-9" "0.1.0" 1700000060.

Definition health9 : Registry.HealthReport :=
  Registry.mkHealthReport id9 "00000000-0000-0000-0000-000000000007" true.

Definition update7 : Registry.UpdateNotification :=
  Registry.mkUpdateNotification "00000000-0000-0000-0000-000000000007"
    "00000000-0000-0000-0000-000000000003".

Definition rollback7 : Registry.RollbackRequest :=
  Registry.mkRollbackRequest "00000000-0000-0000-0000-000000000007" "canary failed".

(** The service with stream 1 registered for device 9. *)
Definition service9 : Registry.DeviceService :=
  Registry.addStream service0 id9 1%nat.

End Samples.


(** ** Sample data for the rest of the code *)

Module MoreSamples.
Import Store Registry Queries Enrollment.
Local Open Scope Z_scope.

(** A stand-in for net.ParseCIDR that knows one network. *)
Definition parse_cidr (s : string) : Result string (Ipam.IP * Ipam.IPNet) :=
  if String.eqb s "10.100.0.7/16" then
    Ok ([10; 100; 0; 7], Ipam.mkIPNet [10; 100; 0; 0] [255; 255; 0; 0])
  else Err ("invalid CIDR address: " ++ s).

(** What rand.Read may deliver: the bytes 200, 201, ..., 231. *)
Definition random32 : list Z := map Z.of_nat (seq 200 32).

(** A stand-in for curve25519.ScalarBaseMult, which fills 32 bytes from 32
    bytes: the bytes in reverse. *)
Definition reverse_bytes (k : list Z) : list Z := rev k.

(** A stand-in for base64: one character for each byte. *)
Definition encode_bytes (data : list Z) : string :=
  string_of_list_ascii (map (fun b => ascii_of_N (Z.to_N b)) data).

Definition decode_bytes (s : string) : Result string (list Z) :=
  Ok (map (fun c => Z.of_N (N_of_ascii c)) (list_ascii_of_string s)).

(** A reader that delivers abc in two chunks, and one that breaks after a. *)
Definition reader_abc : Keys.Reader := Keys.mkReader [[x61]; [x62; x63]] None.

Definition reader_broken : Keys.Reader :=
  Keys.mkReader [[x61]] (Some "unexpected EOF").

(** Three devices of organization 1: 9 was never seen, 10 was seen at 100,
    11 is suspended. *)
Definition device10 : Device :=
  mkDevice 1%N "pk-10" "wgpk-10" "10.100.0.10" "0.1.0" "linux/arm64" None
    ACTIVE (Some 100) 0.

Definition device11 : Device :=
  mkDevice 1%N "pk-11" "wgpk-11" "10.100.0.11" "0.1.0" "linux/amd64" None
    SUSPENDED (Some 50) 0.

Definition fleet : gmap UUID Device :=
  {[ 9%N := Samples.device9; 10%N := device10; 11%N := device11 ]}.

(** Rollout 7 over the fleet before any device row is written, and with a
    row for each device. *)
Definition db_fleet : Database :=
  mkDatabase fleet ∅ {[ 7%N := Samples.draft_rollout ]} ∅ None.

Definition pending_row : RolloutDeviceStatus :=
  mkRolloutDeviceStatus false PENDING None 20.

Definition canary_row : RolloutDeviceStatus :=
  mkRolloutDeviceStatus true IN_PROGRESS None 30.

Definition db_rows : Database :=
  mkDatabase fleet ∅ {[ 7%N := Samples.draft_rollout ]}
    {[ (7%N, 9%N) := Samples.healthy_row; (7%N, 10%N) := pending_row;
       (7%N, 11%N) := canary_row ]} None.

Definition rows7 : list (UUID * UUID * RolloutDeviceStatus) :=
  [((7%N, 11%N), canary_row); ((7%N, 9%N), Samples.healthy_row);
   ((7%N, 10%N), pending_row)].

(** Requests on device 9 and on an id that is none. *)
Definition suspend9 : Rest.Request :=
  Rest.mkRequest "POST" "/v1/devices/{id}/suspend" Samples.id9 "".

Definition suspend_bad : Rest.Request :=
  Rest.mkRequest "POST" "/v1/devices/{id}/suspend" "device-9" "".

Definition suspend12 : Rest.Request :=
  Rest.mkRequest "POST" "/v1/devices/{id}/suspend"
    "00000000-0000-0000-0000-000000000012" "".

(** A stand-in for the JSON encoding of a device. *)
Definition device_doc (id : UUID) (d : Device) : string :=
  pretty id ++ " " ++ device_state_text (device_status d).

(** The tables of enrollment: organization 1 and a token for it that two
    devices may use, stored by the hash of "secret". *)
Definition token5 : EnrollmentToken :=
  mkEnrollmentToken 1%N (hash_of Samples.pad32 "secret") (Some "warehouse-5")
    1000 2 0 0.

Definition tables0 : Tables :=
  mkTables db_fleet {[ 1%N := mkOrganization "acme" 0 ]} {[ 5%N := token5 ]}.

(** A stand-in for the JSON decoder of the enrollment request that knows
    three bodies: two devices with the token "secret", and one with a token
    nobody issued. *)
Definition request_a : EnrollDeviceRequest :=
  mkEnrollDeviceRequest "secret" "pk-a" "wgpk-a" "linux-arm64" "0.1.0" "".

Definition request_b : EnrollDeviceRequest :=
  mkEnrollDeviceRequest "secret" "pk-b" "wgpk-b" "linux-arm64" "0.1.0" "dock-2".

Definition request_stranger : EnrollDeviceRequest :=
  mkEnrollDeviceRequest "guess" "pk-c" "wgpk-c" "linux-arm64" "0.1.0" "".

Definition request_taken : EnrollDeviceRequest :=
  mkEnrollDeviceRequest "secret" "pk-10" "wgpk-d" "linux-arm64" "0.1.0" "".

Definition decode_request (body : string) : Result string EnrollDeviceRequest :=
  if String.eqb body "a" then Ok request_a
  else if String.eqb body "b" then Ok request_b
  else if String.eqb body "stranger" then Ok request_stranger
  else if String.eqb body "taken" then Ok request_taken
  else Err "unexpected end of JSON input".

Definition enroll (body : string) : Rest.Request :=
  Rest.mkRequest "POST" "/v1/enrollments" "" body.

(** Stand-ins for the JSON encoding of the response and for UUID.String. *)
Definition response_doc (resp : EnrollDeviceResponse) : string :=
  DeviceID resp ++ " " ++ WireguardIP resp ++ " " ++ Status resp.

Definition uuid_text (u : UUID) : string := pretty u.

(** A stand-in for the driver's encoding of a net.IP for the INET column: the
    address with its prefix length. *)
Definition inet_text (ip : list Z) : string := IPv4_String ip ++ "/32".

(** A token with one use left. *)
Definition token8 : EnrollmentToken :=
  mkEnrollmentToken 1%N (hash_of Samples.pad32 "secret") None 1000 1 0 0.

Definition tables_last_use : Tables :=
  mkTables db_fleet {[ 1%N := mkOrganization "acme" 0 ]} {[ 8%N := token8 ]}.

(** Tokens for the sweep: beside token 5, an expired one with its use left
    and an expired one that was used. *)
Definition token6 : EnrollmentToken :=
  mkEnrollmentToken 1%N (hash_of Samples.pad32 "lost") None 5 1 0 0.

Definition token7 : EnrollmentToken :=
  mkEnrollmentToken 1%N (hash_of Samples.pad32 "spent") None 5 1 1 0.

Definition tables_swept : Tables :=
  mkTables db_fleet {[ 1%N := mkOrganization "acme" 0 ]}
    {[ 5%N := token5; 6%N := token6; 7%N := token7 ]}.

(** The tables with the artifact of [Samples.db_untrusted]. *)
Definition tables_artifacts : Tables :=
  mkTables Samples.db_untrusted {[ 1%N := mkOrganization "acme" 0 ]} ∅.

(** Access sessions on device 9: none yet; and an open one beside one that was
    ended at 40. *)
Definition sessions0 : Sessions.SessionTables := Sessions.mkSessionTables db_fleet ∅.

Definition open_session : Sessions.AccessSession :=
  Sessions.mkAccessSession 9%N "ops@acme.io" "peer-config" 500 None 10.

Definition ended_session : Sessions.AccessSession :=
  Sessions.mkAccessSession 9%N "ops@acme.io" "peer-config" 100 (Some 40) 5.

Definition sessions1 : Sessions.SessionTables :=
  Sessions.mkSessionTables db_fleet {[ 30%N := open_session; 31%N := ended_session ]}.

End MoreSamples.

(** * Theorems *)

(** ** Hashing *)

Section HashingFacts.

Variable blake3_Sum256 : list byte -> list byte.

Lemma EncodeToString_length (src : list byte) :
  String.length (Crypto.EncodeToString src) = (2 * List.length src)%nat.
Proof.
  induction src as [|v rest IH]; simpl; [reflexivity|].
  rewrite IH. lia.
Qed.

Lemma BLAKE3Hash_length (data : list byte) :
  List.length (blake3_Sum256 data) = 32%nat ->
  String.length (Crypto.BLAKE3Hash blake3_Sum256 data) = 64%nat.
Proof.
  intros Hsize. unfold Crypto.BLAKE3Hash.
  rewrite EncodeToString_length, Hsize. reflexivity.
Qed.

Lemma set_byte_changes (i : nat) (c c0 : ascii) (s : string) :
  String.get i s = Some c0 -> c <> c0 -> Crypto.set_byte i c s <> s.
Proof.
  revert i. induction s as [|a rest IH]; intros i Hget Hne; simpl in *.
  - discriminate.
  - destruct i as [|j].
    + injection Hget as ->. intros Heq. injection Heq as Heq. contradiction.
    + intros Heq. injection Heq as Heq. exact (IH j Hget Hne Heq).
Qed.

Lemma VerifyBLAKE3_spec (data : list byte) (h : string) :
  Crypto.VerifyBLAKE3 blake3_Sum256 data h = true
  <-> h = Crypto.BLAKE3Hash blake3_Sum256 data.
Proof.
  unfold Crypto.VerifyBLAKE3. rewrite String.eqb_eq. split; congruence.
Qed.

(** C9: the hash of the data verifies against the data; any other stored
    hash is refused, in particular the hash with one of its bytes changed. *)
Theorem VerifyBLAKE3_roundtrip (data : list byte) :
  Crypto.VerifyBLAKE3 blake3_Sum256 data (Crypto.BLAKE3Hash blake3_Sum256 data) = true
  /\ (forall h : string,
        h <> Crypto.BLAKE3Hash blake3_Sum256 data ->
        Crypto.VerifyBLAKE3 blake3_Sum256 data h = false)
  /\ (forall (i : nat) (c c0 : ascii),
        String.get i (Crypto.BLAKE3Hash blake3_Sum256 data) = Some c0 ->
        c <> c0 ->
        Crypto.VerifyBLAKE3 blake3_Sum256 data
          (Crypto.set_byte i c (Crypto.BLAKE3Hash blake3_Sum256 data)) = false).
Proof.
  assert (Hother : forall h : string,
             h <> Crypto.BLAKE3Hash blake3_Sum256 data ->
             Crypto.VerifyBLAKE3 blake3_Sum256 data h = false).
  { intros h Hne.
    destruct (Crypto.VerifyBLAKE3 blake3_Sum256 data h) eqn:E; [|reflexivity].
    apply VerifyBLAKE3_spec in E. contradiction. }
  split; [|split].
  - apply VerifyBLAKE3_spec. reflexivity.
  - exact Hother.
  - intros i c c0 Hget Hne. apply Hother.
    apply set_byte_changes with (c0 := c0); assumption.
Qed.

End HashingFacts.

Lemma VerifyBLAKE3_roundtrip_witness :
  Crypto.VerifyBLAKE3 Samples.pad32 [x61; x62] (Crypto.BLAKE3Hash Samples.pad32 [x61; x62]) = true
  /\ Crypto.VerifyBLAKE3 Samples.pad32 [x61; x62] "6162" = false
  /\ Crypto.VerifyBLAKE3 Samples.pad32 [x61; x62]
       (Crypto.set_byte 1 "2" (Crypto.BLAKE3Hash Samples.pad32 [x61; x62])) = false.
Proof.
  destruct (VerifyBLAKE3_roundtrip Samples.pad32 [x61; x62]) as (Hsame & Hother & Hmut).
  split; [exact Hsame|]. split.
  - apply Hother. vm_compute. discriminate.
  - apply (Hmut 1%nat "2"%char "1"%char); [reflexivity | discriminate].
Defined.

(** ** The rollout queries *)

Section RolloutFacts.
Import Store Spec.

Lemma rollouts_set_rollouts (db : Database) (t : gmap UUID Rollout) :
  rollouts (set_rollouts db t) = t.
Proof. reflexivity. Qed.

Lemma fault_exec (db : Database) (c : Timestamp * RolloutOp) :
  fault (exec db c) = fault db.
Proof.
  destruct c as [now [id ns | id | id]]; simpl;
    unfold UpdateRolloutState, CompleteRollout, FailRollout;
    destruct (fault db) eqn:Hf; simpl; try assumption;
    destruct (rollouts db !! id); simpl; try assumption;
    try (destruct (rollout_state_of_text ns); simpl); assumption.
Qed.

(** What one command does to the rollouts table. *)
Lemma exec_rollouts (db : Database) (now : Timestamp) (o : RolloutOp) :
  rollouts (exec db (now, o)) =
    match fault db, op_target o, rollouts db !! op_id o with
    | None, Some s, Some r => <[op_id o := op_row now o s r]> (rollouts db)
    | _, _, _ => rollouts db
    end.
Proof.
  destruct o as [id ns | id | id]; simpl;
    unfold UpdateRolloutState, CompleteRollout, FailRollout;
    destruct (fault db); simpl; try reflexivity.
  - destruct (rollouts db !! id), (rollout_state_of_text ns); reflexivity.
  - destruct (rollouts db !! id); reflexivity.
  - destruct (rollouts db !! id); reflexivity.
Qed.

(** A command neither creates nor deletes a rollout: the row under [id] is
    the old one, or the one the command wrote over it. *)
Lemma exec_lookup (db : Database) (now : Timestamp) (o : RolloutOp)
    (id : UUID) (r : Rollout) :
  rollouts db !! id = Some r ->
  (rollouts (exec db (now, o)) !! id = Some r
   /\ (op_id o <> id \/ fault db <> None \/ op_target o = None))
  \/ (exists s : RolloutState,
        op_id o = id /\ fault db = None /\ op_target o = Some s
        /\ rollouts (exec db (now, o)) !! id = Some (op_row now o s r)).
Proof.
  intros Hr. rewrite exec_rollouts.
  destruct (fault db) as [e|] eqn:Hf.
  { left. split; [assumption|]. right. left. discriminate. }
  destruct (op_target o) as [s|] eqn:Ht.
  2:{ left. split; [assumption|]. right. right. reflexivity. }
  destruct (decide (op_id o = id)) as [Heq|Hne].
  - right. exists s. rewrite Heq, Hr, lookup_insert_eq. auto.
  - left. split; [|left; assumption].
    destruct (rollouts db !! op_id o); [|assumption].
    rewrite lookup_insert_ne; assumption.
Qed.

Lemma state_op_row (now : Timestamp) (o : RolloutOp) (s : RolloutState) (r : Rollout) :
  state (op_row now o s r) = s.
Proof. destruct o; reflexivity. Qed.

Lemma exec_state (db : Database) (now : Timestamp) (o : RolloutOp)
    (id : UUID) (r : Rollout) :
  rollouts db !! id = Some r ->
  exists r' : Rollout,
    rollouts (exec db (now, o)) !! id = Some r'
    /\ state r' = state_after db o id r.
Proof.
  intros Hr. unfold state_after.
  destruct (exec_lookup db now o id r Hr) as [[Hsame Hwhy] | (s & Hid & Hf & Ht & Hnew)].
  - exists r. split; [assumption|].
    destruct (fault db); [reflexivity|].
    destruct (op_target o); [|reflexivity].
    destruct (decide (op_id o = id)); [|reflexivity].
    destruct Hwhy as [H | [H | H]]; congruence.
  - exists (op_row now o s r). split; [assumption|].
    rewrite Hf, Ht, state_op_row.
    destruct (decide (op_id o = id)); congruence.
Qed.

Lemma asks_edge_step (db : Database) (c : Timestamp * RolloutOp) :
  asks_table_edge db c -> step_follows_table db (exec db c).
Proof.
  destruct c as [now o]. intros Hask id r r' Hr Hr'.
  destruct (exec_state db now o id r Hr) as (r1 & Hr1 & Hst).
  rewrite Hr1 in Hr'. injection Hr' as <-. rewrite Hst.
  unfold state_after.
  destruct (fault db); [left; reflexivity|].
  destruct (op_target o) as [s|] eqn:Ht; [|left; reflexivity].
  destruct (decide (op_id o = id)) as [Heq|Hne]; [|left; reflexivity].
  apply (Hask r s); simpl; [rewrite Heq|]; assumption.
Qed.

(** C1, as the queries have it: a command that goes through puts the rollout
    it addresses in the state it names, whatever the state was, and leaves
    the state of every other rollout alone; so the state moves along the
    edges of the table in every run whose commands each ask for the current
    state or a table successor of it. *)
Theorem state_follows_requests :
  (forall (db : Database) (now : Timestamp) (o : RolloutOp) (id : UUID) (r : Rollout),
      rollouts db !! id = Some r ->
      exists r' : Rollout,
        rollouts (exec db (now, o)) !! id = Some r'
        /\ state r' = state_after db o id r)
  /\ (forall (db : Database) (cs : list (Timestamp * RolloutOp)),
        run_asks_table_edges db cs -> run_follows_table db cs).
Proof.
  split; [exact exec_state|].
  intros db cs. revert db.
  induction cs as [|c rest IH]; intros db Hasks; simpl in *; [exact I|].
  destruct Hasks as [Hask Hrest]. split.
  - apply asks_edge_step. assumption.
  - apply IH. assumption.
Qed.

Ltac eval_asks :=
  let r := fresh "r" in
  let s := fresh "s" in
  let Hr := fresh "Hr" in
  let Ht := fresh "Ht" in
  intros r s Hr Ht; vm_compute in Hr, Ht;
  injection Hr as <-; injection Ht as <-;
  first [left; reflexivity | right; reflexivity].

Lemma state_follows_requests_witness :
  run_follows_table Samples.db_draft
    [(10%Z, OpUpdateRolloutState 7%N "CANARY");
     (20%Z, OpUpdateRolloutState 7%N "FULL");
     (30%Z, OpCompleteRollout 7%N)].
Proof.
  apply (proj2 state_follows_requests).
  simpl. repeat split; eval_asks.
Defined.

(** C1 as the claim has it fails: CompleteRollout and FailRollout take the
    DRAFT rollout 7 straight to COMPLETE and to FAILED, neither an edge of
    the table. *)
Lemma CompleteRollout_leaves_table :
  state <$> rollouts Samples.db_draft !! 7%N = Some DRAFT
  /\ state <$> rollouts (exec Samples.db_draft (100%Z, OpCompleteRollout 7%N)) !! 7%N
      = Some COMPLETE
  /\ state <$> rollouts (exec Samples.db_draft (100%Z, OpFailRollout 7%N)) !! 7%N
      = Some FAILED
  /\ spec_edge DRAFT COMPLETE = false
  /\ spec_edge DRAFT FAILED = false
  /\ ~ step_follows_table Samples.db_draft
        (exec Samples.db_draft (100%Z, OpCompleteRollout 7%N)).
Proof.
  repeat split; try reflexivity.
  intros Hstep.
  destruct (Hstep 7%N Samples.draft_rollout
              (set_state_completed 100%Z COMPLETE Samples.draft_rollout))
    as [H | H]; try reflexivity; discriminate H.
Qed.

(** *** started_at *)

Lemma started_at_op_row (now : Timestamp) (o : RolloutOp) (s : RolloutState)
    (r : Rollout) (t : Timestamp) :
  started_at r = Some t -> started_at (op_row now o s r) = Some t.
Proof. intros H. destruct o; simpl; rewrite H; reflexivity. Qed.

Lemma started_at_kept_by_exec (db : Database) (c : Timestamp * RolloutOp)
    (id : UUID) (r : Rollout) (t : Timestamp) :
  rollouts db !! id = Some r -> started_at r = Some t ->
  exists r' : Rollout, rollouts (exec db c) !! id = Some r' /\ started_at r' = Some t.
Proof.
  destruct c as [now o]. intros Hr Ht.
  destruct (exec_lookup db now o id r Hr) as [[Hsame _] | (s & _ & _ & _ & Hnew)].
  - exists r. split; assumption.
  - exists (op_row now o s r). split; [assumption|].
    apply started_at_op_row. assumption.
Qed.

Lemma started_at_kept_by_terminal (db : Database) (now : Timestamp) (o : RolloutOp)
    (id : UUID) (r : Rollout) :
  (forall i ns, o <> OpUpdateRolloutState i ns) ->
  rollouts db !! id = Some r ->
  exists r' : Rollout,
    rollouts (exec db (now, o)) !! id = Some r' /\ started_at r' = started_at r.
Proof.
  intros Ho Hr.
  destruct (exec_lookup db now o id r Hr) as [[Hsame _] | (s & _ & _ & _ & Hnew)].
  - exists r. split; [assumption | reflexivity].
  - exists (op_row now o s r). split; [assumption|].
    destruct o as [i ns| |]; [destruct (Ho i ns); reflexivity | reflexivity..].
Qed.

(** C3, as the queries have it: UpdateRolloutState writes NOW() into a null
    started_at whatever the state of the rollout and the state asked for;
    CompleteRollout and FailRollout never write started_at; and no run of the
    three operations changes a started_at that is not null. *)
Theorem started_at_written_once :
  (forall (now : Timestamp) (db : Database) (id : UUID) (newState : string)
          (r : Rollout) (s : RolloutState),
      fault db = None ->
      rollouts db !! id = Some r ->
      rollout_state_of_text newState = Some s ->
      started_at r = None ->
      exists r' : Rollout,
        rollouts (fst (UpdateRolloutState now db id newState)) !! id = Some r'
        /\ state r' = s /\ started_at r' = Some now)
  /\ (forall (now : Timestamp) (db : Database) (id id' : UUID) (r : Rollout),
        rollouts db !! id' = Some r ->
        (exists r' : Rollout,
            rollouts (fst (CompleteRollout now db id)) !! id' = Some r'
            /\ started_at r' = started_at r)
        /\ (exists r' : Rollout,
              rollouts (fst (FailRollout now db id)) !! id' = Some r'
              /\ started_at r' = started_at r))
  /\ (forall (db : Database) (cs : list (Timestamp * RolloutOp)) (id : UUID)
            (r : Rollout) (t : Timestamp),
        rollouts db !! id = Some r ->
        started_at r = Some t ->
        exists r' : Rollout,
          rollouts (run db cs) !! id = Some r' /\ started_at r' = Some t).
Proof.
  split; [|split].
  - intros now db id newState r s Hf Hr Hs Hnull.
    exists (set_state_started now s r).
    unfold UpdateRolloutState. rewrite Hf, Hr, Hs. simpl.
    rewrite lookup_insert_eq, Hnull. auto.
  - intros now db id id' r Hr. split.
    + apply (started_at_kept_by_terminal db now (OpCompleteRollout id) id' r);
        [discriminate | assumption].
    + apply (started_at_kept_by_terminal db now (OpFailRollout id) id' r);
        [discriminate | assumption].
  - intros db cs. revert db. unfold run.
    induction cs as [|c rest IH]; intros db id r t Hr Ht; simpl.
    + exists r. split; assumption.
    + destruct (started_at_kept_by_exec db c id r t Hr Ht) as (r1 & Hr1 & Ht1).
      exact (IH (exec db c) id r1 t Hr1 Ht1).
Qed.

Lemma started_at_written_once_witness :
  (exists r' : Rollout,
      rollouts (fst (UpdateRolloutState 100%Z Samples.db_draft 7%N "CANARY")) !! 7%N
        = Some r'
      /\ state r' = CANARY /\ started_at r' = Some 100%Z)
  /\ (exists r' : Rollout,
        rollouts (run Samples.db_complete
                    [(200%Z, OpUpdateRolloutState 7%N "FULL"); (300%Z, OpFailRollout 7%N)])
          !! 7%N = Some r'
        /\ started_at r' = Some 50%Z).
Proof.
  destruct started_at_written_once as (Hfirst & _ & Hkept).
  split.
  - apply (Hfirst 100%Z Samples.db_draft 7%N "CANARY" Samples.draft_rollout CANARY);
      reflexivity.
  - apply (Hkept Samples.db_complete _ 7%N Samples.complete_rollout 50%Z);
      reflexivity.
Defined.

(** C3 as the claim has it fails: UpdateRolloutState writes started_at on a
    move from DRAFT to ROLLBACK, and on a move out of COMPLETE, a state that
    is not DRAFT. *)
Lemma started_at_written_off_start :
  (let r' := rollouts (fst (UpdateRolloutState 100%Z Samples.db_draft 7%N "ROLLBACK")) !! 7%N in
   started_at <$> rollouts Samples.db_draft !! 7%N = Some None
   /\ state <$> r' = Some ROLLBACK
   /\ started_at <$> r' = Some (Some 100%Z))
  /\ (let db1 := fst (CompleteRollout 100%Z Samples.db_draft 7%N) in
      let r' := rollouts (fst (UpdateRolloutState 200%Z db1 7%N "CANARY")) !! 7%N in
      state <$> rollouts db1 !! 7%N = Some COMPLETE
      /\ started_at <$> rollouts db1 !! 7%N = Some None
      /\ started_at <$> r' = Some (Some 200%Z)).
Proof. repeat split; reflexivity. Qed.

(** *** completed_at *)






End RolloutFacts.

(** ** The device rows of a rollout *)

Section DeviceStatusFacts.
Import Store Spec.




End DeviceStatusFacts.

(** ** Starting a rollout *)

Section StartFacts.
Import Store Spec.

(** C2, as the handler has it: StartRollout answers every request with 501
    "not implemented"; it issues no query, so it reads no artifact and
    verifies none, and it leaves the database as it was: a DRAFT rollout is
    still in DRAFT after it. *)
Theorem StartRollout_not_implemented (queries : Database) (r : Rest.Request) :
  let out := Rest.StartRollout queries r in
  Rest.response out = Rest.http_Error "not implemented" Rest.StatusNotImplemented
  /\ Rest.status_code (Rest.response out) = 501%Z
  /\ Rest.issued out = []
  /\ Rest.db_after out = queries
  /\ (forall (id : UUID) (ro : Rollout),
        rollouts queries !! id = Some ro ->
        state ro = DRAFT ->
        rollouts (Rest.db_after out) !! id = Some ro).
Proof.
  simpl. repeat split; try reflexivity.
  intros id ro Hro _. exact Hro.
Qed.

Lemma StartRollout_not_implemented_witness :
  rollouts (Rest.db_after (Rest.StartRollout Samples.db_untrusted Samples.start_request))
    !! 7%N = Some Samples.draft_rollout.
Proof.
  destruct (StartRollout_not_implemented Samples.db_untrusted Samples.start_request)
    as (_ & _ & _ & _ & Hstay).
  apply Hstay; reflexivity.
Defined.

(** C2 as the claim has it fails: rollout 7 is in DRAFT and its artifact
    fails every check of §4.4; StartRollout answers "not implemented" without
    fetching the artifact, the same answer it gives for any request. *)
Lemma StartRollout_verifies_nothing :
  rollouts Samples.db_untrusted !! 7%N = Some Samples.draft_rollout
  /\ state Samples.draft_rollout = DRAFT
  /\ artifacts Samples.db_untrusted !! artifact_id Samples.draft_rollout
     = Some Samples.bad_artifact
  /\ artifact_trusted Samples.trusted_keys Samples.bad_artifact = false
  /\ Rest.StartRollout Samples.db_untrusted Samples.start_request
     = Rest.mkHandled Samples.db_untrusted []
         (Rest.http_Error "not implemented" 501%Z)
  /\ ~ start_rejects_untrusted Samples.db_untrusted Samples.draft_rollout
         (Rest.StartRollout Samples.db_untrusted Samples.start_request).
Proof.
  repeat split; try reflexivity.
  intros (Hfetched & _). simpl in Hfetched. exact Hfetched.
Qed.

End StartFacts.

(** ** The stream map and the send operations *)

Section RegistryFacts.
Import Store Registry.

Lemma stream_Send_ok (s : DeviceService) (stream : Stream) (msg : ControlMessage) :
  send_error s !! stream = None ->
  snd (stream_Send s stream msg) = None
  /\ sent_on (fst (stream_Send s stream msg)) stream = (sent_on s stream ++ [msg])%list
  /\ streams (fst (stream_Send s stream msg)) = streams s
  /\ queries (fst (stream_Send s stream msg)) = queries s
  /\ logger (fst (stream_Send s stream msg)) = logger s.
Proof.
  intros Hok. unfold stream_Send. rewrite Hok. simpl.
  repeat split. unfold sent_on at 1. simpl. rewrite lookup_insert_eq. reflexivity.
Qed.

Lemma stream_Send_fails (s : DeviceService) (stream : Stream) (msg : ControlMessage)
    (e : error) :
  send_error s !! stream = Some e ->
  stream_Send s stream msg = (s, Some e).
Proof. intros Hbad. unfold stream_Send. rewrite Hbad. reflexivity. Qed.

Lemma stream_Send_others (s : DeviceService) (stream other : Stream)
    (msg : ControlMessage) :
  other <> stream ->
  sent_on (fst (stream_Send s stream msg)) other = sent_on s other.
Proof.
  intros Hne. unfold stream_Send.
  destruct (send_error s !! stream); [reflexivity|].
  unfold sent_on. simpl. rewrite lookup_insert_ne; [reflexivity | congruence].
Qed.

(** C6: for a device id with no entry in the stream map both send
    operations return the NotFound "not connected" error at once and leave
    the service, and so every stream, as it was; for a registered id they
    are the Send of the command on the device's stream, which on a live
    stream appends the command to what the stream carries and returns nil. *)
Theorem send_not_connected_or_forwarded (s : DeviceService) (deviceID : string)
    (update : UpdateNotification) (rollback : RollbackRequest) :
  (streams s !! deviceID = None ->
     SendUpdateNotification s deviceID update
       = (s, Some (StatusError NotFound ("device " ++ deviceID ++ " not connected")))
     /\ SendRollbackRequest s deviceID rollback
        = (s, Some (StatusError NotFound ("device " ++ deviceID ++ " not connected"))))
  /\ (forall stream : Stream,
        streams s !! deviceID = Some stream ->
        SendUpdateNotification s deviceID update
          = stream_Send s stream (ControlMessage_Update update)
        /\ SendRollbackRequest s deviceID rollback
           = stream_Send s stream (ControlMessage_Rollback rollback)
        /\ (send_error s !! stream = None ->
              snd (SendUpdateNotification s deviceID update) = None
              /\ sent_on (fst (SendUpdateNotification s deviceID update)) stream
                 = (sent_on s stream ++ [ControlMessage_Update update])%list
              /\ snd (SendRollbackRequest s deviceID rollback) = None
              /\ sent_on (fst (SendRollbackRequest s deviceID rollback)) stream
                 = (sent_on s stream ++ [ControlMessage_Rollback rollback])%list)).
Proof.
  unfold SendUpdateNotification, SendRollbackRequest. split.
  - intros Hnone. rewrite Hnone. split; reflexivity.
  - intros stream Hsome. rewrite Hsome. split; [reflexivity|]. split; [reflexivity|].
    intros Hlive.
    destruct (stream_Send_ok s stream (ControlMessage_Update update) Hlive)
      as (Hu1 & Hu2 & _).
    destruct (stream_Send_ok s stream (ControlMessage_Rollback rollback) Hlive)
      as (Hr1 & Hr2 & _).
    auto.
Qed.

Lemma send_not_connected_or_forwarded_witness :
  (SendUpdateNotification Samples.service0 Samples.id9 Samples.update7
     = (Samples.service0,
        Some (StatusError NotFound
                "device 00000000-0000-0000-0000-000000000009 not connected"))
   /\ SendRollbackRequest Samples.service0 Samples.id9 Samples.rollback7
      = (Samples.service0,
         Some (StatusError NotFound
                 "device 00000000-0000-0000-0000-000000000009 not connected")))
  /\ (snd (SendUpdateNotification Samples.service9 Samples.id9 Samples.update7) = None
      /\ sent_on (fst (SendUpdateNotification Samples.service9 Samples.id9 Samples.update7))
           1%nat
         = [ControlMessage_Update Samples.update7]
      /\ snd (SendRollbackRequest Samples.service9 Samples.id9 Samples.rollback7) = None
      /\ sent_on (fst (SendRollbackRequest Samples.service9 Samples.id9 Samples.rollback7))
           1%nat
         = [ControlMessage_Rollback Samples.rollback7]).
Proof.
  split.
  - apply (proj1 (send_not_connected_or_forwarded Samples.service0 Samples.id9
                    Samples.update7 Samples.rollback7)).
    reflexivity.
  - apply (proj2 (send_not_connected_or_forwarded Samples.service9 Samples.id9
                    Samples.update7 Samples.rollback7) 1%nat); reflexivity.
Defined.

(** *** Inbound messages *)

Lemma UpdateDeviceHeartbeat_ok (now : Timestamp) (db : Database) (id : UUID) (d : Device) :
  fault db = None ->
  devices db !! id = Some d ->
  snd (UpdateDeviceHeartbeat now db id) = Ok (set_last_seen_at now d)
  /\ devices (fst (UpdateDeviceHeartbeat now db id)) !! id = Some (set_last_seen_at now d).
Proof.
  intros Hf Hd. unfold UpdateDeviceHeartbeat. rewrite Hf, Hd. simpl.
  split; [reflexivity | apply lookup_insert_eq].
Qed.

Lemma UpdateDeviceHeartbeat_failed (now : Timestamp) (db : Database) (id : UUID)
    (e : DBError) :
  snd (UpdateDeviceHeartbeat now db id) = Err e ->
  fst (UpdateDeviceHeartbeat now db id) = db.
Proof.
  unfold UpdateDeviceHeartbeat.
  destruct (fault db); [reflexivity|].
  destruct (devices db !! id); [discriminate | reflexivity].
Qed.

Lemma handleHealthReport_queries (s : DeviceService) (health : HealthReport) :
  snd (handleHealthReport s health) = None
  /\ queries (fst (handleHealthReport s health)) = queries s
  /\ streams (fst (handleHealthReport s health)) = streams s
  /\ sent (fst (handleHealthReport s health)) = sent s.
Proof. repeat split. Qed.

Section Parsed.

Variable uuid_Parse : string -> Result string UUID.

(** The service after the repository write of a heartbeat and its log
    lines, before the acknowledgement is sent. *)
Lemma handleHeartbeat_unfold (s : DeviceService) (now : Timestamp) (stream : Stream)
    (hb : HeartbeatRequest) (deviceUUID : UUID) :
  uuid_Parse (hb_DeviceId hb) = Ok deviceUUID ->
  exists s1 : DeviceService,
    handleHeartbeat uuid_Parse s now stream hb
      = stream_Send s1 stream (ControlMessage_HeartbeatAck (hb_Timestamp hb))
    /\ queries s1 = fst (UpdateDeviceHeartbeat now (queries s) deviceUUID)
    /\ streams s1 = streams s
    /\ sent s1 = sent s
    /\ send_error s1 = send_error s
    /\ (forall e : DBError,
          snd (UpdateDeviceHeartbeat now (queries s) deviceUUID) = Err e ->
          In (mkLogEntry WarnLevel "failed to update device heartbeat"
                [zap_String "device_id" (hb_DeviceId hb); zap_Error (DatabaseError e)])
             (logger s1)).
Proof.
  intros Hparse. unfold handleHeartbeat. rewrite Hparse.
  destruct (UpdateDeviceHeartbeat now (queries s) deviceUUID) as [db res] eqn:Hupd.
  eexists. split; [reflexivity|]. simpl.
  destruct res as [d|e0]; simpl; repeat split; try reflexivity.
  - intros e He. discriminate He.
  - intros e He. injection He as <-.
    apply in_or_app. left. apply in_or_app. right. left. reflexivity.
Qed.

(** C7: for a heartbeat whose device id parses, the handler runs
    UpdateDeviceHeartbeat for the device at the server's time: when the
    write goes through, the row of the device has last_seen_at = that time
    and every other column as before; a failed write is logged at Warn
    level; and in either case the handler sends a HeartbeatAck with the
    request's timestamp on the stream and returns what that Send returns, nil
    on a live stream. *)
Theorem handleHeartbeat_acknowledges (s : DeviceService) (now : Timestamp)
    (stream : Stream) (hb : HeartbeatRequest) (deviceUUID : UUID) :
  uuid_Parse (hb_DeviceId hb) = Ok deviceUUID ->
  let out := handleHeartbeat uuid_Parse s now stream hb in
  let write := UpdateDeviceHeartbeat now (queries s) deviceUUID in
  queries (fst out) = fst write
  /\ (forall d : Device,
        fault (queries s) = None ->
        devices (queries s) !! deviceUUID = Some d ->
        devices (queries (fst out)) !! deviceUUID
        = Some (mkDevice (device_organization_id d) (public_key d)
                  (wireguard_public_key d) (wireguard_ip d) (agent_version d)
                  (platform d) (site_tag d) (device_status d) (Some now)
                  (device_created_at d))
        /\ last_seen_at <$> devices (queries (fst out)) !! deviceUUID
           = Some (Some now))
  /\ (forall e : DBError,
        snd write = Err e ->
        queries (fst out) = queries s
        /\ In (mkLogEntry WarnLevel "failed to update device heartbeat"
                 [zap_String "device_id" (hb_DeviceId hb); zap_Error (DatabaseError e)])
              (logger (fst out)))
  /\ (send_error s !! stream = None ->
        snd out = None
        /\ sent_on (fst out) stream
           = (sent_on s stream ++ [ControlMessage_HeartbeatAck (hb_Timestamp hb)])%list)
  /\ (forall e : error, send_error s !! stream = Some e -> snd out = Some e).
Proof.
  intros Hparse out write. subst out write.
  destruct (handleHeartbeat_unfold s now stream hb deviceUUID Hparse)
    as (s1 & Hrun & Hq & Hstreams & Hsent & Herr & Hlog).
  rewrite Hrun.
  assert (Hqueries : queries (fst (stream_Send s1 stream
                       (ControlMessage_HeartbeatAck (hb_Timestamp hb))))
                     = fst (UpdateDeviceHeartbeat now (queries s) deviceUUID)).
  { unfold stream_Send. destruct (send_error s1 !! stream); simpl; exact Hq. }
  assert (Hlogger : forall l, In l (logger s1) ->
                      In l (logger (fst (stream_Send s1 stream
                              (ControlMessage_HeartbeatAck (hb_Timestamp hb)))))).
  { intros l Hl. unfold stream_Send. destruct (send_error s1 !! stream); simpl; exact Hl. }
  split; [exact Hqueries|]. split; [|split; [|split]].
  - intros d Hf Hd. rewrite Hqueries.
    pose proof (proj2 (UpdateDeviceHeartbeat_ok now (queries s) deviceUUID d Hf Hd))
      as Hrow.
    split; [exact Hrow|]. rewrite Hrow. reflexivity.
  - intros e He. split.
    + rewrite Hqueries. apply (UpdateDeviceHeartbeat_failed _ _ _ e He).
    + apply Hlogger. apply Hlog. exact He.
  - intros Hlive. rewrite <- Herr in Hlive.
    destruct (stream_Send_ok s1 stream
                (ControlMessage_HeartbeatAck (hb_Timestamp hb)) Hlive)
      as (Hnil & Hout & _).
    split; [exact Hnil|]. rewrite Hout. unfold sent_on. rewrite Hsent. reflexivity.
  - intros e Hbad. rewrite <- Herr in Hbad.
    rewrite (stream_Send_fails s1 stream _ e Hbad). reflexivity.
Qed.

End Parsed.

Lemma handleHeartbeat_acknowledges_witness :
  let out := handleHeartbeat Samples.parse_uuid Samples.service0 500%Z 1%nat
               Samples.heartbeat9 in
  devices (queries (fst out)) !! 9%N
  = Some (mkDevice 1%N "pk" "wgpk" "10.100.0.9" "0.1.0" "linux/arm64"
            (Some "warehouse-5") ACTIVE (Some 500%Z) 0%Z)
  /\ last_seen_at <$> devices (queries (fst out)) !! 9%N = Some (Some 500%Z)
  /\ last_seen_at <$> devices (queries Samples.service0) !! 9%N = Some None
  /\ snd out = None
  /\ sent_on (fst out) 1%nat = [ControlMessage_HeartbeatAck 1700000000%Z].
Proof.
  destruct (handleHeartbeat_acknowledges Samples.parse_uuid Samples.service0 500%Z 1%nat
              Samples.heartbeat9 9%N eq_refl) as (_ & Hseen & _ & Hack & _).
  destruct (Hseen Samples.device9 eq_refl eq_refl) as [Hrow Hlast].
  split; [exact Hrow|]. split; [exact Hlast|].
  split; [reflexivity|]. apply Hack. reflexivity.
Defined.

(** A heartbeat of a device the repository does not know: the write fails
    with ErrNoRows, the failure is logged, the acknowledgement goes out. *)
Example handleHeartbeat_unknown_device :
  let hb := mkHeartbeatRequest "00000000-0000-0000-0000-000000000005" "0.1.0" 42%Z in
  let out := handleHeartbeat Samples.parse_uuid Samples.service0 500%Z 1%nat hb in
  snd (UpdateDeviceHeartbeat 500%Z Samples.db_devices 5%N) = Err ErrNoRows
  /\ snd out = None
  /\ sent_on (fst out) 1%nat = [ControlMessage_HeartbeatAck 42%Z]
  /\ level <$> head (logger (fst out)) = Some WarnLevel.
Proof. repeat split; reflexivity. Qed.

(** C8: a HealthReport leaves every row of rollout_device_status as it is
    (the handler logs the report and writes nothing), so a row that is
    HEALTHY is the same row after the report is processed again, and after
    any number of times; the handler returns nil. *)
Theorem handleHealthReport_idempotent (s : DeviceService) (health : HealthReport)
    (key : UUID * UUID) (row : RolloutDeviceStatus) :
  rollout_device_status (queries s) !! key = Some row ->
  status row = HEALTHY ->
  let once := handleHealthReport s health in
  let twice := handleHealthReport (fst once) health in
  rollout_device_status (queries (fst once)) !! key = Some row
  /\ rollout_device_status (queries (fst twice)) !! key = Some row
  /\ snd once = None
  /\ snd twice = None.
Proof.
  intros Hrow _. simpl. repeat split; assumption.
Qed.

Lemma handleHealthReport_idempotent_witness :
  let once := handleHealthReport Samples.service9 Samples.health9 in
  let twice := handleHealthReport (fst once) Samples.health9 in
  rollout_device_status (queries (fst once)) !! (7%N, 9%N) = Some Samples.healthy_row
  /\ rollout_device_status (queries (fst twice)) !! (7%N, 9%N) = Some Samples.healthy_row
  /\ snd once = None
  /\ snd twice = None.
Proof.
  apply (handleHealthReport_idempotent Samples.service9 Samples.health9 (7%N, 9%N)
           Samples.healthy_row); reflexivity.
Defined.

(** *** The stream loop *)

Lemma removeStream_lookup (s : DeviceService) (deviceID : string) :
  streams (removeStream s deviceID) !! deviceID = None.
Proof. unfold removeStream. simpl. apply lookup_delete_eq. Qed.

Lemma removeStream_other (s : DeviceService) (deviceID other : string) :
  other <> deviceID ->
  streams (removeStream s deviceID) !! other = streams s !! other.
Proof.
  intros Hne. unfold removeStream. simpl. apply lookup_delete_ne. congruence.
Qed.

Lemma addStream_lookup (s : DeviceService) (deviceID : string) (stream : Stream) :
  streams (addStream s deviceID stream) !! deviceID = Some stream.
Proof. unfold addStream. simpl. apply lookup_insert_eq. Qed.

Section Loop.

Variable uuid_Parse : string -> Result string UUID.

(** On the three returns that call removeStream (context done, stream
    closed, receive error) the entry of the last recorded device id is gone
    from the map, whatever stream it held, and both sends to that id are
    refused. *)
Lemma DeviceStream_loop_removes (turns : list Turn) :
  forall (s : DeviceService) (stream : Stream) (deviceID : string)
         (s' : DeviceService) (dev : string) (by_ : Exit) (ret : option error),
    DeviceStream_loop uuid_Parse s stream deviceID turns = Returned s' dev by_ ret ->
    by_ <> ExitHeartbeatError ->
    streams s' !! dev = None
    /\ (forall update : UpdateNotification,
          SendUpdateNotification s' dev update
          = (s', Some (StatusError NotFound ("device " ++ dev ++ " not connected"))))
    /\ (forall rollback : RollbackRequest,
          SendRollbackRequest s' dev rollback
          = (s', Some (StatusError NotFound ("device " ++ dev ++ " not connected")))).
Proof.
  assert (Hsends : forall (s' : DeviceService) (dev : string),
             streams s' !! dev = None ->
             streams s' !! dev = None
             /\ (forall update : UpdateNotification,
                   SendUpdateNotification s' dev update
                   = (s', Some (StatusError NotFound ("device " ++ dev ++ " not connected"))))
             /\ (forall rollback : RollbackRequest,
                   SendRollbackRequest s' dev rollback
                   = (s', Some (StatusError NotFound ("device " ++ dev ++ " not connected"))))).
  { intros s' dev Hnone. split; [exact Hnone|].
    unfold SendUpdateNotification, SendRollbackRequest. rewrite Hnone.
    split; reflexivity. }
  induction turns as [|turn rest IH]; intros s stream deviceID s' dev by_ ret Hrun Hby;
    simpl in Hrun.
  - discriminate Hrun.
  - destruct turn as [ctx_err | now [msg | err]].
    + injection Hrun as <- <- <- <-. apply Hsends, removeStream_lookup.
    + destruct (dispatch uuid_Parse s now stream deviceID msg) as [s1 [deviceID1 | err]].
      * exact (IH s1 stream deviceID1 s' dev by_ ret Hrun Hby).
      * injection Hrun as <- <- <- <-. contradiction.
    + destruct err; injection Hrun as <- <- <- <-; apply Hsends, removeStream_lookup.
Qed.

(** C10 at the fourth return of the loop: a stream that registered a device
    and then returns on a heartbeat error (here a heartbeat whose device id
    does not parse) leaves by [ExitHeartbeatError] without removeStream; the
    entry of the device still holds the returned stream, and a send to the
    device is a Send on that stream, not the not-connected error. *)
Theorem DeviceStream_heartbeat_error_keeps_entry
    (s : DeviceService) (stream : Stream) (now1 now2 : Timestamp)
    (hb1 hb2 : HeartbeatRequest) (deviceUUID : UUID) (parse_err : string) :
  uuid_Parse (hb_DeviceId hb1) = Ok deviceUUID ->
  uuid_Parse (hb_DeviceId hb2) = Err parse_err ->
  send_error s !! stream = None ->
  exists s' : DeviceService,
    DeviceStream uuid_Parse s stream
      [Recv now1 (Ok (DeviceMessage_Heartbeat hb1));
       Recv now2 (Ok (DeviceMessage_Heartbeat hb2))]
    = Returned s' (hb_DeviceId hb1) ExitHeartbeatError
        (Some (StatusError InvalidArgument ("invalid device ID: " ++ parse_err)))
    /\ streams s' !! hb_DeviceId hb1 = Some stream
    /\ (forall update : UpdateNotification,
          SendUpdateNotification s' (hb_DeviceId hb1) update
          = stream_Send s' stream (ControlMessage_Update update))
    /\ (forall rollback : RollbackRequest,
          SendRollbackRequest s' (hb_DeviceId hb1) rollback
          = stream_Send s' stream (ControlMessage_Rollback rollback)).
Proof.
  intros Hparse1 Hparse2 Hlive.
  assert (Hnil : snd (handleHeartbeat uuid_Parse s now1 stream hb1) = None).
  { destruct (handleHeartbeat_unfold uuid_Parse s now1 stream hb1 deviceUUID Hparse1)
      as (s0 & Hrun & _ & _ & _ & Herr & _).
    rewrite Hrun. rewrite <- Herr in Hlive.
    apply (stream_Send_ok s0 stream _ Hlive). }
  unfold DeviceStream. simpl.
  destruct (handleHeartbeat uuid_Parse s now1 stream hb1) as [s1 ret1].
  simpl in Hnil. subst ret1.
  unfold handleHeartbeat. rewrite Hparse2.
  eexists. split; [reflexivity|].
  assert (Hentry : streams
            (log (addStream s1 (hb_DeviceId hb1) stream) ErrorLevel "heartbeat error"
               [zap_String "device_id" (hb_DeviceId hb2);
                zap_Error (status_Errorf InvalidArgument
                             ("invalid device ID: " ++ parse_err))])
            !! hb_DeviceId hb1 = Some stream).
  { simpl. apply lookup_insert_eq. }
  split; [exact Hentry|].
  unfold SendUpdateNotification, SendRollbackRequest. rewrite Hentry.
  split; reflexivity.
Qed.

End Loop.

Lemma DeviceStream_heartbeat_error_keeps_entry_witness :
  exists s' : DeviceService,
    DeviceStream Samples.parse_uuid Samples.service0 1%nat
      [Recv 500%Z (Ok (DeviceMessage_Heartbeat Samples.heartbeat9));
       Recv 560%Z (Ok (DeviceMessage_Heartbeat Samples.heartbeat_bad))]
    = Returned s' Samples.id9 ExitHeartbeatError
        (Some (StatusError InvalidArgument "invalid device ID: invalid UUID length"))
    /\ streams s' !! Samples.id9 = Some 1%nat
    /\ (forall update : UpdateNotification,
          SendUpdateNotification s' Samples.id9 update
          = stream_Send s' 1%nat (ControlMessage_Update update))
    /\ (forall rollback : RollbackRequest,
          SendRollbackRequest s' Samples.id9 rollback
          = stream_Send s' 1%nat (ControlMessage_Rollback rollback)).
Proof.
  apply (DeviceStream_heartbeat_error_keeps_entry Samples.parse_uuid Samples.service0
           1%nat 500%Z 560%Z Samples.heartbeat9 Samples.heartbeat_bad 9%N
           "invalid UUID length"); reflexivity.
Defined.

(** The same stream closing cleanly after its heartbeat: the entry is
    removed and the send is refused. *)
Example DeviceStream_closed_unregisters :
  match DeviceStream Samples.parse_uuid Samples.service0 1%nat
          [Recv 500%Z (Ok (DeviceMessage_Heartbeat Samples.heartbeat9));
           Recv 560%Z (Err io_EOF)] with
  | Returned s' dev by_ ret =>
      dev = Samples.id9 /\ by_ = ExitStreamClosed /\ ret = None
      /\ streams s' !! Samples.id9 = None
      /\ snd (SendUpdateNotification s' Samples.id9 Samples.update7)
         = Some (StatusError NotFound
                   "device 00000000-0000-0000-0000-000000000009 not connected")
  | Running _ _ => False
  end.
Proof. vm_compute. repeat split; reflexivity. Qed.

(** Stream 1 registers device 9, stream 2 registers it again and replaces
    the entry; when stream 1 then closes, its loop deletes the entry that now
    holds stream 2, and a send to device 9 is refused although stream 2 is
    still in its loop. *)
Example DeviceStream_close_removes_newer_stream :
  match DeviceStream Samples.parse_uuid Samples.service0 1%nat
          [Recv 500%Z (Ok (DeviceMessage_Heartbeat Samples.heartbeat9))] with
  | Running s1 dev1 =>
      match DeviceStream Samples.parse_uuid s1 2%nat
              [Recv 510%Z (Ok (DeviceMessage_Heartbeat Samples.heartbeat9))] with
      | Running s2 dev2 =>
          streams s2 !! Samples.id9 = Some 2%nat
          /\ match DeviceStream_loop Samples.parse_uuid s2 1%nat dev1
                     [Recv 520%Z (Err io_EOF)] with
             | Returned s3 dev by_ ret =>
                 dev = Samples.id9 /\ by_ = ExitStreamClosed
                 /\ streams s3 !! Samples.id9 = None
                 /\ snd (SendRollbackRequest s3 Samples.id9 Samples.rollback7)
                    = Some (StatusError NotFound
                              "device 00000000-0000-0000-0000-000000000009 not connected")
             | Running _ _ => False
             end
      | Returned _ _ _ _ => False
      end
  | Returned _ _ _ _ => False
  end.
Proof. vm_compute. repeat split; reflexivity. Qed.

(** The same return, reached by a failed Send: stream 1 registers device
    9, its transport goes away, and the acknowledgement of its next heartbeat
    cannot be sent. DeviceStream returns the Send error and the entry of
    device 9 still holds stream 1. *)
Example DeviceStream_ack_failure_keeps_entry :
  match DeviceStream Samples.parse_uuid Samples.service0 1%nat
          [Recv 500%Z (Ok (DeviceMessage_Heartbeat Samples.heartbeat9))] with
  | Running s1 dev1 =>
      match DeviceStream_loop Samples.parse_uuid
              (break_stream s1 1%nat (OtherError "transport is closing")) 1%nat dev1
              [Recv 560%Z (Ok (DeviceMessage_Heartbeat Samples.heartbeat9))] with
      | Returned s2 dev by_ ret =>
          dev = Samples.id9 /\ by_ = ExitHeartbeatError
          /\ ret = Some (OtherError "transport is closing")
          /\ streams s2 !! Samples.id9 = Some 1%nat
          /\ snd (SendUpdateNotification s2 Samples.id9 Samples.update7)
             = Some (OtherError "transport is closing")
      | Running _ _ => False
      end
  | Returned _ _ _ _ => False
  end.
Proof. vm_compute. repeat split; reflexivity. Qed.

End RegistryFacts.
(** * Theorems on the rest of the code *)

(** ** Address allocation *)

Section IpamFacts.
Import Ipam.
Local Open Scope Z_scope.
Local Open Scope list_scope.

Lemma be_value_app (l : list Z) (b : Z) :
  be_value (l ++ [b]) = be_value l * 256 + b.
Proof. unfold be_value. rewrite fold_left_app. reflexivity. Qed.

Lemma be_value_bound (l : list Z) :
  Forall (fun b => 0 <= b < 256) l -> 0 <= be_value l < 256 ^ Z.of_nat (List.length l).
Proof.
  induction l as [|b l IH] using rev_ind; intros Hl.
  - unfold be_value. simpl. lia.
  - apply Forall_app in Hl as [Hl Hb]. apply Forall_inv in Hb.
    specialize (IH Hl). rewrite be_value_app, length_app. simpl.
    replace (Z.of_nat (List.length l + 1)) with (Z.of_nat (List.length l) + 1) by lia.
    rewrite Z.pow_add_r by lia. lia.
Qed.

(** One turn of the loop at the last byte of [l ++ [b]]. *)
Lemma incrementIP_loop_snoc (l s : list Z) (b : Z) :
  incrementIP_loop (S (List.length l)) (l ++ b :: s) =
    if decide ((b + 1) mod 256 <> 0) then l ++ (b + 1) mod 256 :: s
    else incrementIP_loop (List.length l) (l ++ (b + 1) mod 256 :: s).
Proof.
  simpl. rewrite list_lookup_middle by reflexivity.
  rewrite insert_app_r_alt by lia. rewrite Nat.sub_diag. reflexivity.
Qed.

(** The loop leaves the bytes behind its start alone. *)
Lemma incrementIP_loop_app (l s : list Z) :
  incrementIP_loop (List.length l) (l ++ s) = incrementIP_loop (List.length l) l ++ s.
Proof.
  revert s. induction l as [|b l IH] using rev_ind; intros s; [reflexivity|].
  rewrite length_app, Nat.add_1_r.
  replace ((l ++ [b]) ++ s) with (l ++ b :: s)
    by (rewrite <- app_assoc; reflexivity).
  rewrite (incrementIP_loop_snoc l s b), (incrementIP_loop_snoc l [] b).
  destruct (decide ((b + 1) mod 256 <> 0)).
  - rewrite <- app_assoc. reflexivity.
  - rewrite (IH ((b + 1) mod 256 :: s)), (IH [(b + 1) mod 256]).
    rewrite <- app_assoc. reflexivity.
Qed.

Lemma incrementIP_loop_spec (l : list Z) :
  Forall (fun b => 0 <= b < 256) l ->
  List.length (incrementIP_loop (List.length l) l) = List.length l
  /\ Forall (fun b => 0 <= b < 256) (incrementIP_loop (List.length l) l)
  /\ be_value (incrementIP_loop (List.length l) l)
     = (be_value l + 1) mod 256 ^ Z.of_nat (List.length l).
Proof.
  induction l as [|b l IH] using rev_ind; intros Hl.
  - split; [reflexivity|]. split; [constructor | reflexivity].
  - apply Forall_app in Hl as [Hl Hb]. apply Forall_inv in Hb.
    destruct (IH Hl) as (IHlen & IHrange & IHval).
    pose proof (be_value_bound l Hl) as Hbound.
    rewrite length_app, Nat.add_1_r.
    rewrite incrementIP_loop_snoc.
    replace (Z.of_nat (S (List.length l))) with (Z.of_nat (List.length l) + 1) by lia.
    rewrite Z.pow_add_r by lia. change (256 ^ 1) with 256.
    destruct (decide ((b + 1) mod 256 <> 0)) as [Hnz|Hz].
    + assert (Hlt : b < 255).
      { destruct (decide (b = 255)) as [->|]; [contradiction Hnz; reflexivity | lia]. }
      assert (Hb1 : (b + 1) mod 256 = b + 1) by (apply Z.mod_small; lia).
      rewrite Hb1. clear Hb1 Hnz. split; [rewrite length_app; simpl; lia|]. split.
      * apply Forall_app. split; [assumption|]. constructor; [lia | constructor].
      * rewrite !be_value_app. rewrite Z.mod_small by lia. lia.
    + assert (Hb255 : b = 255).
      { destruct (decide (b = 255)); [assumption|].
        contradiction Hz. rewrite Z.mod_small; lia. }
      subst b. change ((255 + 1) mod 256) with 0.
      rewrite incrementIP_loop_app. split; [|split].
      * rewrite !length_app, IHlen. simpl. lia.
      * apply Forall_app. split; [assumption|]. constructor; [lia | constructor].
      * rewrite !be_value_app, IHval.
        replace (be_value l * 256 + 255 + 1) with ((be_value l + 1) * 256) by lia.
        rewrite Z.mul_mod_distr_r by lia. lia.
Qed.

(** X1: incrementIP adds one to the address read as a number, most
    significant byte first, and wraps at the width of the slice: the length
    is kept, every byte stays a byte, and the all-ones address becomes the
    all-zero one. *)
Theorem incrementIP_adds_one (ip : IP) :
  Forall (fun b => 0 <= b < 256) ip ->
  List.length (incrementIP ip) = List.length ip
  /\ Forall (fun b => 0 <= b < 256) (incrementIP ip)
  /\ be_value (incrementIP ip) = (be_value ip + 1) mod 256 ^ Z.of_nat (List.length ip).
Proof. intros Hip. unfold incrementIP. apply incrementIP_loop_spec. assumption. Qed.

Lemma incrementIP_adds_one_witness :
  be_value (incrementIP [10; 100; 0; 255])
  = (be_value [10; 100; 0; 255] + 1) mod 256 ^ Z.of_nat (List.length [10; 100; 0; 255]).
Proof.
  apply (incrementIP_adds_one [10; 100; 0; 255]).
  repeat constructor; lia.
Defined.

Example incrementIP_carries :
  incrementIP [10; 100; 0; 255] = [10; 100; 1; 0]
  /\ incrementIP [255; 255; 255; 255] = [0; 0; 0; 0]
  /\ incrementIP [] = [].
Proof. repeat split; reflexivity. Qed.

End IpamFacts.

Section IpamAllocation.
Import Ipam.
Local Open Scope Z_scope.

Variable net_ParseCIDR : string -> Result string (IP * IPNet).

(** X2: a manager made by NewIPAM hands out the same address at every call
    of AllocateIP, whatever organisation asks and whatever the database of
    the manager holds: the network address plus one. A CIDR text that does
    not parse gives no manager but the error "invalid CIDR: ...". *)
Theorem AllocateIP_always_first_address
    (queries queries' : Store.Database) (cidr orgID orgID' : string)
    (addr : IP) (net : IPNet) :
  net_ParseCIDR cidr = Ok (addr, net) ->
  Forall (fun b => 0 <= b < 256) (IPNet_IP net) ->
  exists (i i' : IPAM) (ip : IP),
    NewIPAM net_ParseCIDR queries cidr = Ok i
    /\ NewIPAM net_ParseCIDR queries' cidr = Ok i'
    /\ AllocateIP i orgID = Ok ip
    /\ AllocateIP i' orgID' = Ok ip
    /\ List.length ip = List.length (IPNet_IP net)
    /\ be_value ip
       = (be_value (IPNet_IP net) + 1) mod 256 ^ Z.of_nat (List.length (IPNet_IP net)).
Proof.
  intros Hparse Hrange.
  exists (mkIPAM queries net), (mkIPAM queries' net), (incrementIP (IPNet_IP net)).
  unfold NewIPAM. rewrite Hparse.
  destruct (incrementIP_loop_spec (IPNet_IP net) Hrange) as (Hlen & _ & Hval).
  repeat split; assumption.
Qed.

Lemma NewIPAM_invalid_cidr (queries : Store.Database) (cidr err : string) :
  net_ParseCIDR cidr = Err err ->
  NewIPAM net_ParseCIDR queries cidr = Err ("invalid CIDR: " ++ err).
Proof. intros Hparse. unfold NewIPAM. rewrite Hparse. reflexivity. Qed.

End IpamAllocation.

(** ** Keys *)

Section ByteFacts.
Local Open Scope Z_scope.

(** A check of all 256 bytes. *)
Lemma all_bytes (f : Z -> bool) :
  forallb (fun n => f (Z.of_nat n)) (seq 0 256) = true ->
  forall b : Z, 0 <= b < 256 -> f b = true.
Proof.
  intros Hall b Hb. rewrite forallb_forall in Hall.
  specialize (Hall (Z.to_nat b)). rewrite Z2Nat.id in Hall by lia.
  apply Hall. apply in_seq. lia.
Qed.

Lemma clamp_first_byte (b : Z) :
  0 <= b < 256 ->
  0 <= Z.land b 248 < 256 /\ Z.land b 248 mod 8 = 0
  /\ Z.land (Z.land b 248) 248 = Z.land b 248.
Proof.
  intros Hb.
  pose proof (all_bytes
    (fun b => (0 <=? Z.land b 248) && (Z.land b 248 <? 256)
              && (Z.land b 248 mod 8 =? 0)
              && (Z.land (Z.land b 248) 248 =? Z.land b 248))
    eq_refl b Hb) as H.
  simpl in H. lia.
Qed.

Lemma clamp_last_byte (b : Z) :
  0 <= b < 256 ->
  64 <= Z.lor (Z.land b 127) 64 < 128
  /\ Z.lor (Z.land (Z.lor (Z.land b 127) 64) 127) 64 = Z.lor (Z.land b 127) 64.
Proof.
  intros Hb.
  pose proof (all_bytes
    (fun b => (64 <=? Z.lor (Z.land b 127) 64) && (Z.lor (Z.land b 127) 64 <? 128)
              && (Z.lor (Z.land (Z.lor (Z.land b 127) 64) 127) 64
                  =? Z.lor (Z.land b 127) 64))
    eq_refl b Hb) as H.
  simpl in H. lia.
Qed.

End ByteFacts.

Section KeyFacts.
Import Keys.
Local Open Scope Z_scope.

Variable curve25519_ScalarBaseMult : list Z -> list Z.
Variable base64_EncodeToString : list Z -> string.
Variable base64_DecodeString : string -> Result string (list Z).

Lemma le_value_app (l s : list Z) :
  le_value (l ++ s)%list = le_value l + 256 ^ Z.of_nat (List.length l) * le_value s.
Proof.
  induction l as [|b l IH]; simpl le_value.
  - simpl. lia.
  - rewrite IH. change (List.length (b :: l)) with (S (List.length l)).
    rewrite Nat2Z.inj_succ, Z.pow_succ_r by lia. lia.
Qed.

Lemma le_value_bound (l : list Z) :
  Forall in_byte_range l -> 0 <= le_value l < 256 ^ Z.of_nat (List.length l).
Proof.
  induction l as [|b l IH]; intros Hl; simpl le_value.
  - simpl. lia.
  - apply Forall_cons in Hl as [Hb Hl]. specialize (IH Hl). unfold in_byte_range in Hb.
    change (List.length (b :: l)) with (S (List.length l)).
    rewrite Nat2Z.inj_succ, Z.pow_succ_r by lia. lia.
Qed.

(** A key of 32 bytes is its first byte, 30 bytes, and its last byte; the
    clamp changes the two ends only. *)
Lemma clamp_ends (key : list Z) :
  List.length key = 32%nat ->
  exists (b0 b31 : Z) (mid : list Z),
    key = (b0 :: mid ++ [b31])%list /\ List.length mid = 30%nat
    /\ clamp key = (Z.land b0 248 :: mid ++ [Z.lor (Z.land b31 127) 64])%list.
Proof.
  intros Hlen.
  destruct key as [|b0 rest]; [discriminate|].
  destruct (rev rest) as [|b31 rmid] eqn:Hrev.
  { apply (f_equal (@List.length Z)) in Hrev. rewrite length_rev in Hrev.
    simpl in Hlen, Hrev. lia. }
  assert (Hrest : rest = (rev rmid ++ [b31])%list).
  { rewrite <- (rev_involutive rest), Hrev. reflexivity. }
  exists b0, b31, (rev rmid). subst rest.
  assert (Hmid : List.length (rev rmid) = 30%nat).
  { simpl in Hlen. rewrite length_app in Hlen. simpl in Hlen. lia. }
  split; [reflexivity|]. split; [assumption|].
  unfold clamp. cbn [alter list_alter].
  change 31%nat with (S 30). cbn [alter list_alter]. f_equal.
  rewrite <- Hmid.
  rewrite !alter_app_r_alt, Nat.sub_diag by lia. reflexivity.
Qed.

Lemma clamp_spec (key : list Z) :
  List.length key = 32%nat ->
  Forall in_byte_range key ->
  List.length (clamp key) = 32%nat
  /\ Forall in_byte_range (clamp key)
  /\ (8 | le_value (clamp key))
  /\ 2 ^ 254 <= le_value (clamp key) < 2 ^ 255
  /\ clamp (clamp key) = clamp key.
Proof.
  intros Hlen Hrange.
  destruct (clamp_ends key Hlen) as (b0 & b31 & mid & -> & Hmid & Hclamp).
  apply Forall_cons in Hrange as [Hb0 Hrange].
  apply Forall_app in Hrange as [Hmidr Hb31]. apply Forall_inv in Hb31.
  destruct (clamp_first_byte b0 Hb0) as (Hf1 & Hf2 & Hf3).
  destruct (clamp_last_byte b31 Hb31) as (Hl1 & Hl2).
  assert (Hlen' : List.length (clamp (b0 :: mid ++ [b31])) = 32%nat).
  { rewrite Hclamp. simpl. rewrite length_app, Hmid. reflexivity. }
  split; [exact Hlen'|]. split; [|split; [|split]].
  - rewrite Hclamp. apply Forall_cons. split; [exact Hf1|].
    apply Forall_app. split; [assumption|].
    constructor; [unfold in_byte_range; lia | constructor].
  - rewrite Hclamp. simpl le_value.
    apply Z.mod_divide in Hf2; [|lia]. destruct Hf2 as [q Hq].
    exists (q + 32 * le_value (mid ++ [Z.lor (Z.land b31 127) 64])). lia.
  - rewrite Hclamp. simpl le_value. rewrite le_value_app, Hmid. simpl le_value.
    pose proof (le_value_bound mid Hmidr) as Hm. rewrite Hmid in Hm.
    change (2 ^ 254) with (64 * 256 ^ 31). change (2 ^ 255) with (128 * 256 ^ 31).
    change (256 ^ 31) with (256 * 256 ^ Z.of_nat 30).
    lia.
  - destruct (clamp_ends _ Hlen') as (c0 & c31 & cmid & Heq & Hcmid & Hclamp2).
    rewrite Hclamp2. rewrite Hclamp in Heq.
    injection Heq as <- Heq. apply app_inj_tail in Heq as [<- <-].
    rewrite Hf3, Hl2. exact (eq_sym Hclamp).
Qed.

(** X3: the private key of a generated WireGuard key pair is clamped: read
    as a number, least significant byte first, it is a multiple of 8 that is
    at least 2^254 and below 2^255; it has 32 bytes, clamping it again
    changes nothing, and the public key is ScalarBaseMult of it. A failure
    of rand.Read gives no key pair. *)
Theorem GenerateWireGuardKeyPair_clamped (random : list Z) :
  List.length random = 32%nat ->
  Forall in_byte_range random ->
  exists k : WireGuardKeyPair,
    GenerateWireGuardKeyPair curve25519_ScalarBaseMult (Ok random) = Ok k
    /\ List.length (PrivateKey k) = 32%nat
    /\ Forall in_byte_range (PrivateKey k)
    /\ (8 | le_value (PrivateKey k))
    /\ 2 ^ 254 <= le_value (PrivateKey k) < 2 ^ 255
    /\ clamp (PrivateKey k) = PrivateKey k
    /\ PublicKey k = curve25519_ScalarBaseMult (PrivateKey k).
Proof.
  intros Hlen Hrange.
  destruct (clamp_spec random Hlen Hrange) as (H1 & H2 & H3 & H4 & H5).
  eexists. split; [reflexivity|]. simpl.
  repeat (split; [assumption|]). reflexivity.
Qed.

(** X4: the four key parsers return a key only of the size they are for (32
    bytes, 64 for an Ed25519 private key), and then the very bytes the
    base64 text decodes to; a WireGuard parser that returns an error returns
    the all-zero key with it. *)
Theorem parsed_keys_have_their_size (encoded : string) :
  (forall key : list Z,
      ParseWireGuardPublicKey base64_DecodeString encoded = (key, None) ->
      base64_DecodeString encoded = Ok key /\ List.length key = 32%nat)
  /\ (forall key : list Z,
        ParseWireGuardPrivateKey base64_DecodeString encoded = (key, None) ->
        base64_DecodeString encoded = Ok key /\ List.length key = 32%nat)
  /\ (forall (key : list Z) (err : string),
        ParseWireGuardPublicKey base64_DecodeString encoded = (key, Some err)
        \/ ParseWireGuardPrivateKey base64_DecodeString encoded = (key, Some err) ->
        key = zero_key)
  /\ (forall key : list Z,
        ParseEd25519PublicKey base64_DecodeString encoded = Ok key ->
        base64_DecodeString encoded = Ok key /\ List.length key = 32%nat)
  /\ (forall key : list Z,
        ParseEd25519PrivateKey base64_DecodeString encoded = Ok key ->
        base64_DecodeString encoded = Ok key /\ List.length key = 64%nat).
Proof.
  unfold ParseWireGuardPublicKey, ParseWireGuardPrivateKey,
    ParseEd25519PublicKey, ParseEd25519PrivateKey,
    ed25519_PublicKeySize, ed25519_PrivateKeySize.
  destruct (base64_DecodeString encoded) as [data|e];
    repeat split; intros;
    repeat match goal with
    | H : _ \/ _ |- _ => destruct H
    | H : context [decide ?P] |- _ => destruct (decide P)
    | H : (_, Some _) = (_, None) |- _ => discriminate H
    | H : (_, None) = (_, Some _) |- _ => discriminate H
    | H : Err _ = Ok _ |- _ => discriminate H
    | H : (_, _) = (_, _) |- _ => inversion H; subst; clear H
    | H : Ok _ = Ok _ |- _ => injection H as ?; subst
    end;
    first [reflexivity | apply dec_stable; assumption].
Qed.

(** X5: the keys of a generated pair come back from their texts: as
    base64 decodes what it encoded and ScalarBaseMult fills the 32 bytes of
    the public key, ParseWireGuardPrivateKey of PrivateKeyString and
    ParseWireGuardPublicKey of PublicKeyString return the keys of the pair
    and no error. *)
Theorem generated_keys_parse_back (random : list Z) :
  List.length random = 32%nat ->
  Forall in_byte_range random ->
  (forall data : list Z,
      Forall in_byte_range data ->
      base64_DecodeString (base64_EncodeToString data) = Ok data) ->
  (forall k : list Z,
      List.length k = 32%nat -> Forall in_byte_range k ->
      List.length (curve25519_ScalarBaseMult k) = 32%nat
      /\ Forall in_byte_range (curve25519_ScalarBaseMult k)) ->
  exists k : WireGuardKeyPair,
    GenerateWireGuardKeyPair curve25519_ScalarBaseMult (Ok random) = Ok k
    /\ ParseWireGuardPrivateKey base64_DecodeString
         (PrivateKeyString base64_EncodeToString k) = (PrivateKey k, None)
    /\ ParseWireGuardPublicKey base64_DecodeString
         (PublicKeyString base64_EncodeToString k) = (PublicKey k, None).
Proof.
  intros Hlen Hrange Hcodec Hmult.
  destruct (clamp_spec random Hlen Hrange) as (Hclen & Hcrange & _).
  destruct (Hmult (clamp random) Hclen Hcrange) as (Hplen & Hprange).
  eexists. split; [reflexivity|].
  unfold ParseWireGuardPrivateKey, ParseWireGuardPublicKey,
    PrivateKeyString, PublicKeyString. cbn [PrivateKey PublicKey].
  rewrite (Hcodec _ Hcrange), (Hcodec _ Hprange).
  rewrite !decide_False by (intros Hne; contradiction Hne).
  split; reflexivity.
Qed.

End KeyFacts.

(** ** Hex encoding and streamed hashes *)

Section HexFacts.

Lemma hexdigit_is_hex (n : N) :
  (n < 16)%N -> Spec.is_hex_digit (Crypto.hexdigit n) = true.
Proof.
  intros Hn.
  assert (Hcases : forallb (fun k => Spec.is_hex_digit (Crypto.hexdigit (N.of_nat k)))
                     (seq 0 16) = true) by reflexivity.
  rewrite forallb_forall in Hcases.
  specialize (Hcases (N.to_nat n)). rewrite N2Nat.id in Hcases.
  apply Hcases. apply in_seq. lia.
Qed.

Lemma hexdigit_inj (m n : N) :
  (m < 16)%N -> (n < 16)%N -> Crypto.hexdigit m = Crypto.hexdigit n -> m = n.
Proof.
  intros Hm Hn Heq.
  assert (Hcases : forallb (fun i => forallb (fun j =>
                      implb (Ascii.eqb (Crypto.hexdigit (N.of_nat i))
                                       (Crypto.hexdigit (N.of_nat j)))
                            (Nat.eqb i j)) (seq 0 16)) (seq 0 16) = true)
    by reflexivity.
  rewrite forallb_forall in Hcases.
  specialize (Hcases (N.to_nat m)). rewrite forallb_forall in Hcases.
  assert (Hin : forall k : N, (k < 16)%N -> In (N.to_nat k) (seq 0 16)).
  { intros k Hk. apply in_seq. lia. }
  specialize (Hcases (Hin m Hm) (N.to_nat n) (Hin n Hn)).
  rewrite !N2Nat.id, Heq, Ascii.eqb_refl in Hcases. simpl in Hcases.
  apply Nat.eqb_eq in Hcases. lia.
Qed.

Lemma byte_nibbles (v : byte) :
  (N.shiftr (Byte.to_N v) 4 < 16)%N /\ (N.land (Byte.to_N v) 15 < 16)%N
  /\ Byte.to_N v = (16 * N.shiftr (Byte.to_N v) 4 + N.land (Byte.to_N v) 15)%N.
Proof.
  pose proof (Byte.to_N_bounded v) as Hv.
  change 15%N with (N.ones 4). rewrite N.land_ones, N.shiftr_div_pow2.
  change (2 ^ 4)%N with 16%N.
  pose proof (N.mod_lt (Byte.to_N v) 16 ltac:(lia)).
  pose proof (N.div_mod (Byte.to_N v) 16 ltac:(lia)).
  assert (Byte.to_N v / 16 < 16)%N by (apply N.Div0.div_lt_upper_bound; lia).
  lia.
Qed.

Lemma EncodeToString_all_hex (src : list byte) :
  Spec.all_hex (Crypto.EncodeToString src) = true.
Proof.
  induction src as [|v rest IH]; [reflexivity|].
  destruct (byte_nibbles v) as (Hhi & Hlo & _).
  simpl. rewrite (hexdigit_is_hex _ Hhi), (hexdigit_is_hex _ Hlo), IH. reflexivity.
Qed.

Lemma EncodeToString_inj (a b : list byte) :
  Crypto.EncodeToString a = Crypto.EncodeToString b -> a = b.
Proof.
  revert b. induction a as [|x a IH]; intros [|y b] Heq; simpl in Heq;
    try discriminate Heq; [reflexivity|].
  injection Heq as Hhi Hlo Hrest.
  destruct (byte_nibbles x) as (Hx1 & Hx2 & Hx).
  destruct (byte_nibbles y) as (Hy1 & Hy2 & Hy).
  apply hexdigit_inj in Hhi; [|assumption..].
  apply hexdigit_inj in Hlo; [|assumption..].
  f_equal; [|apply IH; assumption].
  assert (Hxy : Byte.to_N x = Byte.to_N y) by lia.
  assert (Hsome : Some x = Some y)
    by (rewrite <- (Byte.of_to_N x), <- (Byte.of_to_N y), Hxy; reflexivity).
  injection Hsome as ->. reflexivity.
Qed.

Variable blake3_Sum256 : list byte -> list byte.

(** X6: the hash BLAKE3Hash returns for a 32-byte digest is a well-formed
    content hash, 64 lower-case hex digits, whatever the data. *)
Theorem BLAKE3Hash_well_formed (data : list byte) :
  List.length (blake3_Sum256 data) = 32%nat ->
  String.length (Crypto.BLAKE3Hash blake3_Sum256 data) = 64%nat
  /\ Spec.all_hex (Crypto.BLAKE3Hash blake3_Sum256 data) = true
  /\ Spec.hash_well_formed (Crypto.BLAKE3Hash blake3_Sum256 data) = true.
Proof.
  intros Hsize.
  assert (Hlen : String.length (Crypto.BLAKE3Hash blake3_Sum256 data) = 64%nat).
  { unfold Crypto.BLAKE3Hash. rewrite EncodeToString_length, Hsize. reflexivity. }
  assert (Hhex : Spec.all_hex (Crypto.BLAKE3Hash blake3_Sum256 data) = true)
    by apply EncodeToString_all_hex.
  split; [exact Hlen|]. split; [exact Hhex|].
  unfold Spec.hash_well_formed. rewrite Hlen, Hhex. reflexivity.
Qed.

(** X7: the hex encoding loses nothing of the digest: data verify against
    the hash of other data exactly when the two have the same digest. *)
Theorem VerifyBLAKE3_iff_same_digest (data data' : list byte) :
  Crypto.VerifyBLAKE3 blake3_Sum256 data (Crypto.BLAKE3Hash blake3_Sum256 data') = true
  <-> blake3_Sum256 data = blake3_Sum256 data'.
Proof.
  rewrite VerifyBLAKE3_spec. unfold Crypto.BLAKE3Hash. split.
  - intros Heq. symmetry. apply EncodeToString_inj. exact Heq.
  - intros ->. reflexivity.
Qed.

(** X8: BLAKE3HashReader of a reader that ends in io.EOF is BLAKE3Hash of
    the bytes it delivered, however they are cut into chunks, and the bytes
    verify against it; a reader that ends in an error gives the empty hash
    and the wrapped error. *)
Theorem BLAKE3HashReader_is_BLAKE3Hash (r : Keys.Reader) :
  (Keys.read_error r = None ->
     Keys.BLAKE3HashReader blake3_Sum256 r
       = (Crypto.BLAKE3Hash blake3_Sum256 (concat (Keys.chunks r)), None)
     /\ Crypto.VerifyBLAKE3 blake3_Sum256 (concat (Keys.chunks r))
          (fst (Keys.BLAKE3HashReader blake3_Sum256 r)) = true)
  /\ (forall err : string,
        Keys.read_error r = Some err ->
        Keys.BLAKE3HashReader blake3_Sum256 r
          = ("", Some ("failed to compute hash: " ++ err))).
Proof.
  assert (Hfold : forall (cs : list (list byte)) (h : list byte),
             fold_left (fun h chunk => (h ++ chunk)%list) cs h = (h ++ concat cs)%list).
  { induction cs as [|c cs IH]; intros h; simpl.
    - rewrite app_nil_r. reflexivity.
    - rewrite IH, <- app_assoc. reflexivity. }
  unfold Keys.BLAKE3HashReader, Keys.io_Copy. split.
  - intros Hok. rewrite Hok, Hfold. simpl app. split; [reflexivity|].
    simpl. apply VerifyBLAKE3_spec. reflexivity.
  - intros err Herr. rewrite Herr. reflexivity.
Qed.

End HexFacts.

(** ** The device rows of a rollout: creation, counts, lists *)

Section CountFacts.
Import Store Queries.

(** How many rows of a map a predicate holds of, and what a write of one
    row does to that number. *)
Lemma size_filter_insert_fresh {K : Type} `{Countable K} {A : Type}
    (P : K * A -> Prop) `{!forall kv, Decision (P kv)}
    (m : gmap K A) (k : K) (v : A) :
  m !! k = None ->
  size (filter P (<[k := v]> m))
  = (size (filter P m) + (if decide (P (k, v)) then 1 else 0))%nat.
Proof.
  intros Hk. rewrite map_filter_insert.
  destruct (decide (P (k, v))).
  - rewrite map_size_insert_None; [lia|].
    apply map_lookup_filter_None. left. assumption.
  - rewrite delete_id by assumption. lia.
Qed.

Lemma size_filter_split {K : Type} `{Countable K} {A : Type}
    (P : K * A -> Prop) `{!forall kv, Decision (P kv)}
    (m : gmap K A) (k : K) (v : A) :
  m !! k = Some v ->
  size (filter P m)
  = (size (filter P (delete k m)) + (if decide (P (k, v)) then 1 else 0))%nat.
Proof.
  intros Hk. rewrite <- (insert_delete_id m k v Hk) at 1.
  apply size_filter_insert_fresh. apply lookup_delete_eq.
Qed.

Lemma size_filter_overwrite {K : Type} `{Countable K} {A : Type}
    (P : K * A -> Prop) `{!forall kv, Decision (P kv)}
    (m : gmap K A) (k : K) (v v' : A) :
  m !! k = Some v ->
  (size (filter P (<[k := v']> m)) + (if decide (P (k, v)) then 1 else 0)
   = size (filter P m) + (if decide (P (k, v')) then 1 else 0))%nat.
Proof.
  intros Hk. rewrite (size_filter_split P m k v Hk).
  rewrite <- (insert_delete_eq m k v').
  rewrite (size_filter_insert_fresh P (delete k m) k v') by apply lookup_delete_eq.
  lia.
Qed.

Lemma CountRolloutDevicesByStatus_count (db : Database) (rollout_id : UUID)
    (status_text : string) :
  fault db = None ->
  CountRolloutDevicesByStatus db rollout_id status_text
  = Ok (Z.of_nat (count_rows (rollout_device_status db) rollout_id status_text)).
Proof. intros Hf. unfold CountRolloutDevicesByStatus. rewrite Hf. reflexivity. Qed.

(** X9: CreateRolloutDeviceStatus keeps one row per (rollout, device): it
    stores a PENDING row with no health-check result when there is none yet
    and the rollout and the device exist, which GetRolloutDeviceStatus then
    returns; asked again for the same pair it fails with the primary-key
    violation and leaves the stored row, whatever its status has become, as
    it is. *)
Theorem CreateRolloutDeviceStatus_once
    (now : Timestamp) (db : Database) (rollout_id device_id : UUID) (canary : bool) :
  fault db = None ->
  is_Some (rollouts db !! rollout_id) ->
  is_Some (devices db !! device_id) ->
  rollout_device_status db !! (rollout_id, device_id) = None ->
  let out := CreateRolloutDeviceStatus now db rollout_id device_id canary in
  let row := mkRolloutDeviceStatus canary PENDING None now in
  snd out = Ok row
  /\ GetRolloutDeviceStatus (fst out) rollout_id device_id = Ok row
  /\ (forall k : UUID * UUID,
        k <> (rollout_id, device_id) ->
        rollout_device_status (fst out) !! k = rollout_device_status db !! k)
  /\ (forall (later : Database) (stored : RolloutDeviceStatus)
             (now' : Timestamp) (canary' : bool),
        fault later = None ->
        rollout_device_status later !! (rollout_id, device_id) = Some stored ->
        CreateRolloutDeviceStatus now' later rollout_id device_id canary'
        = (later, Err (UniqueViolation "rollout_device_status_pkey"))).
Proof.
  intros Hf [r Hr] [d Hd] Hnone. unfold CreateRolloutDeviceStatus.
  rewrite Hf, Hnone, Hr, Hd. simpl.
  split; [reflexivity|]. split; [|split].
  - unfold GetRolloutDeviceStatus. simpl. rewrite Hf, lookup_insert_eq. reflexivity.
  - intros k Hk. apply lookup_insert_ne. congruence.
  - intros later stored now' canary' Hf' Hstored.
    rewrite Hf', Hstored. reflexivity.
Qed.

Lemma CreateRolloutDeviceStatus_missing
    (now : Timestamp) (db : Database) (rollout_id device_id : UUID) (canary : bool) :
  fault db = None ->
  rollout_device_status db !! (rollout_id, device_id) = None ->
  rollouts db !! rollout_id = None \/ devices db !! device_id = None ->
  exists c : string,
    CreateRolloutDeviceStatus now db rollout_id device_id canary
    = (db, Err (ForeignKeyViolation c)).
Proof.
  intros Hf Hnone Hmiss. unfold CreateRolloutDeviceStatus. rewrite Hf, Hnone.
  destruct (rollouts db !! rollout_id); [|eexists; reflexivity].
  destruct (devices db !! device_id); [|eexists; reflexivity].
  destruct Hmiss; discriminate.
Qed.

Lemma status_is_row (rid rollout_id device_id : UUID) (text : string)
    (st s : RolloutDeviceState) (row : RolloutDeviceStatus) :
  rollout_device_state_of_text text = Some st ->
  status row = s ->
  (fst (fst (rollout_id, device_id, row)) = rid
   /\ status_is text (snd (rollout_id, device_id, row)) = true)
  <-> (rid = rollout_id /\ st = s).
Proof.
  intros Hst Hrow. unfold status_is. rewrite Hst. simpl.
  rewrite bool_decide_eq_true. intuition congruence.
Qed.

Lemma count_rows_insert_fresh (t : gmap (UUID * UUID) RolloutDeviceStatus)
    (rollout_id device_id rid : UUID) (row : RolloutDeviceStatus)
    (text : string) (st : RolloutDeviceState) :
  t !! (rollout_id, device_id) = None ->
  rollout_device_state_of_text text = Some st ->
  count_rows (<[(rollout_id, device_id) := row]> t) rid text
  = (count_rows t rid text
     + (if decide (rid = rollout_id /\ st = status row) then 1 else 0))%nat.
Proof.
  intros Hnone Hst. unfold count_rows.
  rewrite size_filter_insert_fresh by assumption.
  f_equal. apply decide_ext. apply status_is_row; [assumption | reflexivity].
Qed.

Lemma count_rows_overwrite (t : gmap (UUID * UUID) RolloutDeviceStatus)
    (rollout_id device_id rid : UUID) (row row' : RolloutDeviceStatus)
    (text : string) (st : RolloutDeviceState) :
  t !! (rollout_id, device_id) = Some row ->
  rollout_device_state_of_text text = Some st ->
  (count_rows (<[(rollout_id, device_id) := row']> t) rid text
   + (if decide (rid = rollout_id /\ st = status row) then 1 else 0)
   = count_rows t rid text
     + (if decide (rid = rollout_id /\ st = status row') then 1 else 0))%nat.
Proof.
  intros Hrow Hst. unfold count_rows.
  pose proof (size_filter_overwrite
    (fun kv : UUID * UUID * RolloutDeviceStatus =>
       fst (fst kv) = rid /\ status_is text (snd kv) = true)
    t (rollout_id, device_id) row row' Hrow) as Hsize.
  rewrite (decide_ext _ _ 1%nat 0%nat
             (status_is_row rid rollout_id device_id text st (status row) row
                Hst eq_refl)) in Hsize.
  rewrite (decide_ext _ _ 1%nat 0%nat
             (status_is_row rid rollout_id device_id text st (status row') row'
                Hst eq_refl)) in Hsize.
  exact Hsize.
Qed.

(** X10: the status counts of the rollouts follow the writes. A new row adds
    one to the PENDING count of its rollout; an update of a row takes one
    from the count of the status the row had and adds one to the count of
    the status it gets; every other count, of this and of any other rollout,
    stays. *)
Theorem status_counts_follow_writes
    (now : Timestamp) (db : Database) (rollout_id device_id rid : UUID)
    (text : string) (st : RolloutDeviceState) (c : Z) :
  rollout_device_state_of_text text = Some st ->
  CountRolloutDevicesByStatus db rid text = Ok c ->
  (forall canary : bool,
      is_Some (rollouts db !! rollout_id) ->
      is_Some (devices db !! device_id) ->
      rollout_device_status db !! (rollout_id, device_id) = None ->
      CountRolloutDevicesByStatus
        (fst (CreateRolloutDeviceStatus now db rollout_id device_id canary)) rid text
      = Ok (c + (if decide (rid = rollout_id /\ st = PENDING) then 1 else 0))%Z)
  /\ (forall (row : RolloutDeviceStatus) (new_status : string) (s : RolloutDeviceState)
             (result : option JSONB),
        rollout_device_status db !! (rollout_id, device_id) = Some row ->
        rollout_device_state_of_text new_status = Some s ->
        CountRolloutDevicesByStatus
          (fst (UpdateRolloutDeviceStatus now db rollout_id device_id new_status result))
          rid text
        = Ok (c - (if decide (rid = rollout_id /\ st = status row) then 1 else 0)
                + (if decide (rid = rollout_id /\ st = s) then 1 else 0))%Z).
Proof.
  intros Hst Hc.
  assert (Hf : fault db = None).
  { unfold CountRolloutDevicesByStatus in Hc. destruct (fault db); [discriminate|].
    reflexivity. }
  rewrite (CountRolloutDevicesByStatus_count db rid text Hf) in Hc.
  injection Hc as <-. split.
  - intros canary [r Hr] [d Hd] Hnone.
    unfold CreateRolloutDeviceStatus. rewrite Hf, Hnone, Hr, Hd. simpl.
    rewrite CountRolloutDevicesByStatus_count by exact Hf. simpl.
    rewrite (count_rows_insert_fresh _ _ _ _ _ text st Hnone Hst). simpl.
    f_equal. case_decide; lia.
  - intros row new_status s result Hrow Hs.
    unfold UpdateRolloutDeviceStatus. rewrite Hf, Hrow, Hs. simpl.
    rewrite CountRolloutDevicesByStatus_count by exact Hf. simpl.
    pose proof (count_rows_overwrite (rollout_device_status db) rollout_id device_id rid
                  row (set_status now s result row) text st Hrow Hst) as Hcount.
    simpl in Hcount. f_equal. repeat case_decide; lia.
Qed.

End CountFacts.

Section ListFacts.
Import Store Queries.

(** X11: ListRolloutDeviceStatuses returns the rows of the rollout and no
    other, each once, the canary rows before the others and within each of
    the two groups the rows updated longest ago first; GetCanaryDevices
    returns the canary rows among them, oldest update first. *)
Theorem ListRolloutDeviceStatuses_ordered (db : Database) (rollout_id : UUID)
    (rows : list (UUID * UUID * RolloutDeviceStatus)) :
  ListRolloutDeviceStatuses db rollout_id = Ok rows ->
  (forall (k : UUID * UUID) (row : RolloutDeviceStatus),
      (k, row) ∈ rows
      <-> rollout_device_status db !! k = Some row /\ fst k = rollout_id)
  /\ NoDup rows
  /\ StronglySorted by_canary_then_oldest rows
  /\ (forall (i j : nat) (a b : UUID * UUID * RolloutDeviceStatus),
        rows !! i = Some a -> rows !! j = Some b -> (i < j)%nat ->
        (is_canary (snd b) = true -> is_canary (snd a) = true)
        /\ (is_canary (snd a) = is_canary (snd b) ->
            (updated_at (snd a) <= updated_at (snd b))%Z))
  /\ (exists canaries : list (UUID * UUID * RolloutDeviceStatus),
        GetCanaryDevices db rollout_id = Ok canaries
        /\ canaries ≡ₚ filter (fun kv => is_canary (snd kv) = true) rows
        /\ StronglySorted by_oldest_first canaries).
Proof.
  unfold ListRolloutDeviceStatuses, GetCanaryDevices.
  destruct (fault db); [discriminate|]. intros Hrows. injection Hrows as <-.
  assert (Hsorted : StronglySorted by_canary_then_oldest
            (merge_sort by_canary_then_oldest
               (map_to_list (filter
                  (fun kv : UUID * UUID * RolloutDeviceStatus => fst (fst kv) = rollout_id)
                  (rollout_device_status db)))))
    by apply (StronglySorted_merge_sort _).
  split; [|split; [|split; [|split]]].
  - intros k row. rewrite merge_sort_Permutation, elem_of_map_to_list.
    rewrite map_lookup_filter_Some. reflexivity.
  - rewrite merge_sort_Permutation. apply NoDup_map_to_list.
  - exact Hsorted.
  - intros i j a b Hi Hj Hij.
    assert (Hab : by_canary_then_oldest a b).
    { revert Hsorted i j Hi Hj Hij.
      generalize (merge_sort by_canary_then_oldest
                    (map_to_list (filter
                       (fun kv : UUID * UUID * RolloutDeviceStatus =>
                          fst (fst kv) = rollout_id)
                       (rollout_device_status db)))).
      intros l Hl. induction Hl as [|x l _ IH Hx]; intros i j Hi Hj Hij.
      - rewrite lookup_nil in Hi. discriminate.
      - destruct j as [|j]; [lia|]. destruct i as [|i]; simpl in Hi, Hj.
        + injection Hi as <-. rewrite Forall_forall in Hx. apply Hx.
          apply list_elem_of_lookup. eauto.
        + apply (IH i j); [assumption.. | lia]. }
    unfold by_canary_then_oldest, canary_then_oldest in Hab.
    destruct (is_canary (snd a)), (is_canary (snd b)); simpl in Hab;
      rewrite ?Z.leb_le in Hab; split; intros; try discriminate; try reflexivity;
      assumption.
  - eexists. split; [reflexivity|]. split.
    + rewrite !merge_sort_Permutation.
      apply NoDup_Permutation.
      * apply NoDup_map_to_list.
      * apply NoDup_filter, NoDup_map_to_list.
      * intros [k row]. rewrite list_elem_of_filter, !elem_of_map_to_list.
        rewrite !map_lookup_filter_Some. simpl. tauto.
    + apply (StronglySorted_merge_sort _).
Qed.

Lemma rows_of_rollout_add_up (t : gmap (UUID * UUID) RolloutDeviceStatus) (rid : UUID) :
  size (filter (fun kv : UUID * UUID * RolloutDeviceStatus => fst (fst kv) = rid) t)
  = (count_rows t rid "PENDING" + count_rows t rid "IN_PROGRESS"
     + count_rows t rid "HEALTHY" + count_rows t rid "UNHEALTHY"
     + count_rows t rid "ROLLED_BACK")%nat.
Proof.
  induction t as [|[r d] row t Hfresh IH] using map_ind.
  - unfold count_rows. rewrite !map_filter_empty, map_size_empty. reflexivity.
  - rewrite size_filter_insert_fresh by assumption.
    rewrite (count_rows_insert_fresh t r d rid row "PENDING" PENDING Hfresh eq_refl).
    rewrite (count_rows_insert_fresh t r d rid row "IN_PROGRESS" IN_PROGRESS Hfresh eq_refl).
    rewrite (count_rows_insert_fresh t r d rid row "HEALTHY" HEALTHY Hfresh eq_refl).
    rewrite (count_rows_insert_fresh t r d rid row "UNHEALTHY" UNHEALTHY Hfresh eq_refl).
    rewrite (count_rows_insert_fresh t r d rid row "ROLLED_BACK" ROLLED_BACK Hfresh eq_refl).
    rewrite IH. simpl fst.
    destruct (status row); repeat case_decide;
      repeat match goal with
      | H : _ /\ _ |- _ => destruct H
      end; try discriminate; try lia;
      match goal with
      | H : ~ (_ /\ ?x = ?x) |- _ =>
          exfalso; apply H; split; [congruence | reflexivity]
      end.
Qed.

(** X12: the counts of the five statuses of a rollout add up to the number
    of rows ListRolloutDeviceStatuses returns for it, and a status text the
    column does not allow counts no row. *)
Theorem status_counts_add_up (db : Database) (rollout_id : UUID)
    (rows : list (UUID * UUID * RolloutDeviceStatus)) :
  ListRolloutDeviceStatuses db rollout_id = Ok rows ->
  (exists p i h u r : Z,
      CountRolloutDevicesByStatus db rollout_id "PENDING" = Ok p
      /\ CountRolloutDevicesByStatus db rollout_id "IN_PROGRESS" = Ok i
      /\ CountRolloutDevicesByStatus db rollout_id "HEALTHY" = Ok h
      /\ CountRolloutDevicesByStatus db rollout_id "UNHEALTHY" = Ok u
      /\ CountRolloutDevicesByStatus db rollout_id "ROLLED_BACK" = Ok r
      /\ (p + i + h + u + r)%Z = Z.of_nat (List.length rows))
  /\ (forall text : string,
        rollout_device_state_of_text text = None ->
        CountRolloutDevicesByStatus db rollout_id text = Ok 0%Z).
Proof.
  unfold ListRolloutDeviceStatuses.
  destruct (fault db) eqn:Hf; [discriminate|]. intros Hrows. injection Hrows as <-.
  split.
  - do 5 eexists.
    rewrite !CountRolloutDevicesByStatus_count by exact Hf.
    repeat (split; [reflexivity|]).
    rewrite merge_sort_Permutation, length_map_to_list, rows_of_rollout_add_up. lia.
  - intros text Htext. rewrite CountRolloutDevicesByStatus_count by exact Hf.
    assert (Hzero : count_rows (rollout_device_status db) rollout_id text = 0%nat).
    { unfold count_rows. apply map_size_empty_iff, map_empty_filter.
      intros k v _ [_ H]. unfold status_is in H. rewrite Htext in H. discriminate. }
    rewrite Hzero. reflexivity.
Qed.

End ListFacts.

(** ** Liveness of devices *)

Section StaleFacts.
Import Store Queries.
Local Open Scope Z_scope.

(** X13: GetStaleDevices lists a device exactly when it is ACTIVE and was
    last seen more than five minutes before the query, the device seen
    longest ago first; a device that was never seen (a NULL last_seen_at) is
    not listed at any time, and a device whose heartbeat UpdateDeviceHeartbeat
    recorded is not listed by any query made within five minutes of it. *)
Theorem GetStaleDevices_lists (now : Timestamp) (db : Database)
    (stale : list (UUID * Device)) :
  GetStaleDevices now db = Ok stale ->
  (forall (id : UUID) (d : Device),
      (id, d) ∈ stale
      <-> devices db !! id = Some d /\ device_status d = ACTIVE
          /\ exists t : Timestamp, last_seen_at d = Some t /\ t < now - five_minutes)
  /\ StronglySorted by_seen_before stale
  /\ (forall (id : UUID) (d : Device),
        devices db !! id = Some d -> last_seen_at d = None -> (id, d) ∉ stale)
  /\ (forall (id : UUID) (d : Device) (seen later : Timestamp)
             (after : list (UUID * Device)),
        devices db !! id = Some d ->
        later <= seen + five_minutes ->
        GetStaleDevices later (fst (UpdateDeviceHeartbeat seen db id)) = Ok after ->
        forall d' : Device, (id, d') ∉ after).
Proof.
  unfold GetStaleDevices.
  destruct (fault db) eqn:Hf; [discriminate|]. intros Hstale. injection Hstale as <-.
  assert (Hmem : forall (later : Timestamp) (t : gmap UUID Device) (id : UUID) (d : Device),
             (id, d) ∈ merge_sort by_seen_before
                         (map_to_list (filter
                            (fun kv : UUID * Device => stale_at later (snd kv) = true) t))
             <-> t !! id = Some d /\ device_status d = ACTIVE
                 /\ exists s : Timestamp, last_seen_at d = Some s /\ s < later - five_minutes).
  { intros later t id d. rewrite merge_sort_Permutation, elem_of_map_to_list.
    rewrite map_lookup_filter_Some. unfold stale_at. simpl.
    rewrite andb_true_iff, bool_decide_eq_true.
    destruct (last_seen_at d) as [s|].
    - rewrite Z.ltb_lt. split.
      + intros (? & ? & ?). eauto.
      + intros (? & ? & s' & Hs & ?). injection Hs as <-. auto.
    - split.
      + intros (_ & _ & Hfalse). discriminate.
      + intros (_ & _ & s' & Hs & _). discriminate. }
  split; [apply Hmem|]. split; [apply (StronglySorted_merge_sort _)|]. split.
  - intros id d Hd Hnull Hin. apply Hmem in Hin as (_ & _ & t & Ht & _). congruence.
  - intros id d seen later after Hd Hlater.
    unfold UpdateDeviceHeartbeat. rewrite Hf, Hd. simpl. rewrite Hf.
    intros Hafter. injection Hafter as <-. intros d' Hin.
    apply Hmem in Hin as (Hd' & _ & t & Ht & Hlt).
    rewrite lookup_insert_eq in Hd'. injection Hd' as <-. simpl in Ht.
    injection Ht as <-. lia.
Qed.

End StaleFacts.

(** ** What the stream loop changes *)

Section StreamFacts.
Import Store Registry Views.

Variable uuid_Parse : string -> Result string UUID.

Lemma kept_refl (stream : Stream) (s : DeviceService) : kept_by_stream stream s s.
Proof.
  unfold kept_by_stream. split_and!; auto.
  exists []. rewrite app_nil_r. split; reflexivity.
Qed.

Lemma kept_trans (stream : Stream) (s1 s2 s3 : DeviceService) :
  kept_by_stream stream s1 s2 -> kept_by_stream stream s2 s3 ->
  kept_by_stream stream s1 s3.
Proof.
  intros (A1 & A2 & A3 & A4 & A5 & A6 & A7 & A8 & acks1 & A9 & A10)
         (B1 & B2 & B3 & B4 & B5 & B6 & B7 & B8 & acks2 & B9 & B10).
  unfold kept_by_stream. split_and!.
  1-4, 6: congruence.
  - intros id. rewrite B5. apply A5.
  - intros deviceID h Hh. destruct (B7 deviceID h Hh) as [->|Hh2]; [left; reflexivity|].
    apply A7. assumption.
  - intros other Hne. rewrite B8 by assumption. apply A8. assumption.
  - exists (acks1 ++ acks2)%list. rewrite B9, A9, <- app_assoc.
    split; [reflexivity|]. rewrite forallb_app, A10, B10. reflexivity.
Qed.

Lemma kept_log (stream : Stream) (s : DeviceService) (l : Level) (msg : string)
    (fs : list Field) :
  kept_by_stream stream s (log s l msg fs).
Proof.
  unfold kept_by_stream, log, sent_on. simpl. split_and!; auto.
  exists []. rewrite app_nil_r. split; reflexivity.
Qed.

Lemma kept_addStream (stream : Stream) (s : DeviceService) (deviceID : string) :
  kept_by_stream stream s (addStream s deviceID stream).
Proof.
  unfold kept_by_stream, addStream, sent_on. simpl. split_and!; auto.
  - intros id h Hh. destruct (decide (deviceID = id)) as [->|Hne].
    + rewrite lookup_insert_eq in Hh. injection Hh as <-. left. reflexivity.
    + rewrite lookup_insert_ne in Hh by assumption. right. assumption.
  - exists []. rewrite app_nil_r. split; reflexivity.
Qed.

Lemma kept_removeStream (stream : Stream) (s : DeviceService) (deviceID : string) :
  kept_by_stream stream s (removeStream s deviceID).
Proof.
  unfold kept_by_stream, removeStream, sent_on. simpl. split_and!; auto.
  - intros id h Hh. apply lookup_delete_Some in Hh as [_ Hh]. right. assumption.
  - exists []. rewrite app_nil_r. split; reflexivity.
Qed.

Lemma kept_Send_ack (stream : Stream) (s : DeviceService) (ts : Z) :
  kept_by_stream stream s
    (fst (stream_Send s stream (ControlMessage_HeartbeatAck ts))).
Proof.
  unfold stream_Send. destruct (send_error s !! stream) eqn:Herr; simpl.
  - apply kept_refl.
  - unfold kept_by_stream, sent_on. simpl. split_and!; auto.
    + intros other Hne. rewrite lookup_insert_ne by congruence. reflexivity.
    + exists [ControlMessage_HeartbeatAck ts]. rewrite lookup_insert_eq.
      split; reflexivity.
Qed.

Lemma kept_heartbeat_write (stream : Stream) (s : DeviceService) (now : Timestamp)
    (id : UUID) :
  kept_by_stream stream s (set_queries s (fst (UpdateDeviceHeartbeat now (queries s) id))).
Proof.
  unfold UpdateDeviceHeartbeat.
  destruct (fault (queries s)) eqn:Hf; simpl.
  { destruct s; apply kept_refl. }
  destruct (devices (queries s) !! id) as [d|] eqn:Hd; simpl.
  { unfold kept_by_stream, sent_on. simpl. split_and!; auto.
    - intros id'. destruct (decide (id = id')) as [->|Hne].
      + rewrite lookup_insert_eq, Hd. reflexivity.
      + rewrite lookup_insert_ne by assumption. reflexivity.
    - exists []. rewrite app_nil_r. split; reflexivity. }
  destruct s; apply kept_refl.
Qed.

Lemma kept_handleHeartbeat (stream : Stream) (s : DeviceService) (now : Timestamp)
    (hb : HeartbeatRequest) :
  kept_by_stream stream s (fst (handleHeartbeat uuid_Parse s now stream hb)).
Proof.
  unfold handleHeartbeat.
  destruct (uuid_Parse (hb_DeviceId hb)) as [id|e]; [|apply kept_refl].
  pose proof (kept_heartbeat_write stream s now id) as Hwrite.
  destruct (UpdateDeviceHeartbeat now (queries s) id) as [db res]. simpl in Hwrite.
  eapply kept_trans; [|apply kept_Send_ack].
  eapply kept_trans; [|apply kept_log].
  destruct res; [exact Hwrite|].
  eapply kept_trans; [exact Hwrite | apply kept_log].
Qed.

Lemma kept_dispatch (stream : Stream) (s : DeviceService) (now : Timestamp)
    (deviceID : string) (msg : DeviceMessage) :
  kept_by_stream stream s (fst (dispatch uuid_Parse s now stream deviceID msg)).
Proof.
  destruct msg as [hb | health | ack |]; simpl.
  - pose proof (kept_handleHeartbeat stream s now hb) as Hhb.
    destruct (handleHeartbeat uuid_Parse s now stream hb) as [s1 [err|]]; simpl in *.
    + eapply kept_trans; [exact Hhb | apply kept_log].
    + eapply kept_trans; [exact Hhb | apply kept_addStream].
  - apply kept_log.
  - apply kept_log.
  - apply kept_log.
Qed.

(** X14: whatever a DeviceStream call receives, it leaves the rollouts,
    their device rows and the artifacts as they are (health reports and
    update acknowledgements write nothing), changes of a device row its
    last_seen_at at most, never creates or deletes a device, adds to the
    stream map no entry for a stream other than its own, and sends nothing
    but heartbeat acknowledgements, on its own stream only. *)
Theorem DeviceStream_keeps (s : DeviceService) (stream : Stream) (turns : list Turn) :
  kept_by_stream stream s (service_of (DeviceStream uuid_Parse s stream turns)).
Proof.
  unfold DeviceStream. generalize "" as deviceID. revert s.
  induction turns as [|turn rest IH]; intros s deviceID; simpl.
  - apply kept_refl.
  - destruct turn as [ctx_err | now [msg | err]].
    + simpl. eapply kept_trans; [apply kept_log | apply kept_removeStream].
    + pose proof (kept_dispatch stream s now deviceID msg) as Hd.
      destruct (dispatch uuid_Parse s now stream deviceID msg) as [s1 [deviceID1 | err]];
        simpl in Hd.
      * eapply kept_trans; [exact Hd | apply IH].
      * exact Hd.
    + destruct err; simpl;
        (eapply kept_trans; [apply kept_log | apply kept_removeStream]).
Qed.

Lemma last_nonempty {A : Type} (a d d' : A) (l : list A) :
  List.last (a :: l) d = List.last (a :: l) d'.
Proof.
  revert a. induction l as [|b l IH]; intros a; [reflexivity|].
  change (List.last (a :: b :: l) d) with (List.last (b :: l) d).
  change (List.last (a :: b :: l) d') with (List.last (b :: l) d').
  apply IH.
Qed.

Lemma last_cons {A : Type} (a d : A) (l : list A) :
  List.last (a :: l) d = List.last l a.
Proof.
  destruct l as [|b l]; [reflexivity|].
  change (List.last (a :: b :: l) d) with (List.last (b :: l) d).
  apply last_nonempty.
Qed.

(** A message that does not end the loop: the stream map gains at most the
    entry of an accepted heartbeat, which then holds [stream] on a live
    transport. *)
Lemma dispatch_continues (s s1 : DeviceService) (now : Timestamp) (stream : Stream)
    (deviceID deviceID1 : string) (msg : DeviceMessage) :
  dispatch uuid_Parse s now stream deviceID msg = (s1, Ok deviceID1) ->
  send_error s1 = send_error s
  /\ match msg with
     | DeviceMessage_Heartbeat hb =>
         deviceID1 = hb_DeviceId hb
         /\ streams s1 = <[hb_DeviceId hb := stream]> (streams s)
         /\ send_error s !! stream = None
     | _ => deviceID1 = deviceID /\ streams s1 = streams s
     end.
Proof.
  destruct msg as [hb | health | ack |]; simpl.
  - destruct (handleHeartbeat uuid_Parse s now stream hb) as [s0 ret] eqn:Hhb.
    destruct ret as [err|]; [discriminate|]. intros Heq. injection Heq as <- <-.
    unfold handleHeartbeat in Hhb.
    destruct (uuid_Parse (hb_DeviceId hb)) as [id|e]; [|discriminate].
    destruct (UpdateDeviceHeartbeat now (queries s) id) as [db res].
    unfold stream_Send in Hhb.
    match type of Hhb with
    | context [send_error ?x !! stream] =>
        assert (Herr : send_error x = send_error s) by (destruct res; reflexivity);
        assert (Hstr : streams x = streams s) by (destruct res; reflexivity);
        destruct (send_error x !! stream) eqn:Hlive; [discriminate|]
    end.
    injection Hhb as <-. simpl. rewrite Herr in Hlive.
    split; [destruct res; reflexivity|]. split; [reflexivity|].
    split; [destruct res; reflexivity | exact Hlive].
  - intros Heq. injection Heq as <- <-. auto.
  - intros Heq. injection Heq as <- <-. auto.
  - intros Heq. injection Heq as <- <-. auto.
Qed.

Lemma DeviceStream_loop_running (stream : Stream) (turns : list Turn) :
  forall (s s' : DeviceService) (deviceID deviceID' : string),
    DeviceStream_loop uuid_Parse s stream deviceID turns = Running s' deviceID' ->
    deviceID' = List.last (heartbeat_ids turns) deviceID
    /\ send_error s' = send_error s
    /\ (forall id : string,
          streams s !! id = Some stream -> streams s' !! id = Some stream)
    /\ (forall id : string,
          In id (heartbeat_ids turns) ->
          streams s' !! id = Some stream /\ send_error s !! stream = None).
Proof.
  induction turns as [|turn rest IH]; intros s s' deviceID deviceID' Hrun; simpl in Hrun.
  - injection Hrun as <- <-. simpl. split_and!; auto. intros id [].
  - destruct turn as [ctx_err | now [msg | err]]; try discriminate Hrun.
    2:{ destruct err; discriminate Hrun. }
    destruct (dispatch uuid_Parse s now stream deviceID msg) as [s1 [deviceID1 | err]]
      eqn:Hd; [|discriminate Hrun].
    destruct (dispatch_continues _ _ _ _ _ _ _ Hd) as [Herr Hmsg].
    destruct (IH s1 s' deviceID1 deviceID' Hrun) as (Hlast & Herr' & Hkeep & Hids).
    destruct msg as [hb | health | ack |].
    + destruct Hmsg as (-> & Hstreams & Hlive).
      change (heartbeat_ids (Recv now (Ok (DeviceMessage_Heartbeat hb)) :: rest))
        with (hb_DeviceId hb :: heartbeat_ids rest).
      rewrite last_cons. split_and!; [assumption | congruence | |].
      * intros id Hid. apply Hkeep. rewrite Hstreams.
        destruct (decide (hb_DeviceId hb = id)) as [->|Hne].
        -- apply lookup_insert_eq.
        -- rewrite lookup_insert_ne; assumption.
      * intros id [<-|Hin].
        -- split; [|exact Hlive]. apply Hkeep. rewrite Hstreams. apply lookup_insert_eq.
        -- destruct (Hids id Hin) as [Hentry _]. split; assumption.
    + destruct Hmsg as [-> Hstreams]. simpl heartbeat_ids.
      split_and!; [assumption | congruence | |].
      * intros id Hid. apply Hkeep. rewrite Hstreams. assumption.
      * intros id Hin. destruct (Hids id Hin) as [Hentry Hlive].
        split; [assumption | congruence].
    + destruct Hmsg as [-> Hstreams]. simpl heartbeat_ids.
      split_and!; [assumption | congruence | |].
      * intros id Hid. apply Hkeep. rewrite Hstreams. assumption.
      * intros id Hin. destruct (Hids id Hin) as [Hentry Hlive].
        split; [assumption | congruence].
    + destruct Hmsg as [-> Hstreams]. simpl heartbeat_ids.
      split_and!; [assumption | congruence | |].
      * intros id Hid. apply Hkeep. rewrite Hstreams. assumption.
      * intros id Hin. destruct (Hids id Hin) as [Hentry Hlive].
        split; [assumption | congruence].
Qed.

(** X15: a DeviceStream call taken on its own, with no other call of the
    service running between its turns: in the state it has reached when it
    has taken a sequence of messages and not returned, every device whose
    heartbeat was among them is registered with this stream, and a command
    sent to any of them in that state goes out on it and returns nil; the
    device id the call will unregister when it returns is the one of the
    last heartbeat. *)
Theorem DeviceStream_registers_heartbeats
    (s s' : DeviceService) (stream : Stream) (turns : list Turn) (deviceID : string) :
  DeviceStream uuid_Parse s stream turns = Running s' deviceID ->
  deviceID = List.last (heartbeat_ids turns) ""
  /\ (forall id : string,
        In id (heartbeat_ids turns) ->
        streams s' !! id = Some stream
        /\ (forall update : UpdateNotification,
              snd (SendUpdateNotification s' id update) = None
              /\ sent_on (fst (SendUpdateNotification s' id update)) stream
                 = (sent_on s' stream ++ [ControlMessage_Update update])%list)
        /\ (forall rollback : RollbackRequest,
              snd (SendRollbackRequest s' id rollback) = None
              /\ sent_on (fst (SendRollbackRequest s' id rollback)) stream
                 = (sent_on s' stream ++ [ControlMessage_Rollback rollback])%list)).
Proof.
  unfold DeviceStream. intros Hrun.
  destruct (DeviceStream_loop_running stream turns s s' "" deviceID Hrun)
    as (Hlast & Herr & _ & Hids).
  split; [exact Hlast|]. intros id Hin.
  destruct (Hids id Hin) as [Hentry Hlive]. rewrite <- Herr in Hlive.
  split; [exact Hentry|].
  unfold SendUpdateNotification, SendRollbackRequest. rewrite Hentry.
  split; intros msg.
  - destruct (stream_Send_ok s' stream (ControlMessage_Update msg) Hlive)
      as (Hnil & Hsent & _). auto.
  - destruct (stream_Send_ok s' stream (ControlMessage_Rollback msg) Hlive)
      as (Hnil & Hsent & _). auto.
Qed.

End StreamFacts.

(** ** REST handlers of the devices *)

Section DeviceRestFacts.
Import Store Registry Queries.

Variable uuid_Parse : string -> Result string UUID.
Variable json_Device : UUID -> Device -> string.

Lemma UpdateDeviceStatus_ok (db : Database) (id : UUID) (text : string)
    (st : DeviceState) (d : Device) :
  fault db = None ->
  devices db !! id = Some d ->
  device_state_of_text text = Some st ->
  UpdateDeviceStatus db id text
  = (set_devices db (<[id := set_device_status st d]> (devices db)),
     Ok (set_device_status st d)).
Proof.
  intros Hf Hd Hst. unfold UpdateDeviceStatus. rewrite Hf, Hd, Hst. reflexivity.
Qed.

(** X16: SuspendDevice writes SUSPENDED into the status of the device and
    answers 200 with the row; ReactivateDevice after it writes ACTIVE.
    No other column of the row and no other device changes, and for a
    device that was ACTIVE the database after the two calls is the database
    before them. *)
Theorem suspend_then_reactivate (queries : Database) (r : Rest.Request)
    (id : UUID) (d : Device) :
  uuid_Parse (Rest.url_id r) = Ok id ->
  fault queries = None ->
  devices queries !! id = Some d ->
  let suspended := DeviceRest.SuspendDevice uuid_Parse json_Device queries r in
  let reactivated :=
    DeviceRest.ReactivateDevice uuid_Parse json_Device (DeviceRest.served_db suspended) r in
  let row (status : DeviceState) :=
    mkDevice (device_organization_id d) (public_key d) (wireguard_public_key d)
      (wireguard_ip d) (agent_version d) (platform d) (site_tag d)
      status (last_seen_at d) (device_created_at d) in
  DeviceRest.served_response suspended
    = DeviceRest.json_response 200 (json_Device id (row SUSPENDED))
  /\ devices (DeviceRest.served_db suspended) !! id = Some (row SUSPENDED)
  /\ device_status <$> devices (DeviceRest.served_db suspended) !! id = Some SUSPENDED
  /\ DeviceRest.served_response reactivated
     = DeviceRest.json_response 200 (json_Device id (row ACTIVE))
  /\ devices (DeviceRest.served_db reactivated) !! id = Some (row ACTIVE)
  /\ device_status <$> devices (DeviceRest.served_db reactivated) !! id = Some ACTIVE
  /\ (forall other : UUID,
        other <> id ->
        devices (DeviceRest.served_db suspended) !! other = devices queries !! other
        /\ devices (DeviceRest.served_db reactivated) !! other
           = devices queries !! other)
  /\ (device_status d = ACTIVE -> DeviceRest.served_db reactivated = queries).
Proof.
  intros Hparse Hf Hd suspended reactivated row. subst suspended reactivated.
  unfold DeviceRest.SuspendDevice, DeviceRest.ReactivateDevice.
  rewrite Hparse.
  rewrite (UpdateDeviceStatus_ok queries id "SUSPENDED" SUSPENDED d Hf Hd eq_refl).
  cbn [DeviceRest.served_db DeviceRest.served_response].
  rewrite (UpdateDeviceStatus_ok _ id "ACTIVE" ACTIVE (set_device_status SUSPENDED d));
    [|exact Hf | apply lookup_insert_eq | reflexivity].
  cbn [DeviceRest.served_db DeviceRest.served_response devices set_devices].
  rewrite insert_insert_eq.
  assert (Hs : devices (set_devices queries
                          (<[id := set_device_status SUSPENDED d]> (devices queries)))
               !! id = Some (row SUSPENDED)) by apply lookup_insert_eq.
  assert (Ha : <[id := set_device_status ACTIVE (set_device_status SUSPENDED d)]>
                 (devices queries) !! id = Some (row ACTIVE)) by apply lookup_insert_eq.
  split_and!; try reflexivity.
  - exact Hs.
  - exact (f_equal (fmap device_status) Hs).
  - exact Ha.
  - exact (f_equal (fmap device_status) Ha).
  - intros other Hne. split; apply lookup_insert_ne; congruence.
  - intros Hactive.
    assert (Hrow : set_device_status ACTIVE (set_device_status SUSPENDED d) = d).
    { destruct d. simpl in *. subst. reflexivity. }
    rewrite Hrow, (insert_id (devices queries) id d Hd). destruct queries. reflexivity.
Qed.

(** X17: the device handlers on a request they cannot serve. An id that
    uuid.Parse refuses gets 400 "invalid device ID" from all three, with no
    write and nothing logged; an id of no device gets 404 "not found" from
    GetDevice and 500 "internal error" from SuspendDevice and
    ReactivateDevice; in each case the database is left as it was. *)
Theorem device_handlers_refuse (queries : Database) (r : Rest.Request) :
  (forall err : string,
      uuid_Parse (Rest.url_id r) = Err err ->
      let refused :=
        DeviceRest.mkServed queries [] (Rest.http_Error "invalid device ID" 400) in
      DeviceRest.GetDevice uuid_Parse json_Device queries r = refused
      /\ DeviceRest.SuspendDevice uuid_Parse json_Device queries r = refused
      /\ DeviceRest.ReactivateDevice uuid_Parse json_Device queries r = refused)
  /\ (forall id : UUID,
        uuid_Parse (Rest.url_id r) = Ok id ->
        fault queries = None ->
        devices queries !! id = None ->
        DeviceRest.served_response (DeviceRest.GetDevice uuid_Parse json_Device queries r)
          = Rest.http_Error "not found" 404
        /\ DeviceRest.served_response
             (DeviceRest.SuspendDevice uuid_Parse json_Device queries r)
           = Rest.http_Error "internal error" 500
        /\ DeviceRest.served_response
             (DeviceRest.ReactivateDevice uuid_Parse json_Device queries r)
           = Rest.http_Error "internal error" 500
        /\ DeviceRest.served_db (DeviceRest.SuspendDevice uuid_Parse json_Device queries r)
           = queries
        /\ DeviceRest.served_db
             (DeviceRest.ReactivateDevice uuid_Parse json_Device queries r)
           = queries
        /\ DeviceRest.served_db (DeviceRest.GetDevice uuid_Parse json_Device queries r)
           = queries).
Proof.
  unfold DeviceRest.GetDevice, DeviceRest.SuspendDevice, DeviceRest.ReactivateDevice.
  split.
  - intros err Hparse. rewrite Hparse. split_and!; reflexivity.
  - intros id Hparse Hf Hnone. rewrite Hparse.
    unfold Queries.GetDevice, UpdateDeviceStatus. rewrite Hf, Hnone.
    split_and!; reflexivity.
Qed.

Lemma stream_Send_send_error (s : DeviceService) (stream : Stream) (msg : ControlMessage) :
  send_error (fst (stream_Send s stream msg)) = send_error s.
Proof. unfold stream_Send. destruct (send_error s !! stream); reflexivity. Qed.

(** X18: the gRPC service does not look at the status of a device: the
    heartbeat of a device that SuspendDevice has just suspended is written
    into last_seen_at and acknowledged like any other, its stream is
    registered, and commands sent to it are delivered; the status of the
    device is SUSPENDED before and after. *)
Theorem suspended_device_still_served
    (queries : Database) (r : Rest.Request) (id : UUID) (d : Device)
    (s : DeviceService) (stream : Stream) (now : Timestamp) (hb : HeartbeatRequest) :
  uuid_Parse (Rest.url_id r) = Ok id ->
  uuid_Parse (hb_DeviceId hb) = Ok id ->
  fault queries = None ->
  devices queries !! id = Some d ->
  Registry.queries s
    = DeviceRest.served_db (DeviceRest.SuspendDevice uuid_Parse json_Device queries r) ->
  send_error s !! stream = None ->
  device_status <$> devices (Registry.queries s) !! id = Some SUSPENDED
  /\ exists s' : DeviceService,
    DeviceStream uuid_Parse s stream [Recv now (Ok (DeviceMessage_Heartbeat hb))]
      = Running s' (hb_DeviceId hb)
    /\ devices (Registry.queries s') !! id
       = Some (mkDevice (device_organization_id d) (public_key d)
                 (wireguard_public_key d) (wireguard_ip d) (agent_version d)
                 (platform d) (site_tag d) SUSPENDED (Some now) (device_created_at d))
    /\ device_status <$> devices (Registry.queries s') !! id = Some SUSPENDED
    /\ last_seen_at <$> devices (Registry.queries s') !! id = Some (Some now)
    /\ streams s' !! hb_DeviceId hb = Some stream
    /\ sent_on s' stream
       = (sent_on s stream ++ [ControlMessage_HeartbeatAck (hb_Timestamp hb)])%list
    /\ (forall update : UpdateNotification,
          snd (SendUpdateNotification s' (hb_DeviceId hb) update) = None
          /\ sent_on (fst (SendUpdateNotification s' (hb_DeviceId hb) update)) stream
             = (sent_on s' stream ++ [ControlMessage_Update update])%list).
Proof.
  intros Hurl Hparse Hf Hd Hq Hlive.
  unfold DeviceRest.SuspendDevice in Hq. rewrite Hurl in Hq.
  rewrite (UpdateDeviceStatus_ok queries id "SUSPENDED" SUSPENDED d Hf Hd eq_refl) in Hq.
  cbn [DeviceRest.served_db] in Hq.
  assert (Hrow : devices (Registry.queries s) !! id = Some (set_device_status SUSPENDED d)).
  { rewrite Hq. simpl. apply lookup_insert_eq. }
  assert (Hfault : fault (Registry.queries s) = None) by (rewrite Hq; exact Hf).
  split; [rewrite Hrow; reflexivity|].
  destruct (handleHeartbeat_unfold uuid_Parse s now stream hb id Hparse)
    as (s1 & Hrun & Hq1 & Hstreams & Hsent & Herr & _).
  rewrite <- Herr in Hlive.
  destruct (stream_Send_ok s1 stream (ControlMessage_HeartbeatAck (hb_Timestamp hb)) Hlive)
    as (Hnil & Hout & Hstr2 & Hq2 & _).
  pose proof (stream_Send_send_error s1 stream
                (ControlMessage_HeartbeatAck (hb_Timestamp hb))) as Herr2.
  unfold DeviceStream. simpl. rewrite Hrun.
  destruct (stream_Send s1 stream (ControlMessage_HeartbeatAck (hb_Timestamp hb)))
    as [s2 ret]. simpl in *. subst ret.
  eexists. split; [reflexivity|].
  assert (Hseen : devices (Registry.queries (addStream s2 (hb_DeviceId hb) stream)) !! id
                  = Some (set_last_seen_at now (set_device_status SUSPENDED d))).
  { simpl. rewrite Hq2, Hq1.
    apply (UpdateDeviceHeartbeat_ok now _ id _ Hfault Hrow). }
  split_and!.
  - exact Hseen.
  - exact (f_equal (fmap device_status) Hseen).
  - exact (f_equal (fmap last_seen_at) Hseen).
  - simpl. apply lookup_insert_eq.
  - unfold sent_on in *. simpl. rewrite Hout, Hsent. reflexivity.
  - intros update.
    assert (Hlive2 : send_error (addStream s2 (hb_DeviceId hb) stream) !! stream = None)
      by (simpl; rewrite Herr2; exact Hlive).
    destruct (stream_Send_ok (addStream s2 (hb_DeviceId hb) stream) stream
                (ControlMessage_Update update) Hlive2) as (Hnil2 & Hout2 & _).
    unfold SendUpdateNotification.
    assert (Hreg : streams (addStream s2 (hb_DeviceId hb) stream) !! hb_DeviceId hb
                   = Some stream) by (simpl; apply lookup_insert_eq).
    rewrite Hreg. split; [exact Hnil2 | exact Hout2].
Qed.

End DeviceRestFacts.

(** ** Enrollment *)

Section EnrollmentFacts.
Import Store Registry Enrollment.
Local Open Scope Z_scope.

Variable json_decode_request : string -> Result string EnrollDeviceRequest.
Variable json_response_doc : EnrollDeviceResponse -> string.
Variable sha256_Sum256 : list byte -> list byte.
Variable uuid_String : UUID -> string.
Variable inet_of_IP : list Z -> string.

Lemma GetEnrollmentTokenByHash_sound (now : Timestamp) (t : Tables) (hash : string)
    (id : UUID) (tok : EnrollmentToken) :
  GetEnrollmentTokenByHash now t hash = Ok (id, tok) ->
  fault (base t) = None
  /\ enrollment_tokens t !! id = Some tok
  /\ token_usable now hash tok = true.
Proof.
  unfold GetEnrollmentTokenByHash.
  destruct (fault (base t)); [discriminate|].
  destruct (map_to_list _) as [|row rows] eqn:Hlist; [discriminate|].
  intros Heq. injection Heq as ->.
  assert (Hin : (id, tok) ∈ (id, tok) :: rows) by apply list_elem_of_here.
  rewrite <- Hlist in Hin. apply elem_of_map_to_list in Hin.
  apply map_lookup_filter_Some in Hin as [Hlook Huse]. auto.
Qed.

Lemma GetEnrollmentTokenByHash_none (now : Timestamp) (t : Tables) (hash : string) :
  (forall (id : UUID) (tok : EnrollmentToken),
      enrollment_tokens t !! id = Some tok -> token_usable now hash tok = false) ->
  exists e : SqlError, GetEnrollmentTokenByHash now t hash = Err e.
Proof.
  intros Hnone. unfold GetEnrollmentTokenByHash.
  destruct (fault (base t)); [eexists; reflexivity|].
  destruct (map_to_list _) as [|[id tok] rows] eqn:Hlist; [eexists; reflexivity|].
  assert (Hin : (id, tok) ∈ (id, tok) :: rows) by apply list_elem_of_here.
  rewrite <- Hlist in Hin. apply elem_of_map_to_list in Hin.
  apply map_lookup_filter_Some in Hin as [Hlook Huse]. simpl in Huse.
  rewrite (Hnone id tok Hlook) in Huse. discriminate.
Qed.

Lemma GetEnrollmentTokenByHash_found (now : Timestamp) (t : Tables) (hash : string)
    (id : UUID) (tok : EnrollmentToken) :
  fault (base t) = None ->
  enrollment_tokens t !! id = Some tok ->
  token_usable now hash tok = true ->
  (forall (id' : UUID) (tok' : EnrollmentToken),
      enrollment_tokens t !! id' = Some tok' -> token_hash tok' = hash -> id' = id) ->
  GetEnrollmentTokenByHash now t hash = Ok (id, tok).
Proof.
  intros Hf Htok Huse Huniq. unfold GetEnrollmentTokenByHash. rewrite Hf.
  assert (Hsingle : filter
            (fun kv : UUID * EnrollmentToken => token_usable now hash (snd kv) = true)
            (enrollment_tokens t) = {[ id := tok ]}).
  { apply map_eq. intros id'. apply option_eq. intros tok'.
    rewrite map_lookup_filter_Some, lookup_singleton_Some. simpl. split.
    - intros [Hlook Huse'].
      assert (Hid : id' = id).
      { apply (Huniq id' tok' Hlook). unfold token_usable in Huse'.
        apply andb_true_iff in Huse' as [Huse' _].
        apply andb_true_iff in Huse' as [Huse' _].
        apply String.eqb_eq. exact Huse'. }
      subst id'. split; [reflexivity | congruence].
    - intros [<- <-]. auto. }
  rewrite Hsingle, map_to_list_singleton. reflexivity.
Qed.

Lemma IncrementTokenUsage_cases (t : Tables) (id : UUID) :
  (fst (IncrementTokenUsage t id) = t
   /\ exists e : SqlError, snd (IncrementTokenUsage t id) = Err e)
  \/ (exists tok : EnrollmentToken,
        enrollment_tokens t !! id = Some tok
        /\ used_count tok + 1 <= max_int32
        /\ IncrementTokenUsage t id
           = (set_enrollment_tokens t
                (<[id := set_used_count (used_count tok + 1) tok]> (enrollment_tokens t)),
              Ok (set_used_count (used_count tok + 1) tok))).
Proof.
  unfold IncrementTokenUsage.
  destruct (fault (base t)); [left; split; [|eexists]; reflexivity|].
  destruct (enrollment_tokens t !! id) as [tok|]; [|left; split; [|eexists]; reflexivity].
  destruct (decide (used_count tok + 1 > max_int32));
    [left; split; [|eexists]; reflexivity|].
  right. exists tok. split; [reflexivity|]. split; [lia | reflexivity].
Qed.

Lemma CreateDevice_frame (now : Timestamp) (new_id : UUID) (t : Tables)
    (organization_id : UUID) (pk wg_pk wg_ip version plat : string)
    (tag : option string) :
  let out := CreateDevice now new_id t organization_id pk wg_pk wg_ip version plat tag in
  enrollment_tokens (fst out) = enrollment_tokens t
  /\ organizations (fst out) = organizations t
  /\ (forall e : SqlError, snd out = Err e -> fst out = t).
Proof.
  unfold CreateDevice.
  destruct (fault (base t)); [repeat split|].
  repeat (case_decide; [repeat split|]). simpl. repeat split. discriminate.
Qed.

Lemma token_usable_intro (now : Timestamp) (hash : string) (tok : EnrollmentToken) :
  token_hash tok = hash -> now < expires_at tok -> used_count tok < max_uses tok ->
  token_usable now hash tok = true.
Proof.
  intros Hh Hexp Hleft. unfold token_usable.
  apply andb_true_iff. split; [apply andb_true_iff; split|].
  - apply String.eqb_eq. exact Hh.
  - apply Z.ltb_lt. exact Hexp.
  - apply Z.ltb_lt. exact Hleft.
Qed.

Lemma token_usable_elim (now : Timestamp) (hash : string) (tok : EnrollmentToken) :
  token_usable now hash tok = true ->
  token_hash tok = hash /\ now < expires_at tok /\ used_count tok < max_uses tok.
Proof.
  unfold token_usable. intros Huse.
  apply andb_true_iff in Huse as [Huse Hleft].
  apply andb_true_iff in Huse as [Hh Hexp].
  apply String.eqb_eq in Hh. apply Z.ltb_lt in Hexp. apply Z.ltb_lt in Hleft. auto.
Qed.

Lemma CreateDevice_fresh (now : Timestamp) (new_id : UUID) (t : Tables)
    (organization_id : UUID) (pk wg_pk wg_ip version plat : string)
    (tag : option string) :
  fault (base t) = None ->
  devices (base t) !! new_id = None ->
  (forall (id : UUID) (d : Device),
      devices (base t) !! id = Some d ->
      public_key d <> pk /\ wireguard_public_key d <> wg_pk) ->
  is_Some (organizations t !! organization_id) ->
  let d := mkDevice organization_id pk wg_pk wg_ip version plat tag ACTIVE None now in
  CreateDevice now new_id t organization_id pk wg_pk wg_ip version plat tag
  = (set_base t (set_devices (base t) (<[new_id := d]> (devices (base t)))),
     Ok (new_id, d)).
Proof.
  intros Hf Hfresh Hkeys [org Horg] d. unfold CreateDevice. rewrite Hf.
  rewrite decide_False by (rewrite Hfresh; apply is_Some_None).
  rewrite decide_False.
  2:{ intros (id & d' & Hd & Hpk). destruct (Hkeys id d' Hd) as [Hne _]. contradiction. }
  rewrite decide_False.
  2:{ intros (id & d' & Hd & Hpk). destruct (Hkeys id d' Hd) as [_ Hne]. contradiction. }
  rewrite decide_False by congruence.
  reflexivity.
Qed.

Lemma CountDevicesByStatus_active (t : Tables) (organization_id : UUID) :
  fault (base t) = None ->
  CountDevicesByStatus t organization_id "ACTIVE"
  = Ok (Z.of_nat (size (filter (device_counted organization_id "ACTIVE")
                          (devices (base t))))).
Proof. intros Hf. unfold CountDevicesByStatus. rewrite Hf. reflexivity. Qed.

(** String() of the address of an enrollment. *)
Lemma IPv4_String_allocated (deviceCount : Z) :
  IPv4_String (allocated_IP deviceCount)
  = "10.100.0." ++ pretty ((deviceCount + 2) mod 256).
Proof. reflexivity. Qed.

(** EnrollDevice is its four statements run in a row. *)
Lemma EnrollDevice_alone (now : Timestamp) (new_id : UUID) (t : Tables)
    (r : Rest.Request) :
  let out := EnrollDevice json_decode_request json_response_doc sha256_Sum256 uuid_String
               inet_of_IP
               now new_id t r in
  serve json_decode_request json_response_doc sha256_Sum256 uuid_String inet_of_IP
    t [Received r]
    [(0%nat, now, new_id); (0%nat, now, new_id); (0%nat, now, new_id);
     (0%nat, now, new_id)]
  = (tables_after out, [Answered (logged out) (answer out)]).
Proof.
  unfold EnrollDevice. cbn [serve lookup list_lookup statement].
  destruct (json_decode_request (Rest.request_body r)) as [req|e]; [|reflexivity].
  destruct (GetEnrollmentTokenByHash now t (hash_of sha256_Sum256 (Token req)))
    as [[id tok]|e]; [|reflexivity].
  cbn [serve lookup list_lookup statement insert list_insert].
  destruct (IncrementTokenUsage t id) as [t1 [tok1|e]]; [|reflexivity].
  cbn [serve lookup list_lookup statement insert list_insert].
  destruct (CountDevicesByStatus t1 (token_organization_id tok) "ACTIVE") as [n|e];
    cbn [serve lookup list_lookup statement insert list_insert];
    match goal with
    | |- context [CreateDevice ?a ?b ?c ?d ?e ?f ?g ?h ?i ?j] =>
        destruct (CreateDevice a b c d e f g h i j) as [t2 [[deviceID device]|err]]
    end; reflexivity.
Qed.

(** What EnrollDevice does to the token table: nothing, or one more use of
    the token it found. *)
Lemma EnrollDevice_tokens (now : Timestamp) (new_id : UUID) (t : Tables)
    (r : Rest.Request) :
  let out := EnrollDevice json_decode_request json_response_doc sha256_Sum256 uuid_String
               inet_of_IP
               now new_id t r in
  organizations (tables_after out) = organizations t
  /\ (enrollment_tokens (tables_after out) = enrollment_tokens t
      \/ exists (req : EnrollDeviceRequest) (id : UUID) (tok : EnrollmentToken),
           json_decode_request (Rest.request_body r) = Ok req
           /\ enrollment_tokens t !! id = Some tok
           /\ token_usable now (hash_of sha256_Sum256 (Token req)) tok = true
           /\ enrollment_tokens (tables_after out)
              = <[id := set_used_count (used_count tok + 1) tok]> (enrollment_tokens t)).
Proof.
  unfold EnrollDevice.
  destruct (json_decode_request (Rest.request_body r)) as [req|e]; [|simpl; auto].
  destruct (GetEnrollmentTokenByHash now t (hash_of sha256_Sum256 (Token req)))
    as [[id tok]|e] eqn:Hget; [|simpl; auto].
  apply GetEnrollmentTokenByHash_sound in Hget as (Hf & Htok & Huse).
  destruct (IncrementTokenUsage_cases t id) as [[Hsame [e He]] | (tok0 & Htok0 & _ & Hinc)].
  - destruct (IncrementTokenUsage t id) as [t1 res]. simpl in *. subst.
    simpl. auto.
  - rewrite Hinc. rewrite Htok in Htok0. injection Htok0 as <-.
    destruct (CountDevicesByStatus _ _ _); cbv beta iota zeta;
      match goal with
      | |- context [CreateDevice ?a ?b ?c ?d ?e ?f ?g ?h ?i ?j] =>
          pose proof (CreateDevice_frame a b c d e f g h i j) as (Hc1 & Hc2 & _);
          destruct (CreateDevice a b c d e f g h i j) as [t2 [[deviceID device]|err]]
      end; simpl in *;
      (split; [congruence|]); right; exists req, id, tok; auto.
Qed.

(** Calls served in turn keep the tokens that are there and keep each within
    its max_uses. *)
Lemma serve_in_turn_tokens (calls : list (Timestamp * UUID * Rest.Request)) (t : Tables) :
  let t' := serve_in_turn json_decode_request json_response_doc sha256_Sum256
              uuid_String inet_of_IP t calls in
  (forall id : UUID,
      is_Some (enrollment_tokens t' !! id) <-> is_Some (enrollment_tokens t !! id))
  /\ ((forall (id : UUID) (tok : EnrollmentToken),
         enrollment_tokens t !! id = Some tok -> used_count tok <= max_uses tok) ->
      forall (id : UUID) (tok : EnrollmentToken),
        enrollment_tokens t' !! id = Some tok -> used_count tok <= max_uses tok).
Proof.
  unfold serve_in_turn. revert t.
  induction calls as [|[[now new_id] r] rest IH]; intros t; cbn [fold_left].
  { split; [reflexivity | auto]. }
  destruct (IH (tables_after (EnrollDevice json_decode_request json_response_doc sha256_Sum256 uuid_String
               inet_of_IP
               now new_id t r))) as [IHsome IHinv].
  destruct (EnrollDevice_tokens now new_id t r) as [_ Htokens].
  cbv zeta in Htokens.
  split.
  - intros id. rewrite IHsome.
    destruct Htokens as [-> | (req & tid & tok & _ & Htok & _ & ->)]; [reflexivity|].
    destruct (decide (tid = id)) as [->|Hne].
    + rewrite lookup_insert_eq, Htok. split; eauto.
    + rewrite lookup_insert_ne by assumption. reflexivity.
  - intros Hinv. apply IHinv. intros id tok' Hafter.
    destruct Htokens as [Hsame | (req & tid & tok & _ & Htok & Huse & Hnew)].
    + rewrite Hsame in Hafter. exact (Hinv id tok' Hafter).
    + rewrite Hnew in Hafter. destruct (decide (tid = id)) as [->|Hne].
      * rewrite lookup_insert_eq in Hafter. injection Hafter as <-.
        apply token_usable_elim in Huse as (_ & _ & Hleft). cbn. lia.
      * rewrite lookup_insert_ne in Hafter by assumption. exact (Hinv id tok' Hafter).
Qed.

(** X19: the books of the tokens, for EnrollDevice calls that are served in
    turn, each to its answer before the next begins. One call changes no
    organization and at most one token: the token table after it is the
    table before it, or the table before it with used_count + 1 in one
    token, and that token had not expired and had used_count < max_uses when
    the call began. Any number of calls served in turn create and delete no
    token, and if used_count <= max_uses holds of every token before them it
    holds of every token after them. *)
Theorem EnrollDevice_token_accounting (now : Timestamp) (new_id : UUID) (t : Tables)
    (r : Rest.Request) :
  let out := EnrollDevice json_decode_request json_response_doc sha256_Sum256 uuid_String
               inet_of_IP
               now new_id t r in
  organizations (tables_after out) = organizations t
  /\ (enrollment_tokens (tables_after out) = enrollment_tokens t
      \/ exists (tid : UUID) (tok : EnrollmentToken),
           enrollment_tokens t !! tid = Some tok
           /\ now < expires_at tok
           /\ used_count tok < max_uses tok
           /\ enrollment_tokens (tables_after out)
              = <[tid := mkEnrollmentToken (token_organization_id tok) (token_hash tok)
                           (token_site_tag tok) (expires_at tok) (max_uses tok)
                           (used_count tok + 1) (token_created_at tok)]>
                  (enrollment_tokens t))
  /\ (forall calls : list (Timestamp * UUID * Rest.Request),
        let t' := serve_in_turn json_decode_request json_response_doc sha256_Sum256
                    uuid_String inet_of_IP t calls in
        (forall id : UUID,
            is_Some (enrollment_tokens t' !! id) <-> is_Some (enrollment_tokens t !! id))
        /\ ((forall (id : UUID) (tok : EnrollmentToken),
               enrollment_tokens t !! id = Some tok -> used_count tok <= max_uses tok) ->
            forall (id : UUID) (tok : EnrollmentToken),
              enrollment_tokens t' !! id = Some tok -> used_count tok <= max_uses tok)).
Proof.
  intros out.
  destruct (EnrollDevice_tokens now new_id t r) as [Horg Htokens]. fold out in Horg, Htokens.
  split; [exact Horg|]. split.
  - destruct Htokens as [Hsame | (req & tid & tok & _ & Htok & Huse & Hnew)];
      [left; exact Hsame|].
    right. exists tid, tok.
    apply token_usable_elim in Huse as (_ & Hexp & Hleft).
    split; [exact Htok|]. split; [exact Hexp|]. split; [exact Hleft | exact Hnew].
  - intros calls. apply serve_in_turn_tokens.
Qed.

(** X20: a request EnrollDevice cannot serve changes nothing. A body that
    does not decode is answered 400 "invalid request"; a token that is
    unknown, expired or used up is answered 401 "unauthorized", and no use
    is counted, no device created. *)
Theorem EnrollDevice_refuses (now : Timestamp) (new_id : UUID) (t : Tables)
    (r : Rest.Request) :
  let out := EnrollDevice json_decode_request json_response_doc sha256_Sum256 uuid_String
               inet_of_IP
               now new_id t r in
  (forall err : string,
      json_decode_request (Rest.request_body r) = Err err ->
      answer out = Rest.http_Error "invalid request" 400 /\ tables_after out = t)
  /\ (forall req : EnrollDeviceRequest,
        json_decode_request (Rest.request_body r) = Ok req ->
        (forall (id : UUID) (tok : EnrollmentToken),
            enrollment_tokens t !! id = Some tok ->
            token_hash tok = hash_of sha256_Sum256 (Token req) ->
            expires_at tok <= now \/ max_uses tok <= used_count tok) ->
        answer out = Rest.http_Error "unauthorized" 401 /\ tables_after out = t).
Proof.
  intros out. subst out. unfold EnrollDevice. split.
  - intros err Herr. rewrite Herr. split; reflexivity.
  - intros req Hreq Hnone. rewrite Hreq.
    destruct (GetEnrollmentTokenByHash_none now t (hash_of sha256_Sum256 (Token req)))
      as [e He].
    { intros id tok Htok. unfold token_usable.
      destruct (String.eqb (token_hash tok) (hash_of sha256_Sum256 (Token req))) eqn:Hh;
        [|reflexivity].
      apply String.eqb_eq in Hh. destruct (Hnone id tok Htok Hh) as [Hexp | Hused].
      - assert (Hfalse : (now <? expires_at tok) = false) by (apply Z.ltb_ge; lia).
        rewrite Hfalse. reflexivity.
      - assert (Hfalse : (used_count tok <? max_uses tok) = false)
          by (apply Z.ltb_ge; lia).
        rewrite Hfalse. apply andb_false_r. }
    rewrite He. split; reflexivity.
Qed.

(** The run of EnrollDevice up to the creation of the device, for a token
    that is found. *)
Lemma EnrollDevice_with_token (now : Timestamp) (new_id : UUID) (t : Tables)
    (r : Rest.Request) (req : EnrollDeviceRequest) (tid : UUID) (tok : EnrollmentToken)
    (n : Z) :
  json_decode_request (Rest.request_body r) = Ok req ->
  enrollment_tokens t !! tid = Some tok ->
  token_hash tok = hash_of sha256_Sum256 (Token req) ->
  now < expires_at tok ->
  used_count tok < max_uses tok ->
  max_uses tok <= max_int32 ->
  (forall (id' : UUID) (tok' : EnrollmentToken),
      enrollment_tokens t !! id' = Some tok' ->
      token_hash tok' = token_hash tok -> id' = tid) ->
  CountDevicesByStatus t (token_organization_id tok) "ACTIVE" = Ok n ->
  let t1 := set_enrollment_tokens t
              (<[tid := set_used_count (used_count tok + 1) tok]> (enrollment_tokens t)) in
  let created := CreateDevice now new_id t1 (token_organization_id tok) (PublicKey req)
                   (WireguardPublicKey req) (inet_of_IP (allocated_IP n))
                   (AgentVersion req) (Platform req) (stringToText (SiteTag req)) in
  EnrollDevice json_decode_request json_response_doc sha256_Sum256 uuid_String
               inet_of_IP
    now new_id t r
  = match created with
    | (t2, Err err) =>
        mkEnrolled t2
          [mkLogEntry ErrorLevel "failed to create device"
             [zap_Error (OtherError (sql_error_text err))]]
          (Rest.http_Error "internal error" 500)
    | (t2, Ok (deviceID, device)) =>
        mkEnrolled t2
          [mkLogEntry InfoLevel "device enrolled"
             [zap_String "device_id" (uuid_String deviceID);
              zap_String "platform" (platform device)]]
          (DeviceRest.json_response 201
             (json_response_doc
                (mkEnrollDeviceResponse (uuid_String deviceID)
                   ("10.100.0." ++ pretty ((n + 2) mod 256))
                   (device_state_text (device_status device)))))
    end.
Proof.
  intros Hreq Htok Hhash Hexp Hleft Hmax Huniq Hcount t1 created.
  assert (Hf : fault (base t) = None).
  { unfold CountDevicesByStatus in Hcount. destruct (fault (base t)); [discriminate|].
    reflexivity. }
  unfold EnrollDevice. rewrite Hreq.
  rewrite (GetEnrollmentTokenByHash_found now t _ tid tok Hf Htok
             (token_usable_intro now _ tok Hhash Hexp Hleft)).
  2:{ intros id' tok' Htok' Hh. apply (Huniq id' tok' Htok'). congruence. }
  unfold IncrementTokenUsage. rewrite Hf, Htok.
  destruct (decide (used_count tok + 1 > max_int32)); [lia|].
  fold t1.
  assert (Hcount1 : CountDevicesByStatus t1 (token_organization_id tok) "ACTIVE" = Ok n)
    by exact Hcount.
  rewrite Hcount1. cbv beta iota zeta. fold created.
  destruct created as [t2 [[deviceID device]|err]]; reflexivity.
Qed.

(** X21: EnrollDevice with a token that has not expired and has uses left,
    keys no device has, and a fresh id: the answer is 201 with the id, the
    address and "ACTIVE"; the device is stored ACTIVE and never seen, with
    the organization of the token, the keys of the request and a site tag
    only if the request named one; the used_count of the token is one more
    than it was and nothing else of the token table changes. The address in
    the answer is 10.100.0.x with x the number of ACTIVE devices of the
    organization plus two, modulo 256; the row holds what the driver makes
    of the 16-byte net.IPv4 value of that address. *)
Theorem EnrollDevice_enrolls (now : Timestamp) (new_id : UUID) (t : Tables)
    (r : Rest.Request) (req : EnrollDeviceRequest) (tid : UUID) (tok : EnrollmentToken)
    (n : Z) :
  json_decode_request (Rest.request_body r) = Ok req ->
  enrollment_tokens t !! tid = Some tok ->
  token_hash tok = hash_of sha256_Sum256 (Token req) ->
  now < expires_at tok ->
  used_count tok < max_uses tok ->
  max_uses tok <= max_int32 ->
  (forall (id' : UUID) (tok' : EnrollmentToken),
      enrollment_tokens t !! id' = Some tok' ->
      token_hash tok' = token_hash tok -> id' = tid) ->
  CountDevicesByStatus t (token_organization_id tok) "ACTIVE" = Ok n ->
  devices (base t) !! new_id = None ->
  (forall (id : UUID) (d : Device),
      devices (base t) !! id = Some d ->
      public_key d <> PublicKey req /\ wireguard_public_key d <> WireguardPublicKey req) ->
  is_Some (organizations t !! token_organization_id tok) ->
  let out := EnrollDevice json_decode_request json_response_doc sha256_Sum256 uuid_String
               inet_of_IP
               now new_id t r in
  let device :=
    mkDevice (token_organization_id tok) (PublicKey req) (WireguardPublicKey req)
      (inet_of_IP [0; 0; 0; 0; 0; 0; 0; 0; 0; 0; 255; 255; 10; 100; 0; (n + 2) mod 256])
      (AgentVersion req) (Platform req)
      (if String.eqb (SiteTag req) "" then None else Some (SiteTag req))
      ACTIVE None now in
  answer out
  = DeviceRest.json_response 201
      (json_response_doc
         (mkEnrollDeviceResponse (uuid_String new_id)
            ("10.100.0." ++ pretty ((n + 2) mod 256)) "ACTIVE"))
  /\ devices (base (tables_after out)) = <[new_id := device]> (devices (base t))
  /\ Queries.GetDevice (base (tables_after out)) new_id = Ok device
  /\ enrollment_tokens (tables_after out)
     = <[tid := mkEnrollmentToken (token_organization_id tok) (token_hash tok)
                  (token_site_tag tok) (expires_at tok) (max_uses tok)
                  (used_count tok + 1) (token_created_at tok)]>
         (enrollment_tokens t)
  /\ used_count <$> enrollment_tokens (tables_after out) !! tid
     = Some (used_count tok + 1).
Proof.
  intros Hreq Htok Hhash Hexp Hleft Hmax Huniq Hcount Hfresh Hkeys Horg out device.
  subst out.
  rewrite (EnrollDevice_with_token now new_id t r req tid tok n
             Hreq Htok Hhash Hexp Hleft Hmax Huniq Hcount).
  assert (Hf : fault (base t) = None).
  { unfold CountDevicesByStatus in Hcount. destruct (fault (base t)); [discriminate|].
    reflexivity. }
  rewrite CreateDevice_fresh; [| exact Hf | exact Hfresh | exact Hkeys | exact Horg].
  cbn [answer tables_after base set_base devices set_devices enrollment_tokens
       set_enrollment_tokens device_status device_state_text].
  split; [reflexivity|]. split; [reflexivity|]. split.
  - unfold Queries.GetDevice. cbn [fault set_devices devices]. rewrite Hf.
    rewrite lookup_insert_eq. reflexivity.
  - split; [reflexivity|]. rewrite lookup_insert_eq. reflexivity.
Qed.

(** X22: a use of the token is counted before the device is created, and
    stays counted when the creation fails: with a usable token and a public
    key that a device already has, EnrollDevice answers 500 "internal
    error", the devices are as they were, and the used_count of the token is
    one more than it was. *)
Theorem EnrollDevice_counts_failed_use (now : Timestamp) (new_id : UUID) (t : Tables)
    (r : Rest.Request) (req : EnrollDeviceRequest) (tid : UUID) (tok : EnrollmentToken)
    (n : Z) (other : UUID) (d : Device) :
  json_decode_request (Rest.request_body r) = Ok req ->
  enrollment_tokens t !! tid = Some tok ->
  token_hash tok = hash_of sha256_Sum256 (Token req) ->
  now < expires_at tok ->
  used_count tok < max_uses tok ->
  max_uses tok <= max_int32 ->
  (forall (id' : UUID) (tok' : EnrollmentToken),
      enrollment_tokens t !! id' = Some tok' ->
      token_hash tok' = token_hash tok -> id' = tid) ->
  CountDevicesByStatus t (token_organization_id tok) "ACTIVE" = Ok n ->
  devices (base t) !! other = Some d ->
  public_key d = PublicKey req ->
  let out := EnrollDevice json_decode_request json_response_doc sha256_Sum256 uuid_String
               inet_of_IP
               now new_id t r in
  answer out = Rest.http_Error "internal error" 500
  /\ base (tables_after out) = base t
  /\ enrollment_tokens (tables_after out)
     = <[tid := mkEnrollmentToken (token_organization_id tok) (token_hash tok)
                  (token_site_tag tok) (expires_at tok) (max_uses tok)
                  (used_count tok + 1) (token_created_at tok)]>
         (enrollment_tokens t)
  /\ used_count <$> enrollment_tokens (tables_after out) !! tid
     = Some (used_count tok + 1).
Proof.
  intros Hreq Htok Hhash Hexp Hleft Hmax Huniq Hcount Hd Hpk out. subst out.
  rewrite (EnrollDevice_with_token now new_id t r req tid tok n
             Hreq Htok Hhash Hexp Hleft Hmax Huniq Hcount).
  assert (Hf : fault (base t) = None).
  { unfold CountDevicesByStatus in Hcount. destruct (fault (base t)); [discriminate|].
    reflexivity. }
  assert (Hcounted : used_count <$>
            (<[tid := set_used_count (used_count tok + 1) tok]> (enrollment_tokens t))
              !! tid = Some (used_count tok + 1))
    by (rewrite lookup_insert_eq; reflexivity).
  unfold CreateDevice. cbn [base set_enrollment_tokens organizations]. rewrite Hf.
  destruct (decide (is_Some (devices (base t) !! new_id)));
    [split_and!; [reflexivity | reflexivity | reflexivity | exact Hcounted]|].
  rewrite decide_True;
    [split_and!; [reflexivity | reflexivity | reflexivity | exact Hcounted]|].
  exists other, d. auto.
Qed.

End EnrollmentFacts.

Section AddressFacts.
Import Store Registry Queries Enrollment.
Local Open Scope Z_scope.

Variable json_decode_request : string -> Result string EnrollDeviceRequest.
Variable json_response_doc : EnrollDeviceResponse -> string.
Variable sha256_Sum256 : list byte -> list byte.
Variable uuid_String : UUID -> string.
Variable inet_of_IP : list Z -> string.
Variable uuid_Parse : string -> Result string UUID.
Variable json_Device : UUID -> Device -> string.

(** X23: the address of an enrollment is taken from the number of ACTIVE
    devices, so an address is given out again once a device is suspended:
    after an enrollment, the suspension of another ACTIVE device of the
    organization and a second enrollment, the two enrolled devices are both
    stored ACTIVE, in the same organization, with the same WireGuard
    address, 10.100.0.x with x the number of ACTIVE devices at the start
    plus two, modulo 256. *)
Theorem EnrollDevice_reissues_address
    (now now' : Timestamp) (id1 id2 : UUID) (t : Tables)
    (r1 r2 rs : Rest.Request) (req1 req2 : EnrollDeviceRequest)
    (tid : UUID) (tok : EnrollmentToken) (n : Z) (victim : UUID) (dv : Device) :
  json_decode_request (Rest.request_body r1) = Ok req1 ->
  json_decode_request (Rest.request_body r2) = Ok req2 ->
  enrollment_tokens t !! tid = Some tok ->
  token_hash tok = hash_of sha256_Sum256 (Token req1) ->
  Token req2 = Token req1 ->
  now < expires_at tok ->
  now' < expires_at tok ->
  used_count tok + 1 < max_uses tok ->
  max_uses tok <= max_int32 ->
  (forall (id' : UUID) (tok' : EnrollmentToken),
      enrollment_tokens t !! id' = Some tok' ->
      token_hash tok' = token_hash tok -> id' = tid) ->
  CountDevicesByStatus t (token_organization_id tok) "ACTIVE" = Ok n ->
  devices (base t) !! id1 = None ->
  devices (base t) !! id2 = None ->
  id1 <> id2 ->
  (forall (id : UUID) (d : Device),
      devices (base t) !! id = Some d ->
      public_key d <> PublicKey req1 /\ wireguard_public_key d <> WireguardPublicKey req1
      /\ public_key d <> PublicKey req2
      /\ wireguard_public_key d <> WireguardPublicKey req2) ->
  PublicKey req1 <> PublicKey req2 ->
  WireguardPublicKey req1 <> WireguardPublicKey req2 ->
  is_Some (organizations t !! token_organization_id tok) ->
  uuid_Parse (Rest.url_id rs) = Ok victim ->
  devices (base t) !! victim = Some dv ->
  device_organization_id dv = token_organization_id tok ->
  device_status dv = ACTIVE ->
  let enroll := EnrollDevice json_decode_request json_response_doc sha256_Sum256
                  uuid_String inet_of_IP in
  let t1 := tables_after (enroll now id1 t r1) in
  let t2 := set_base t1
              (DeviceRest.served_db
                 (DeviceRest.SuspendDevice uuid_Parse json_Device (base t1) rs)) in
  let out := enroll now' id2 t2 r2 in
  answer out
  = DeviceRest.json_response 201
      (json_response_doc
         (mkEnrollDeviceResponse (uuid_String id2)
            ("10.100.0." ++ pretty ((n + 2) mod 256)) "ACTIVE"))
  /\ exists d1 d2 : Device,
       devices (base (tables_after out)) !! id1 = Some d1
       /\ devices (base (tables_after out)) !! id2 = Some d2
       /\ device_status d1 = ACTIVE /\ device_status d2 = ACTIVE
       /\ device_organization_id d1 = device_organization_id d2
       /\ wireguard_ip d1
          = inet_of_IP
              [0; 0; 0; 0; 0; 0; 0; 0; 0; 0; 255; 255; 10; 100; 0; (n + 2) mod 256]
       /\ wireguard_ip d2 = wireguard_ip d1.
Proof.
  intros Hreq1 Hreq2 Htok Hhash Hsame Hexp Hexp' Hleft Hmax Huniq Hcount
    Hfresh1 Hfresh2 Hids Hkeys Hpk Hwg Horg Hparse Hvictim Hvorg Hvactive
    enroll t1 t2 out.
  assert (Hf : fault (base t) = None).
  { unfold CountDevicesByStatus in Hcount. destruct (fault (base t)); [discriminate|].
    reflexivity. }
  set (org := token_organization_id tok) in *.
  set (tok1 := set_used_count (used_count tok + 1) tok).
  set (d1 := mkDevice org (PublicKey req1) (WireguardPublicKey req1)
               (inet_of_IP (allocated_IP n)) (AgentVersion req1) (Platform req1)
               (stringToText (SiteTag req1)) ACTIVE None now).
  set (d2 := mkDevice org (PublicKey req2) (WireguardPublicKey req2)
               (inet_of_IP (allocated_IP n)) (AgentVersion req2) (Platform req2)
               (stringToText (SiteTag req2)) ACTIVE None now').
  (* the first enrollment *)
  assert (Ht1 : t1 = mkTables (set_devices (base t) (<[id1 := d1]> (devices (base t))))
                       (organizations t) (<[tid := tok1]> (enrollment_tokens t))).
  { subst t1 enroll.
    rewrite (EnrollDevice_with_token json_decode_request json_response_doc sha256_Sum256
               uuid_String inet_of_IP now id1 t r1 req1 tid tok n
               Hreq1 Htok Hhash Hexp ltac:(lia) Hmax Huniq Hcount).
    rewrite CreateDevice_fresh; [reflexivity | exact Hf | exact Hfresh1 | | exact Horg].
    intros id d Hd. destruct (Hkeys id d Hd) as (? & ? & _). split; assumption. }
  (* the suspension *)
  assert (Hne1 : victim <> id1) by (intros ->; congruence).
  assert (Hne2 : victim <> id2) by (intros ->; congruence).
  set (devs2 := <[victim := set_device_status SUSPENDED dv]>
                  (<[id1 := d1]> (devices (base t)))).
  assert (Ht2 : t2 = mkTables (set_devices (base t) devs2)
                       (organizations t) (<[tid := tok1]> (enrollment_tokens t))).
  { subst t2. rewrite Ht1. unfold DeviceRest.SuspendDevice. rewrite Hparse.
    cbn [base].
    rewrite (UpdateDeviceStatus_ok _ victim "SUSPENDED" SUSPENDED dv);
      [reflexivity | exact Hf | | reflexivity].
    cbn [devices set_devices]. rewrite lookup_insert_ne by congruence. exact Hvictim. }
  (* the count is what it was *)
  assert (Hcount2 : CountDevicesByStatus t2 org "ACTIVE" = Ok n).
  { rewrite Ht2. rewrite CountDevicesByStatus_active by exact Hf.
    rewrite (CountDevicesByStatus_active t org Hf) in Hcount.
    injection Hcount as Hcount. f_equal. cbn [base devices set_devices]. subst devs2.
    pose proof (size_filter_insert_fresh (device_counted org "ACTIVE")
                  (devices (base t)) id1 d1 Hfresh1) as Hins.
    rewrite decide_True in Hins by (split; reflexivity).
    pose proof (size_filter_overwrite (device_counted org "ACTIVE")
                  (<[id1 := d1]> (devices (base t))) victim dv
                  (set_device_status SUSPENDED dv)) as Hover.
    rewrite lookup_insert_ne in Hover by congruence. specialize (Hover Hvictim).
    rewrite decide_True in Hover by (split; [exact Hvorg | cbn; congruence]).
    rewrite decide_False in Hover by (intros [_ Hst]; discriminate Hst).
    lia. }
  (* the second enrollment *)
  assert (Htok2 : enrollment_tokens t2 !! tid = Some tok1)
    by (rewrite Ht2; cbn; apply lookup_insert_eq).
  set (t2' := set_enrollment_tokens t2
                 (<[tid := set_used_count (used_count tok1 + 1) tok1]>
                    (enrollment_tokens t2))).
  assert (Hout : out = mkEnrolled
            (set_base t2' (set_devices (base t2') (<[id2 := d2]> (devices (base t2')))))
            [mkLogEntry InfoLevel "device enrolled"
               [zap_String "device_id" (uuid_String id2);
                zap_String "platform" (Platform req2)]]
            (DeviceRest.json_response 201
               (json_response_doc
                  (mkEnrollDeviceResponse (uuid_String id2)
                     ("10.100.0." ++ pretty ((n + 2) mod 256)) "ACTIVE")))).
  { subst out enroll.
    rewrite (EnrollDevice_with_token json_decode_request json_response_doc sha256_Sum256
               uuid_String inet_of_IP now' id2 t2 r2 req2 tid tok1 n Hreq2 Htok2).
    - fold t2'. rewrite CreateDevice_fresh; [reflexivity | | | | ].
      + subst t2'. rewrite Ht2. exact Hf.
      + subst t2'. rewrite Ht2. cbn [base set_enrollment_tokens devices set_devices].
        subst devs2. rewrite !lookup_insert_ne by congruence. exact Hfresh2.
      + subst t2'. rewrite Ht2. cbn [base set_enrollment_tokens devices set_devices].
        subst devs2. intros id d Hd.
        apply lookup_insert_Some in Hd as [[<- <-] | [_ Hd]].
        { destruct (Hkeys victim dv Hvictim) as (_ & _ & ? & ?). split; assumption. }
        apply lookup_insert_Some in Hd as [[<- <-] | [_ Hd]].
        { split; assumption. }
        destruct (Hkeys id d Hd) as (_ & _ & ? & ?). split; assumption.
      + subst t2'. rewrite Ht2. exact Horg.
    - cbn. rewrite Hsame. exact Hhash.
    - exact Hexp'.
    - cbn. lia.
    - exact Hmax.
    - rewrite Ht2. cbn [enrollment_tokens]. intros id' tok' Hlook Hh.
      apply lookup_insert_Some in Hlook as [[<- _] | [_ Hlook]]; [reflexivity|].
      apply (Huniq id' tok' Hlook). exact Hh.
    - exact Hcount2. }
  rewrite Hout. cbn [answer tables_after]. split; [reflexivity|].
  exists d1, d2. subst t2'. rewrite Ht2.
  cbn [base set_base set_enrollment_tokens devices set_devices]. subst devs2.
  split_and!; try reflexivity.
  - rewrite lookup_insert_ne by congruence. rewrite lookup_insert_ne by congruence.
    apply lookup_insert_eq.
  - apply lookup_insert_eq.
Qed.

(** The statements of the handler, each where it goes through. *)
Lemma statement_lookup (now : Timestamp) (new_id : UUID) (t : Tables)
    (r : Rest.Request) (req : EnrollDeviceRequest) (tid : UUID) (tok : EnrollmentToken) :
  fault (base t) = None ->
  json_decode_request (Rest.request_body r) = Ok req ->
  enrollment_tokens t !! tid = Some tok ->
  token_hash tok = hash_of sha256_Sum256 (Token req) ->
  now < expires_at tok ->
  used_count tok < max_uses tok ->
  (forall (id' : UUID) (tok' : EnrollmentToken),
      enrollment_tokens t !! id' = Some tok' ->
      token_hash tok' = token_hash tok -> id' = tid) ->
  statement json_decode_request json_response_doc sha256_Sum256 uuid_String inet_of_IP
    now new_id t (Received r)
  = (t, TokenFound req tid tok).
Proof.
  intros Hf Hreq Htok Hhash Hexp Hleft Huniq. cbn [statement]. rewrite Hreq.
  rewrite (GetEnrollmentTokenByHash_found now t _ tid tok Hf Htok
             (token_usable_intro now _ tok Hhash Hexp Hleft)); [reflexivity|].
  intros id' tok' Htok' Hh. apply (Huniq id' tok' Htok'). congruence.
Qed.

Lemma statement_increment (now : Timestamp) (new_id : UUID) (t : Tables)
    (req : EnrollDeviceRequest) (tid : UUID) (found row : EnrollmentToken) :
  fault (base t) = None ->
  enrollment_tokens t !! tid = Some row ->
  used_count row + 1 <= max_int32 ->
  statement json_decode_request json_response_doc sha256_Sum256 uuid_String inet_of_IP
    now new_id t (TokenFound req tid found)
  = (set_enrollment_tokens t
       (<[tid := set_used_count (used_count row + 1) row]> (enrollment_tokens t)),
     UsageCounted req found).
Proof.
  intros Hf Hrow Hmax. cbn [statement]. unfold IncrementTokenUsage. rewrite Hf, Hrow.
  rewrite decide_False by lia. reflexivity.
Qed.

Lemma statement_create (now : Timestamp) (new_id : UUID) (t : Tables)
    (req : EnrollDeviceRequest) (tok : EnrollmentToken) (n : Z) :
  fault (base t) = None ->
  devices (base t) !! new_id = None ->
  (forall (id : UUID) (d : Device),
      devices (base t) !! id = Some d ->
      public_key d <> PublicKey req /\ wireguard_public_key d <> WireguardPublicKey req) ->
  is_Some (organizations t !! token_organization_id tok) ->
  let d := mkDevice (token_organization_id tok) (PublicKey req) (WireguardPublicKey req)
             (inet_of_IP (allocated_IP n)) (AgentVersion req) (Platform req)
             (stringToText (SiteTag req)) ACTIVE None now in
  statement json_decode_request json_response_doc sha256_Sum256 uuid_String inet_of_IP
    now new_id t (DevicesCounted req tok n [])
  = (set_base t (set_devices (base t) (<[new_id := d]> (devices (base t)))),
     Answered
       [mkLogEntry InfoLevel "device enrolled"
          [zap_String "device_id" (uuid_String new_id);
           zap_String "platform" (Platform req)]]
       (DeviceRest.json_response 201
          (json_response_doc
             (mkEnrollDeviceResponse (uuid_String new_id)
                ("10.100.0." ++ pretty ((n + 2) mod 256)) "ACTIVE")))).
Proof.
  intros Hf Hfresh Hkeys Horg d. cbn [statement].
  rewrite CreateDevice_fresh; [reflexivity | exact Hf | exact Hfresh | exact Hkeys
                              | exact Horg].
Qed.

Lemma statement_count (now : Timestamp) (new_id : UUID) (t : Tables)
    (req : EnrollDeviceRequest) (tok : EnrollmentToken) (n : Z) :
  CountDevicesByStatus t (token_organization_id tok) "ACTIVE" = Ok n ->
  statement json_decode_request json_response_doc sha256_Sum256 uuid_String inet_of_IP
    now new_id t (UsageCounted req tok)
  = (t, DevicesCounted req tok n []).
Proof. intros Hcount. cbn [statement]. rewrite Hcount. reflexivity. Qed.

Lemma serve_step (t t' : Tables) (pool : list Progress) (i : nat) (now : Timestamp)
    (new_id : UUID) (rest : list Slot) (p p' : Progress) :
  pool !! i = Some p ->
  statement json_decode_request json_response_doc sha256_Sum256 uuid_String inet_of_IP
    now new_id t p = (t', p') ->
  serve json_decode_request json_response_doc sha256_Sum256 uuid_String inet_of_IP
    t pool ((i, now, new_id) :: rest)
  = serve json_decode_request json_response_doc sha256_Sum256 uuid_String inet_of_IP
      t' (<[i := p']> pool) rest.
Proof. intros Hp Hs. cbn [serve]. rewrite Hp, Hs. reflexivity. Qed.

(** X29: the handler runs its statements in no transaction, and
    IncrementTokenUsage has no condition on used_count: when two requests
    with the same token, which has one use left, both have their token
    looked up before either counts its use, both are answered 201 and both
    devices are stored, and the used_count of the token ends at
    max_uses + 1. Served in turn, the second of the two requests is answered
    401 "unauthorized". *)
Theorem EnrollDevice_interleaved_overuse
    (now : Timestamp) (ida idb : UUID) (t : Tables) (ra rb : Rest.Request)
    (reqa reqb : EnrollDeviceRequest) (tid : UUID) (tok : EnrollmentToken) (n : Z) :
  json_decode_request (Rest.request_body ra) = Ok reqa ->
  json_decode_request (Rest.request_body rb) = Ok reqb ->
  enrollment_tokens t !! tid = Some tok ->
  token_hash tok = hash_of sha256_Sum256 (Token reqa) ->
  Token reqb = Token reqa ->
  now < expires_at tok ->
  used_count tok + 1 = max_uses tok ->
  max_uses tok < max_int32 ->
  (forall (id' : UUID) (tok' : EnrollmentToken),
      enrollment_tokens t !! id' = Some tok' ->
      token_hash tok' = token_hash tok -> id' = tid) ->
  CountDevicesByStatus t (token_organization_id tok) "ACTIVE" = Ok n ->
  devices (base t) !! ida = None ->
  devices (base t) !! idb = None ->
  ida <> idb ->
  (forall (id : UUID) (d : Device),
      devices (base t) !! id = Some d ->
      public_key d <> PublicKey reqa /\ wireguard_public_key d <> WireguardPublicKey reqa
      /\ public_key d <> PublicKey reqb
      /\ wireguard_public_key d <> WireguardPublicKey reqb) ->
  PublicKey reqa <> PublicKey reqb ->
  WireguardPublicKey reqa <> WireguardPublicKey reqb ->
  is_Some (organizations t !! token_organization_id tok) ->
  let a : Slot := (0%nat, now, ida) in
  let b : Slot := (1%nat, now, idb) in
  let out := serve json_decode_request json_response_doc sha256_Sum256 uuid_String
               inet_of_IP t [Received ra; Received rb] [a; b; a; a; a; b; b; b] in
  let enroll := EnrollDevice json_decode_request json_response_doc sha256_Sum256
                  uuid_String inet_of_IP in
  (exists loga logb : list LogEntry,
      snd out
      = [Answered loga
           (DeviceRest.json_response 201
              (json_response_doc
                 (mkEnrollDeviceResponse (uuid_String ida)
                    ("10.100.0." ++ pretty ((n + 2) mod 256)) "ACTIVE")));
         Answered logb
           (DeviceRest.json_response 201
              (json_response_doc
                 (mkEnrollDeviceResponse (uuid_String idb)
                    ("10.100.0." ++ pretty ((n + 1 + 2) mod 256)) "ACTIVE")))])
  /\ used_count <$> enrollment_tokens (fst out) !! tid = Some (max_uses tok + 1)
  /\ max_uses <$> enrollment_tokens (fst out) !! tid = Some (max_uses tok)
  /\ device_status <$> devices (base (fst out)) !! ida = Some ACTIVE
  /\ device_status <$> devices (base (fst out)) !! idb = Some ACTIVE
  /\ answer (enroll now idb (tables_after (enroll now ida t ra)) rb)
     = Rest.http_Error "unauthorized" 401.
Proof.
  intros Hreqa Hreqb Htok Hhash Hsame Hexp Hone Hmax Huniq Hcount Hfresha Hfreshb Hids
    Hkeys Hpk Hwg Horg a b out enroll.
  assert (Hf : fault (base t) = None).
  { unfold CountDevicesByStatus in Hcount. destruct (fault (base t)); [discriminate|].
    reflexivity. }
  assert (Hhashb : token_hash tok = hash_of sha256_Sum256 (Token reqb))
    by (rewrite Hsame; exact Hhash).
  set (org := token_organization_id tok) in *.
  set (tok1 := set_used_count (used_count tok + 1) tok).
  set (tok2 := set_used_count (used_count tok1 + 1) tok1).
  set (da := mkDevice org (PublicKey reqa) (WireguardPublicKey reqa)
               (inet_of_IP (allocated_IP n)) (AgentVersion reqa) (Platform reqa)
               (stringToText (SiteTag reqa)) ACTIVE None now).
  set (db := mkDevice org (PublicKey reqb) (WireguardPublicKey reqb)
               (inet_of_IP (allocated_IP (n + 1))) (AgentVersion reqb) (Platform reqb)
               (stringToText (SiteTag reqb)) ACTIVE None now).
  set (t1 := set_enrollment_tokens t (<[tid := tok1]> (enrollment_tokens t))).
  set (t2 := set_base t1 (set_devices (base t1) (<[ida := da]> (devices (base t1))))).
  set (t3 := set_enrollment_tokens t2 (<[tid := tok2]> (enrollment_tokens t2))).
  set (t4 := set_base t3 (set_devices (base t3) (<[idb := db]> (devices (base t3))))).
  assert (Hcount3 : CountDevicesByStatus t3 org "ACTIVE" = Ok (n + 1)).
  { rewrite CountDevicesByStatus_active by exact Hf.
    rewrite (CountDevicesByStatus_active t org Hf) in Hcount.
    injection Hcount as Hcount. f_equal.
    change (devices (base t3)) with (<[ida := da]> (devices (base t))).
    rewrite (size_filter_insert_fresh (device_counted org "ACTIVE")
               (devices (base t)) ida da Hfresha).
    rewrite decide_True by (split; reflexivity). lia. }
  assert (Hrun : out
            = (t4,
               [Answered
                  [mkLogEntry InfoLevel "device enrolled"
                     [zap_String "device_id" (uuid_String ida);
                      zap_String "platform" (Platform reqa)]]
                  (DeviceRest.json_response 201
                     (json_response_doc
                        (mkEnrollDeviceResponse (uuid_String ida)
                           ("10.100.0." ++ pretty ((n + 2) mod 256)) "ACTIVE")));
                Answered
                  [mkLogEntry InfoLevel "device enrolled"
                     [zap_String "device_id" (uuid_String idb);
                      zap_String "platform" (Platform reqb)]]
                  (DeviceRest.json_response 201
                     (json_response_doc
                        (mkEnrollDeviceResponse (uuid_String idb)
                           ("10.100.0." ++ pretty ((n + 1 + 2) mod 256)) "ACTIVE")))])).
  { subst out a b.
    eapply eq_trans;
      [eapply serve_step;
         [reflexivity
         | exact (statement_lookup now ida t ra reqa tid tok Hf Hreqa Htok Hhash Hexp
                    ltac:(lia) Huniq)]|].
    eapply eq_trans;
      [eapply serve_step;
         [reflexivity
         | exact (statement_lookup now idb t rb reqb tid tok Hf Hreqb Htok Hhashb Hexp
                    ltac:(lia) Huniq)]|].
    eapply eq_trans;
      [eapply serve_step;
         [reflexivity
         | exact (statement_increment now ida t reqa tid tok tok Hf Htok ltac:(lia))]|].
    eapply eq_trans;
      [eapply serve_step;
         [reflexivity | exact (statement_count now ida t1 reqa tok n Hcount)]|].
    eapply eq_trans;
      [eapply serve_step; [reflexivity | apply (statement_create now ida t1 reqa tok n Hf)]|].
    { exact Hfresha. }
    { intros id d Hd. destruct (Hkeys id d Hd) as (? & ? & _). split; assumption. }
    { exact Horg. }
    eapply eq_trans;
      [eapply serve_step;
         [reflexivity | apply (statement_increment now idb t2 reqb tid tok tok1 Hf)]|].
    { apply lookup_insert_eq. }
    { cbn. lia. }
    eapply eq_trans;
      [eapply serve_step;
         [reflexivity | exact (statement_count now idb t3 reqb tok (n + 1) Hcount3)]|].
    eapply eq_trans;
      [eapply serve_step;
         [reflexivity | apply (statement_create now idb t3 reqb tok (n + 1) Hf)]|].
    - change (devices (base t3)) with (<[ida := da]> (devices (base t))).
      rewrite lookup_insert_ne by congruence. exact Hfreshb.
    - change (devices (base t3)) with (<[ida := da]> (devices (base t))).
      intros id d Hd. apply lookup_insert_Some in Hd as [[<- <-] | [_ Hd]].
      + split; assumption.
      + destruct (Hkeys id d Hd) as (_ & _ & ? & ?). split; assumption.
    - exact Horg.
    - reflexivity. }
  rewrite Hrun. cbn [fst snd].
  split; [eexists; eexists; reflexivity|].
  assert (Htok4 : enrollment_tokens t4 !! tid = Some tok2) by apply lookup_insert_eq.
  split; [rewrite Htok4; cbn; f_equal; lia|].
  split; [rewrite Htok4; reflexivity|].
  split.
  { change (devices (base t4)) with (<[idb := db]> (<[ida := da]> (devices (base t)))).
    rewrite lookup_insert_ne by congruence. rewrite lookup_insert_eq. reflexivity. }
  split.
  { change (devices (base t4)) with (<[idb := db]> (<[ida := da]> (devices (base t)))).
    rewrite lookup_insert_eq. reflexivity. }
  (* served in turn *)
  assert (Hfirst : tables_after (enroll now ida t ra) = t2).
  { subst enroll.
    rewrite (EnrollDevice_with_token json_decode_request json_response_doc sha256_Sum256
               uuid_String inet_of_IP now ida t ra reqa tid tok n
               Hreqa Htok Hhash Hexp ltac:(lia) ltac:(lia) Huniq Hcount).
    rewrite CreateDevice_fresh; [reflexivity | exact Hf | exact Hfresha | | exact Horg].
    intros id d Hd. destruct (Hkeys id d Hd) as (? & ? & _). split; assumption. }
  rewrite Hfirst. subst enroll. unfold EnrollDevice. rewrite Hreqb.
  destruct (GetEnrollmentTokenByHash_none now t2 (hash_of sha256_Sum256 (Token reqb)))
    as [e He]; [|rewrite He; reflexivity].
  intros id tok' Htok'.
  change (enrollment_tokens t2) with (<[tid := tok1]> (enrollment_tokens t)) in Htok'.
  destruct (token_usable now (hash_of sha256_Sum256 (Token reqb)) tok') eqn:Huse;
    [|reflexivity].
  apply token_usable_elim in Huse as (Hh & _ & Hleft). exfalso.
  apply lookup_insert_Some in Htok' as [[<- <-] | [Hne Htok']].
  - cbn in Hleft. lia.
  - apply Hne. symmetry. apply (Huniq id tok' Htok'). congruence.
Qed.

End AddressFacts.

(** ** Access sessions *)

Section SessionFacts.
Import Store Sessions.
Local Open Scope Z_scope.

Lemma session_active_spec (now : Timestamp) (device_id : UUID) (s : AccessSession) :
  session_active now device_id s = true
  <-> session_device_id s = device_id /\ terminated_at s = None
      /\ now < session_expires_at s.
Proof.
  unfold session_active.
  rewrite !andb_true_iff, !bool_decide_eq_true, Z.ltb_lt. tauto.
Qed.

Lemma active_sessions_elem (later : Timestamp) (m : gmap UUID AccessSession)
    (device_id id : UUID) (s : AccessSession) :
  (id, s) ∈ merge_sort by_newest_first
              (map_to_list (filter
                 (fun kv : UUID * AccessSession =>
                    session_active later device_id (snd kv) = true) m))
  <-> m !! id = Some s /\ session_active later device_id s = true.
Proof.
  rewrite merge_sort_Permutation, elem_of_map_to_list, map_lookup_filter_Some.
  reflexivity.
Qed.

Lemma expire_row_cases (now : Timestamp) (s : AccessSession) :
  (session_expires_at s < now /\ terminated_at s = None
   /\ expire_row now s = set_terminated_at now s)
  \/ ((now <= session_expires_at s \/ terminated_at s <> None) /\ expire_row now s = s).
Proof.
  unfold expire_row.
  destruct (session_expires_at s <? now) eqn:Hexp; simpl.
  - apply Z.ltb_lt in Hexp. destruct (terminated_at s) as [at_|] eqn:Hterm.
    + right. split; [right; discriminate | reflexivity].
    + left. auto.
  - apply Z.ltb_ge in Hexp. right. split; [left; exact Hexp | reflexivity].
Qed.

(** X24: a session that CreateAccessSession stores is listed as active at
    exactly the times before its expires_at. GetAccessSession does not look
    at expires_at and returns the session also after it, until
    ExpireOldSessions has run at a time after expires_at; at the instant
    expires_at itself the session is not active and not swept. *)
Theorem session_listed_until_expiry
    (now : Timestamp) (new_id : UUID) (t : SessionTables) (device_id : UUID)
    (email config : string) (expires : Timestamp) :
  fault (session_base t) = None ->
  access_sessions t !! new_id = None ->
  is_Some (devices (session_base t) !! device_id) ->
  let out := CreateAccessSession now new_id t device_id email config expires in
  let s := mkAccessSession device_id email config expires None now in
  snd out = Ok (new_id, s)
  /\ GetAccessSession (fst out) new_id = Ok s
  /\ (forall (later : Timestamp) (l : list (UUID * AccessSession)),
        ListActiveAccessSessions later (fst out) device_id = Ok l ->
        ((new_id, s) ∈ l <-> later < expires))
  /\ (forall later : Timestamp,
        later <= expires ->
        GetAccessSession (fst (ExpireOldSessions later (fst out))) new_id = Ok s)
  /\ (forall later : Timestamp,
        expires < later ->
        GetAccessSession (fst (ExpireOldSessions later (fst out))) new_id
        = Err ErrNoRows).
Proof.
  intros Hf Hfresh [d Hd] out s. subst out. unfold CreateAccessSession.
  rewrite Hf. rewrite decide_False by (rewrite Hfresh; apply is_Some_None).
  rewrite decide_False by congruence. fold s. cbn [fst snd].
  split; [reflexivity|]. split; [|split; [|split]].
  - unfold GetAccessSession. cbn. rewrite Hf, lookup_insert_eq. reflexivity.
  - intros later l. unfold ListActiveAccessSessions. cbn [session_base set_access_sessions].
    rewrite Hf. intros Hl. injection Hl as <-.
    rewrite active_sessions_elem. cbn [access_sessions].
    rewrite lookup_insert_eq, session_active_spec. subst s. cbn. intuition.
  - intros later Hlater. unfold ExpireOldSessions, GetAccessSession.
    cbn [session_base set_access_sessions access_sessions fst]. rewrite Hf.
    cbn [session_base set_access_sessions access_sessions fst]. rewrite Hf.
    rewrite lookup_fmap, lookup_insert_eq. cbn [fmap option_fmap option_map].
    destruct (expire_row_cases later s) as [(Hexp & _) | (_ & ->)];
      [subst s; cbn in Hexp; lia | reflexivity].
  - intros later Hlater. unfold ExpireOldSessions, GetAccessSession.
    cbn [session_base set_access_sessions access_sessions fst]. rewrite Hf.
    cbn [session_base set_access_sessions access_sessions fst]. rewrite Hf.
    rewrite lookup_fmap, lookup_insert_eq. cbn [fmap option_fmap option_map].
    destruct (expire_row_cases later s) as [(_ & _ & ->) | ([Hexp | Hterm] & _)];
      [reflexivity | subst s; cbn in Hexp; lia | contradiction Hterm; reflexivity].
Qed.

(** X25: ExpireOldSessions writes terminated_at once: a session that is
    terminated keeps the time it has. The sweep changes no list of active
    sessions asked for at its own time or later, and running it again at the
    same time changes nothing more. *)
Theorem ExpireOldSessions_sweeps_once (now : Timestamp) (t : SessionTables) :
  let t' := fst (ExpireOldSessions now t) in
  session_base t' = session_base t
  /\ (forall (id : UUID) (s : AccessSession) (at_ : Timestamp),
        access_sessions t !! id = Some s -> terminated_at s = Some at_ ->
        access_sessions t' !! id = Some s)
  /\ (forall (id : UUID) (s : AccessSession),
        access_sessions t !! id = Some s -> now <= session_expires_at s ->
        access_sessions t' !! id = Some s)
  /\ (forall (later : Timestamp) (device_id : UUID),
        now <= later ->
        ListActiveAccessSessions later t' device_id
        = ListActiveAccessSessions later t device_id)
  /\ fst (ExpireOldSessions now t') = t'.
Proof.
  intros t'. subst t'. unfold ExpireOldSessions.
  destruct (fault (session_base t)) eqn:Hf; cbn [fst].
  { rewrite Hf. repeat split; auto. }
  cbn [session_base set_access_sessions access_sessions]. rewrite Hf. cbn [fst].
  split; [reflexivity|]. split; [|split; [|split]].
  - intros id s at_ Hs Hterm. rewrite lookup_fmap, Hs. cbn. f_equal.
    destruct (expire_row_cases now s) as [(_ & Hnone & _) | (_ & ->)];
      [congruence | reflexivity].
  - intros id s Hs Hexp. rewrite lookup_fmap, Hs. cbn. f_equal.
    destruct (expire_row_cases now s) as [(Hlt & _) | (_ & ->)]; [lia | reflexivity].
  - intros later device_id Hlater. unfold ListActiveAccessSessions.
    cbn [session_base set_access_sessions access_sessions]. rewrite Hf.
    do 3 f_equal. apply map_eq. intros id. apply option_eq. intros s.
    rewrite !map_lookup_filter_Some, lookup_fmap_Some. cbn [snd].
    rewrite session_active_spec. split.
    + intros [(s0 & Hrow & Hs0) (Hdev & Hterm & Hexp)].
      destruct (expire_row_cases now s0) as [(_ & _ & Hswept) | (_ & Hsame)].
      * rewrite Hswept in Hrow. subst s. discriminate Hterm.
      * rewrite Hsame in Hrow. subst s0. auto.
    + intros [Hs (Hdev & Hterm & Hexp)]. split; [|auto].
      exists s. split; [|exact Hs].
      destruct (expire_row_cases now s) as [(Hlt & _) | (_ & ->)]; [lia | reflexivity].
  - f_equal. rewrite <- map_fmap_compose. apply map_fmap_ext. intros id s _. cbn.
    destruct (expire_row_cases now s) as [(_ & _ & Hswept) | (_ & Hsame)].
    + rewrite Hswept.
      destruct (expire_row_cases now (set_terminated_at now s))
        as [(_ & Hnone & _) | (_ & ->)]; [discriminate Hnone | reflexivity].
    + rewrite !Hsame. reflexivity.
Qed.

(** X26: TerminateAccessSession has no condition on terminated_at: it ends
    an open session, which GetAccessSession and the list of active sessions
    then no longer return, and called again on the ended session it
    succeeds again and replaces the time of the ending, where
    ExpireOldSessions leaves that time alone. *)
Theorem TerminateAccessSession_overwrites
    (now : Timestamp) (t : SessionTables) (id : UUID) (s : AccessSession) :
  fault (session_base t) = None ->
  access_sessions t !! id = Some s ->
  let t' := fst (TerminateAccessSession now t id) in
  snd (TerminateAccessSession now t id) = Ok (set_terminated_at now s)
  /\ GetAccessSession t' id = Err ErrNoRows
  /\ (forall (later : Timestamp) (device_id : UUID) (l : list (UUID * AccessSession)),
        ListActiveAccessSessions later t' device_id = Ok l ->
        forall s' : AccessSession, (id, s') ∉ l)
  /\ (forall again : Timestamp,
        snd (TerminateAccessSession again t' id) = Ok (set_terminated_at again s)
        /\ access_sessions (fst (TerminateAccessSession again t' id)) !! id
           = Some (set_terminated_at again s))
  /\ (forall later : Timestamp,
        access_sessions (fst (ExpireOldSessions later t')) !! id
        = Some (set_terminated_at now s))
  /\ (forall other : UUID,
        other <> id -> access_sessions t' !! other = access_sessions t !! other).
Proof.
  intros Hf Hs t'. subst t'. unfold TerminateAccessSession. rewrite Hf, Hs.
  cbn [fst snd]. split; [reflexivity|]. split; [|split; [|split; [|split]]].
  - unfold GetAccessSession. cbn. rewrite Hf, lookup_insert_eq. reflexivity.
  - intros later device_id l. unfold ListActiveAccessSessions. cbn. rewrite Hf.
    intros Hl. injection Hl as <-. intros s' Hin.
    apply active_sessions_elem in Hin as [Hrow Hactive].
    rewrite lookup_insert_eq in Hrow. injection Hrow as <-.
    apply session_active_spec in Hactive as (_ & Hterm & _). discriminate Hterm.
  - intros again. cbn [session_base set_access_sessions access_sessions].
    rewrite Hf, lookup_insert_eq. cbn [fst snd access_sessions set_access_sessions].
    rewrite lookup_insert_eq. split; reflexivity.
  - intros later. unfold ExpireOldSessions.
    cbn [session_base set_access_sessions access_sessions]. rewrite Hf.
    cbn [fst access_sessions set_access_sessions].
    rewrite lookup_fmap, lookup_insert_eq. cbn. f_equal.
    destruct (expire_row_cases later (set_terminated_at now s))
      as [(_ & Hnone & _) | (_ & ->)]; [discriminate Hnone | reflexivity].
  - intros other Hother. cbn. apply lookup_insert_ne. congruence.
Qed.

End SessionFacts.

(** ** Token sweep and artifacts *)

Section SweepFacts.
Import Store Enrollment Artifacts.
Local Open Scope Z_scope.

(** X27: DeleteExpiredTokens takes no token away that an enrollment could
    still use: at the time of the sweep and at any later time
    GetEnrollmentTokenByHash returns what it returned without the sweep. The
    sweep changes no token it keeps, touches no other table, and keeps every
    used-up token, however long ago it expired. *)
Theorem DeleteExpiredTokens_keeps_usable (now : Timestamp) (t : Tables) :
  let t' := fst (DeleteExpiredTokens now t) in
  base t' = base t
  /\ organizations t' = organizations t
  /\ (forall (id : UUID) (tok : EnrollmentToken),
        enrollment_tokens t' !! id = Some tok -> enrollment_tokens t !! id = Some tok)
  /\ (forall (later : Timestamp) (hash : string),
        now <= later ->
        GetEnrollmentTokenByHash later t' hash = GetEnrollmentTokenByHash later t hash)
  /\ (forall (id : UUID) (tok : EnrollmentToken),
        enrollment_tokens t !! id = Some tok ->
        max_uses tok <= used_count tok ->
        enrollment_tokens t' !! id = Some tok)
  /\ (forall (id : UUID) (tok : EnrollmentToken),
        fault (base t) = None ->
        enrollment_tokens t !! id = Some tok ->
        expires_at tok < now -> used_count tok < max_uses tok ->
        enrollment_tokens t' !! id = None).
Proof.
  intros t'. subst t'. unfold DeleteExpiredTokens.
  destruct (fault (base t)) eqn:Hf; cbn [fst].
  { repeat split; auto. intros; discriminate. }
  cbn [base organizations enrollment_tokens set_enrollment_tokens].
  split; [reflexivity|]. split; [reflexivity|]. split; [|split; [|split]].
  - intros id tok Htok. apply map_lookup_filter_Some in Htok as [Htok _]. exact Htok.
  - intros later hash Hlater. unfold GetEnrollmentTokenByHash.
    cbn [base enrollment_tokens set_enrollment_tokens]. rewrite Hf.
    replace (filter (fun kv : UUID * EnrollmentToken =>
                       token_usable later hash (snd kv) = true)
               (filter (fun kv : UUID * EnrollmentToken =>
                          token_deleted now (snd kv) = false) (enrollment_tokens t)))
      with (filter (fun kv : UUID * EnrollmentToken =>
                      token_usable later hash (snd kv) = true) (enrollment_tokens t));
      [reflexivity|].
    apply map_eq. intros id. apply option_eq. intros tok.
    rewrite !map_lookup_filter_Some. cbn [snd]. split; [|tauto].
    intros [Htok Huse]. split; [|exact Huse]. split; [exact Htok|].
    unfold token_usable in Huse. unfold token_deleted.
    apply andb_true_iff in Huse as [Huse _]. apply andb_true_iff in Huse as [_ Hexp].
    apply Z.ltb_lt in Hexp.
    assert (Hnot : (expires_at tok <? now) = false) by (apply Z.ltb_ge; lia).
    rewrite Hnot. reflexivity.
  - intros id tok Htok Hused. apply map_lookup_filter_Some. split; [exact Htok|].
    cbn [snd]. unfold token_deleted.
    assert (Hnot : (used_count tok <? max_uses tok) = false) by (apply Z.ltb_ge; lia).
    rewrite Hnot. apply andb_false_r.
  - intros id tok _ Htok Hexp Hleft. apply map_lookup_filter_None. right.
    intros tok' Htok'. cbn [snd]. rewrite Htok in Htok'. injection Htok' as <-.
    unfold token_deleted.
    assert (H1 : (expires_at tok <? now) = true) by (apply Z.ltb_lt; lia).
    assert (H2 : (used_count tok <? max_uses tok) = true) by (apply Z.ltb_lt; lia).
    rewrite H1, H2. discriminate.
Qed.

Lemma CreateArtifact_cases (now : Timestamp) (new_id : UUID) (t : Tables)
    (organization_id : UUID) (artifact_name type_text hash : string)
    (sig : list byte) (key_id url : string) (size : Z) :
  let out := CreateArtifact now new_id t organization_id artifact_name type_text hash
               sig key_id url size in
  (fst out = t /\ exists e : ArtifactError, snd out = Err e)
  \/ (exists ty : ArtifactType,
        let a := mkArtifact organization_id artifact_name ty hash sig key_id url
                   size now in
        artifact_type_of_text type_text = Some ty
        /\ fault (base t) = None
        /\ artifacts (base t) !! new_id = None
        /\ (forall (id : UUID) (a' : Artifact),
              artifacts (base t) !! id = Some a' -> blake3_hash a' <> hash)
        /\ is_Some (organizations t !! organization_id)
        /\ out = (set_base t (set_artifacts (base t)
                                (<[new_id := a]> (artifacts (base t)))),
                  Ok (new_id, a))).
Proof.
  intros out. subst out. unfold CreateArtifact.
  destruct (fault (base t)) eqn:Hf; [left; split; [|eexists]; reflexivity|].
  destruct (artifact_type_of_text type_text) as [ty|];
    [|left; split; [|eexists]; reflexivity].
  destruct (decide (is_Some (artifacts (base t) !! new_id))) as [|Hfresh];
    [left; split; [|eexists]; reflexivity|].
  destruct (decide (map_Exists _ _)) as [|Hhash];
    [left; split; [|eexists]; reflexivity|].
  destruct (decide (organizations t !! organization_id = None)) as [|Horg];
    [left; split; [|eexists]; reflexivity|].
  right. exists ty. cbv zeta. split_and!; try reflexivity.
  - destruct (artifacts (base t) !! new_id) eqn:Hlook; [|reflexivity].
    contradiction Hfresh. eexists; reflexivity.
  - intros id a' Ha' Heq. apply Hhash. exists id, a'. auto.
  - destruct (organizations t !! organization_id) eqn:Hlook; [eexists; reflexivity|].
    contradiction Horg. reflexivity.
Qed.

(** X28: CreateArtifact keeps the BLAKE3 hashes of the table distinct, and
    an artifact it has stored is the one GetArtifactByHash returns for its
    hash and GetArtifact for its id. What it asks of a new artifact is a type
    the column admits, a hash no artifact has and an organization that
    exists: the form of the hash text and the signature are not looked at. *)
Theorem CreateArtifact_keeps_hashes_unique
    (now : Timestamp) (new_id : UUID) (t : Tables)
    (organization_id : UUID) (artifact_name type_text hash : string)
    (sig : list byte) (key_id url : string) (size : Z) :
  let out := CreateArtifact now new_id t organization_id artifact_name type_text hash
               sig key_id url size in
  (hashes_unique t -> hashes_unique (fst out))
  /\ (forall (id : UUID) (a : Artifact),
        snd out = Ok (id, a) ->
        id = new_id /\ blake3_hash a = hash /\ signature a = sig
        /\ GetArtifact (fst out) new_id = Ok a
        /\ GetArtifactByHash (fst out) hash = Ok (new_id, a))
  /\ (forall ty : ArtifactType,
        artifact_type_of_text type_text = Some ty ->
        fault (base t) = None ->
        artifacts (base t) !! new_id = None ->
        (forall (id : UUID) (a' : Artifact),
            artifacts (base t) !! id = Some a' -> blake3_hash a' <> hash) ->
        is_Some (organizations t !! organization_id) ->
        snd out
        = Ok (new_id,
              mkArtifact organization_id artifact_name ty hash sig key_id url size now)).
Proof.
  intros out.
  destruct (CreateArtifact_cases now new_id t organization_id artifact_name type_text
              hash sig key_id url size)
    as [[Hsame [e He]] | (ty & Hty & Hf & Hfresh & Hhash & Horg & Hout)];
    fold out in Hsame, He || fold out in Hout.
  - split; [rewrite Hsame; auto|]. split.
    + intros id a Hok. rewrite He in Hok. discriminate Hok.
    + intros ty Hty Hf Hfresh Hhash [org Horg]. exfalso.
      subst out. unfold CreateArtifact in He. rewrite Hf, Hty in He.
      rewrite decide_False in He by (rewrite Hfresh; apply is_Some_None).
      rewrite decide_False in He.
      2:{ intros (id & a' & Ha' & Heq). exact (Hhash id a' Ha' Heq). }
      rewrite decide_False in He by congruence. discriminate He.
  - cbv zeta in Hout. rewrite Hout. cbn [fst snd]. split; [|split].
    + intros Huniq id id' a a'. cbn [base set_base artifacts set_artifacts].
      intros Ha Ha' Heq.
      apply lookup_insert_Some in Ha as [[<- <-] | [Hne Ha]];
        apply lookup_insert_Some in Ha' as [[<- <-] | [Hne' Ha']].
      * reflexivity.
      * exfalso. apply (Hhash id' a' Ha'). cbn in Heq. congruence.
      * exfalso. apply (Hhash id a Ha). cbn in Heq. congruence.
      * exact (Huniq id id' a a' Ha Ha' Heq).
    + intros id a Hok. injection Hok as <- <-. split; [reflexivity|].
      split; [reflexivity|]. split; [reflexivity|]. split.
      * unfold GetArtifact. cbn. rewrite Hf, lookup_insert_eq. reflexivity.
      * unfold GetArtifactByHash. cbn [base set_base artifacts set_artifacts fault].
        rewrite Hf.
        match goal with
        | |- context [map_to_list ?m] =>
            assert (Hsingle : m = {[ new_id :=
                      mkArtifact organization_id artifact_name ty hash sig key_id url
                        size now ]})
        end.
        { apply map_eq. intros id. apply option_eq. intros a.
          rewrite map_lookup_filter_Some, lookup_singleton_Some. cbn [snd]. split.
          - intros [Ha Heq].
            apply lookup_insert_Some in Ha as [[<- <-] | [_ Ha]]; [auto|].
            exfalso. exact (Hhash id a Ha Heq).
          - intros [<- <-]. rewrite lookup_insert_eq. auto. }
        rewrite Hsingle, map_to_list_singleton. reflexivity.
    + intros ty' Hty' _ _ _ _. rewrite Hty in Hty'. injection Hty' as <-. reflexivity.
Qed.

End SweepFacts.

(** ** The theorems at the sample data *)

Lemma AllocateIP_always_first_address_witness :
  exists (i i' : Ipam.IPAM) (ip : Ipam.IP),
    Ipam.NewIPAM MoreSamples.parse_cidr Samples.db_devices "10.100.0.7/16" = Ok i
    /\ Ipam.NewIPAM MoreSamples.parse_cidr MoreSamples.db_fleet "10.100.0.7/16" = Ok i'
    /\ Ipam.AllocateIP i "org-1" = Ok ip
    /\ Ipam.AllocateIP i' "org-2" = Ok ip
    /\ List.length ip = 4%nat
    /\ Ipam.be_value ip = 174325761%Z.
Proof.
  apply (AllocateIP_always_first_address MoreSamples.parse_cidr
           Samples.db_devices MoreSamples.db_fleet "10.100.0.7/16" "org-1" "org-2"
           [10; 100; 0; 7]%Z (Ipam.mkIPNet [10; 100; 0; 0]%Z [255; 255; 0; 0]%Z)).
  - reflexivity.
  - repeat constructor; simpl; lia.
Defined.

Lemma GenerateWireGuardKeyPair_clamped_witness :
  exists k : Keys.WireGuardKeyPair,
    Keys.GenerateWireGuardKeyPair MoreSamples.reverse_bytes (Ok MoreSamples.random32)
      = Ok k
    /\ List.length (Keys.PrivateKey k) = 32%nat
    /\ Forall Keys.in_byte_range (Keys.PrivateKey k)
    /\ (8 | Keys.le_value (Keys.PrivateKey k))%Z
    /\ (2 ^ 254 <= Keys.le_value (Keys.PrivateKey k) < 2 ^ 255)%Z
    /\ Keys.clamp (Keys.PrivateKey k) = Keys.PrivateKey k
    /\ Keys.PublicKey k = MoreSamples.reverse_bytes (Keys.PrivateKey k).
Proof.
  apply (GenerateWireGuardKeyPair_clamped MoreSamples.reverse_bytes MoreSamples.random32).
  - reflexivity.
  - unfold MoreSamples.random32. simpl. repeat constructor; unfold Keys.in_byte_range; lia.
Defined.

Lemma parsed_keys_have_their_size_witness :
  MoreSamples.decode_bytes (MoreSamples.encode_bytes MoreSamples.random32)
    = Ok MoreSamples.random32
  /\ List.length MoreSamples.random32 = 32%nat.
Proof.
  apply (proj1 (parsed_keys_have_their_size MoreSamples.decode_bytes
                  (MoreSamples.encode_bytes MoreSamples.random32))
           MoreSamples.random32).
  vm_compute. reflexivity.
Defined.

(** The stand-ins have what is asked of base64 and of ScalarBaseMult. *)
Lemma decode_encode_bytes (data : list Z) :
  Forall Keys.in_byte_range data ->
  MoreSamples.decode_bytes (MoreSamples.encode_bytes data) = Ok data.
Proof.
  intros Hdata. unfold MoreSamples.decode_bytes, MoreSamples.encode_bytes. f_equal.
  rewrite list_ascii_of_string_of_list_ascii.
  induction Hdata as [|b rest Hb _ IH]; [reflexivity|].
  simpl. rewrite IH. f_equal. unfold Keys.in_byte_range in Hb.
  rewrite N_ascii_embedding by lia. lia.
Qed.

Lemma reverse_bytes_keeps (k : list Z) :
  List.length k = 32%nat -> Forall Keys.in_byte_range k ->
  List.length (MoreSamples.reverse_bytes k) = 32%nat
  /\ Forall Keys.in_byte_range (MoreSamples.reverse_bytes k).
Proof.
  intros Hlen Hrange. unfold MoreSamples.reverse_bytes. split.
  - rewrite length_rev. exact Hlen.
  - apply Forall_rev. exact Hrange.
Qed.

Lemma generated_keys_parse_back_witness :
  exists k : Keys.WireGuardKeyPair,
    Keys.GenerateWireGuardKeyPair MoreSamples.reverse_bytes (Ok MoreSamples.random32)
      = Ok k
    /\ Keys.ParseWireGuardPrivateKey MoreSamples.decode_bytes
         (Keys.PrivateKeyString MoreSamples.encode_bytes k) = (Keys.PrivateKey k, None)
    /\ Keys.ParseWireGuardPublicKey MoreSamples.decode_bytes
         (Keys.PublicKeyString MoreSamples.encode_bytes k) = (Keys.PublicKey k, None).
Proof.
  apply (generated_keys_parse_back MoreSamples.reverse_bytes MoreSamples.encode_bytes
           MoreSamples.decode_bytes MoreSamples.random32).
  - reflexivity.
  - unfold MoreSamples.random32. simpl. repeat constructor; unfold Keys.in_byte_range; lia.
  - exact decode_encode_bytes.
  - exact reverse_bytes_keeps.
Defined.

Lemma BLAKE3Hash_well_formed_witness :
  String.length (Crypto.BLAKE3Hash Samples.pad32 [x61; x62]) = 64%nat
  /\ Spec.all_hex (Crypto.BLAKE3Hash Samples.pad32 [x61; x62]) = true
  /\ Spec.hash_well_formed (Crypto.BLAKE3Hash Samples.pad32 [x61; x62]) = true.
Proof.
  apply (BLAKE3Hash_well_formed Samples.pad32 [x61; x62]). reflexivity.
Defined.

Lemma BLAKE3HashReader_is_BLAKE3Hash_witness :
  Keys.BLAKE3HashReader Samples.pad32 MoreSamples.reader_abc
    = (Crypto.BLAKE3Hash Samples.pad32 [x61; x62; x63], None)
  /\ Keys.BLAKE3HashReader Samples.pad32 MoreSamples.reader_broken
     = ("", Some "failed to compute hash: unexpected EOF").
Proof.
  split.
  - apply (proj1 (BLAKE3HashReader_is_BLAKE3Hash Samples.pad32 MoreSamples.reader_abc)).
    reflexivity.
  - apply (proj2 (BLAKE3HashReader_is_BLAKE3Hash Samples.pad32 MoreSamples.reader_broken)
             "unexpected EOF").
    reflexivity.
Defined.

Lemma CreateRolloutDeviceStatus_once_witness :
  let out :=
    Queries.CreateRolloutDeviceStatus 40%Z MoreSamples.db_fleet 7%N 9%N true in
  snd out = Ok (Store.mkRolloutDeviceStatus true Store.PENDING None 40%Z)
  /\ Store.GetRolloutDeviceStatus (fst out) 7%N 9%N
     = Ok (Store.mkRolloutDeviceStatus true Store.PENDING None 40%Z)
  /\ Queries.CreateRolloutDeviceStatus 50%Z MoreSamples.db_rows 7%N 9%N false
     = (MoreSamples.db_rows, Err (Queries.UniqueViolation "rollout_device_status_pkey")).
Proof.
  destruct (CreateRolloutDeviceStatus_once 40%Z MoreSamples.db_fleet 7%N 9%N true)
    as (Hout & Hget & _ & Hagain).
  - reflexivity.
  - exists Samples.draft_rollout. reflexivity.
  - exists Samples.device9. reflexivity.
  - reflexivity.
  - split; [exact Hout|]. split; [exact Hget|].
    apply (Hagain MoreSamples.db_rows Samples.healthy_row 50%Z false); reflexivity.
Defined.

Lemma status_counts_follow_writes_witness :
  Queries.CountRolloutDevicesByStatus
    (fst (Queries.CreateRolloutDeviceStatus 40%Z MoreSamples.db_fleet 7%N 9%N true))
    7%N "PENDING" = Ok 1%Z
  /\ Queries.CountRolloutDevicesByStatus
       (fst (Store.UpdateRolloutDeviceStatus 40%Z MoreSamples.db_rows 7%N 10%N
               "HEALTHY" None))
       7%N "PENDING" = Ok 0%Z.
Proof.
  split.
  - apply (proj1 (status_counts_follow_writes 40%Z MoreSamples.db_fleet 7%N 9%N 7%N
                    "PENDING" Store.PENDING 0%Z eq_refl eq_refl) true).
    + exists Samples.draft_rollout. reflexivity.
    + exists Samples.device9. reflexivity.
    + reflexivity.
  - apply (proj2 (status_counts_follow_writes 40%Z MoreSamples.db_rows 7%N 10%N 7%N
                    "PENDING" Store.PENDING 1%Z eq_refl eq_refl)
             MoreSamples.pending_row "HEALTHY" Store.HEALTHY None); reflexivity.
Defined.

Lemma ListRolloutDeviceStatuses_ordered_witness :
  NoDup MoreSamples.rows7
  /\ StronglySorted Queries.by_canary_then_oldest MoreSamples.rows7
  /\ exists canaries : list (Store.UUID * Store.UUID * Store.RolloutDeviceStatus),
       Queries.GetCanaryDevices MoreSamples.db_rows 7%N = Ok canaries
       /\ canaries ≡ₚ filter (fun kv => Store.is_canary (snd kv) = true) MoreSamples.rows7
       /\ StronglySorted Queries.by_oldest_first canaries.
Proof.
  destruct (ListRolloutDeviceStatuses_ordered MoreSamples.db_rows 7%N MoreSamples.rows7)
    as (_ & Hnodup & Hsorted & _ & Hcanary).
  - vm_compute. reflexivity.
  - split; [exact Hnodup|]. split; [exact Hsorted | exact Hcanary].
Defined.

Lemma status_counts_add_up_witness :
  exists p i h u r : Z,
    Queries.CountRolloutDevicesByStatus MoreSamples.db_rows 7%N "PENDING" = Ok p
    /\ Queries.CountRolloutDevicesByStatus MoreSamples.db_rows 7%N "IN_PROGRESS" = Ok i
    /\ Queries.CountRolloutDevicesByStatus MoreSamples.db_rows 7%N "HEALTHY" = Ok h
    /\ Queries.CountRolloutDevicesByStatus MoreSamples.db_rows 7%N "UNHEALTHY" = Ok u
    /\ Queries.CountRolloutDevicesByStatus MoreSamples.db_rows 7%N "ROLLED_BACK" = Ok r
    /\ (p + i + h + u + r)%Z = 3%Z.
Proof.
  apply (status_counts_add_up MoreSamples.db_rows 7%N MoreSamples.rows7).
  vm_compute. reflexivity.
Defined.

Lemma GetStaleDevices_lists_witness :
  (10%N, MoreSamples.device10) ∈ [(10%N, MoreSamples.device10)]
  /\ (9%N, Samples.device9) ∉ [(10%N, MoreSamples.device10)].
Proof.
  destruct (GetStaleDevices_lists (100 + Queries.five_minutes + 1)%Z MoreSamples.db_fleet
              [(10%N, MoreSamples.device10)])
    as (Hlisted & _ & Hnever & _).
  - vm_compute. reflexivity.
  - split.
    + apply Hlisted. split; [reflexivity|]. split; [reflexivity|].
      exists 100%Z. split; [reflexivity|]. unfold Queries.five_minutes. lia.
    + apply Hnever; reflexivity.
Defined.

Lemma DeviceStream_registers_heartbeats_witness :
  let s' := Views.service_of
              (Registry.DeviceStream Samples.parse_uuid Samples.service0 1%nat
                 [Registry.Recv 100%Z
                    (Ok (Registry.DeviceMessage_Heartbeat Samples.heartbeat9))]) in
  Registry.streams s' !! Samples.id9 = Some 1%nat
  /\ snd (Registry.SendUpdateNotification s' Samples.id9 Samples.update7) = None
  /\ snd (Registry.SendRollbackRequest s' Samples.id9 Samples.rollback7) = None.
Proof.
  intros s'.
  destruct (DeviceStream_registers_heartbeats Samples.parse_uuid Samples.service0 s'
              1%nat
              [Registry.Recv 100%Z
                 (Ok (Registry.DeviceMessage_Heartbeat Samples.heartbeat9))]
              Samples.id9) as (_ & Hall).
  - vm_compute. reflexivity.
  - destruct (Hall Samples.id9) as (Hstream & Hupdate & Hrollback).
    + simpl. left. reflexivity.
    + split; [exact Hstream|]. split.
      * apply (Hupdate Samples.update7).
      * apply (Hrollback Samples.rollback7).
Defined.

Lemma suspend_then_reactivate_witness :
  let suspended :=
    DeviceRest.SuspendDevice Samples.parse_uuid MoreSamples.device_doc
      MoreSamples.db_fleet MoreSamples.suspend9 in
  let reactivated :=
    DeviceRest.ReactivateDevice Samples.parse_uuid MoreSamples.device_doc
      (DeviceRest.served_db suspended) MoreSamples.suspend9 in
  Store.devices (DeviceRest.served_db suspended) !! 9%N
    = Some (Store.mkDevice 1%N "pk" "wgpk" "10.100.0.9" "0.1.0" "linux/arm64"
              (Some "warehouse-5") Store.SUSPENDED None 0%Z)
  /\ Store.device_status <$> Store.devices MoreSamples.db_fleet !! 9%N
     = Some Store.ACTIVE
  /\ Store.device_status <$> Store.devices (DeviceRest.served_db suspended) !! 9%N
     = Some Store.SUSPENDED
  /\ Store.device_status <$> Store.devices (DeviceRest.served_db reactivated) !! 9%N
     = Some Store.ACTIVE
  /\ DeviceRest.served_db reactivated = MoreSamples.db_fleet.
Proof.
  destruct (suspend_then_reactivate Samples.parse_uuid MoreSamples.device_doc
              MoreSamples.db_fleet MoreSamples.suspend9 9%N Samples.device9)
    as (_ & Hrow & Hsuspended & _ & _ & Hactive & _ & Hback); [reflexivity..|].
  split; [exact Hrow|]. split; [reflexivity|]. split; [exact Hsuspended|].
  split; [exact Hactive|]. apply Hback. reflexivity.
Defined.

Lemma device_handlers_refuse_witness :
  DeviceRest.SuspendDevice Samples.parse_uuid MoreSamples.device_doc
    MoreSamples.db_fleet MoreSamples.suspend_bad
  = DeviceRest.mkServed MoreSamples.db_fleet []
      (Rest.http_Error "invalid device ID" 400)
  /\ DeviceRest.served_response
       (DeviceRest.GetDevice Samples.parse_uuid MoreSamples.device_doc
          MoreSamples.db_fleet MoreSamples.suspend12)
     = Rest.http_Error "not found" 404
  /\ DeviceRest.served_response
       (DeviceRest.SuspendDevice Samples.parse_uuid MoreSamples.device_doc
          MoreSamples.db_fleet MoreSamples.suspend12)
     = Rest.http_Error "internal error" 500.
Proof.
  split.
  - apply (proj1 (device_handlers_refuse Samples.parse_uuid MoreSamples.device_doc
                    MoreSamples.db_fleet MoreSamples.suspend_bad)
             "invalid UUID length").
    reflexivity.
  - destruct (proj2 (device_handlers_refuse Samples.parse_uuid MoreSamples.device_doc
                       MoreSamples.db_fleet MoreSamples.suspend12) 18%N)
      as (Hget & Hsuspend & _); [reflexivity..|].
    split; [exact Hget | exact Hsuspend].
Defined.

Lemma suspended_device_still_served_witness :
  let s := Registry.NewDeviceService
             (DeviceRest.served_db
                (DeviceRest.SuspendDevice Samples.parse_uuid MoreSamples.device_doc
                   MoreSamples.db_fleet MoreSamples.suspend9)) in
  Store.device_status <$> Store.devices (Registry.queries s) !! 9%N
    = Some Store.SUSPENDED
  /\ exists s' : Registry.DeviceService,
    Registry.DeviceStream Samples.parse_uuid s 1%nat
      [Registry.Recv 100%Z (Ok (Registry.DeviceMessage_Heartbeat Samples.heartbeat9))]
    = Registry.Running s' Samples.id9
    /\ Store.devices (Registry.queries s') !! 9%N
       = Some (Store.mkDevice 1%N "pk" "wgpk" "10.100.0.9" "0.1.0" "linux/arm64"
                 (Some "warehouse-5") Store.SUSPENDED (Some 100%Z) 0%Z)
    /\ Store.device_status <$> Store.devices (Registry.queries s') !! 9%N
       = Some Store.SUSPENDED
    /\ Store.last_seen_at <$> Store.devices (Registry.queries s') !! 9%N
       = Some (Some 100%Z)
    /\ Registry.streams s' !! Samples.id9 = Some 1%nat
    /\ Registry.sent_on s' 1%nat = [Registry.ControlMessage_HeartbeatAck 1700000000%Z]
    /\ snd (Registry.SendUpdateNotification s' Samples.id9 Samples.update7) = None.
Proof.
  intros s.
  destruct (suspended_device_still_served Samples.parse_uuid MoreSamples.device_doc
              MoreSamples.db_fleet MoreSamples.suspend9 9%N Samples.device9 s 1%nat
              100%Z Samples.heartbeat9)
    as (Hbefore & s' & Hrun & Hrow & Hstatus & Hseen & Hstream & Hsent & Hsend);
    [reflexivity..|].
  split; [exact Hbefore|].
  exists s'. split; [exact Hrun|]. split; [exact Hrow|]. split; [exact Hstatus|].
  split; [exact Hseen|]. split; [exact Hstream|].
  split; [exact Hsent | apply Hsend].
Defined.

(** Case analysis on a row looked up in one of the sample tables. *)
Ltac sample_row H :=
  repeat (apply lookup_insert_Some in H as [[<- <-] | [_ H]]; [|]);
  try (apply lookup_singleton_Some in H as [<- <-]).

Lemma EnrollDevice_token_accounting_witness :
  let t' := Enrollment.serve_in_turn MoreSamples.decode_request
              MoreSamples.response_doc Samples.pad32 MoreSamples.uuid_text
              MoreSamples.inet_text MoreSamples.tables0
              [(10%Z, 20%N, MoreSamples.enroll "a");
               (11%Z, 21%N, MoreSamples.enroll "b");
               (12%Z, 22%N, MoreSamples.enroll "taken")] in
  is_Some (Enrollment.enrollment_tokens t' !! 5%N)
  /\ Enrollment.enrollment_tokens t' !! 6%N = None
  /\ Enrollment.used_count <$> Enrollment.enrollment_tokens t' !! 5%N = Some 2%Z
  /\ (Enrollment.used_count (Enrollment.set_used_count 2 MoreSamples.token5)
      <= Enrollment.max_uses (Enrollment.set_used_count 2 MoreSamples.token5))%Z.
Proof.
  intros t'.
  destruct (proj2 (proj2 (EnrollDevice_token_accounting MoreSamples.decode_request
                            MoreSamples.response_doc Samples.pad32 MoreSamples.uuid_text
                            MoreSamples.inet_text 10%Z 20%N MoreSamples.tables0
                            (MoreSamples.enroll "a")))
              [(10%Z, 20%N, MoreSamples.enroll "a");
               (11%Z, 21%N, MoreSamples.enroll "b");
               (12%Z, 22%N, MoreSamples.enroll "taken")]) as [Hsame Hwithin].
  split; [|split; [|split]].
  - apply (proj2 (Hsame 5%N)). eexists. reflexivity.
  - destruct (Enrollment.enrollment_tokens t' !! 6%N) eqn:Hlook; [|reflexivity].
    exfalso. destruct (proj1 (Hsame 6%N)) as [tok Htok]; [eexists; exact Hlook|].
    discriminate Htok.
  - vm_compute. reflexivity.
  - apply (Hwithin) with (id := 5%N).
    + intros id tok Htok.
      change (Enrollment.enrollment_tokens MoreSamples.tables0)
        with ({[ 5%N := MoreSamples.token5 ]}
              : gmap Store.UUID Enrollment.EnrollmentToken) in Htok.
      sample_row Htok. simpl. lia.
    + vm_compute. reflexivity.
Defined.

Lemma EnrollDevice_refuses_witness :
  Enrollment.answer
    (Enrollment.EnrollDevice MoreSamples.decode_request MoreSamples.response_doc
       Samples.pad32 MoreSamples.uuid_text MoreSamples.inet_text 10%Z 20%N
       MoreSamples.tables0 (MoreSamples.enroll "{"))
  = Rest.http_Error "invalid request" 400
  /\ Enrollment.answer
       (Enrollment.EnrollDevice MoreSamples.decode_request MoreSamples.response_doc
          Samples.pad32 MoreSamples.uuid_text MoreSamples.inet_text 10%Z 20%N
          MoreSamples.tables0 (MoreSamples.enroll "stranger"))
     = Rest.http_Error "unauthorized" 401
  /\ Enrollment.tables_after
       (Enrollment.EnrollDevice MoreSamples.decode_request MoreSamples.response_doc
          Samples.pad32 MoreSamples.uuid_text MoreSamples.inet_text 2000%Z 20%N
          MoreSamples.tables0 (MoreSamples.enroll "a"))
     = MoreSamples.tables0.
Proof.
  split; [|split].
  - apply (proj1 (EnrollDevice_refuses MoreSamples.decode_request
                    MoreSamples.response_doc Samples.pad32 MoreSamples.uuid_text
                    MoreSamples.inet_text 10%Z 20%N MoreSamples.tables0
                    (MoreSamples.enroll "{"))
             "unexpected end of JSON input").
    reflexivity.
  - apply (proj2 (EnrollDevice_refuses MoreSamples.decode_request
                    MoreSamples.response_doc Samples.pad32 MoreSamples.uuid_text
                    MoreSamples.inet_text 10%Z 20%N MoreSamples.tables0
                    (MoreSamples.enroll "stranger"))
             MoreSamples.request_stranger); [reflexivity|].
    intros id tok Htok Hhash.
    change (Enrollment.enrollment_tokens MoreSamples.tables0)
      with ({[ 5%N := MoreSamples.token5 ]} : gmap Store.UUID Enrollment.EnrollmentToken)
      in Htok.
    sample_row Htok. vm_compute in Hhash. discriminate Hhash.
  - apply (proj2 (EnrollDevice_refuses MoreSamples.decode_request
                    MoreSamples.response_doc Samples.pad32 MoreSamples.uuid_text
                    MoreSamples.inet_text 2000%Z 20%N MoreSamples.tables0
                    (MoreSamples.enroll "a"))
             MoreSamples.request_a); [reflexivity|].
    intros id tok Htok _.
    change (Enrollment.enrollment_tokens MoreSamples.tables0)
      with ({[ 5%N := MoreSamples.token5 ]} : gmap Store.UUID Enrollment.EnrollmentToken)
      in Htok.
    sample_row Htok. left. simpl. lia.
Defined.

Lemma EnrollDevice_enrolls_witness :
  let out :=
    Enrollment.EnrollDevice MoreSamples.decode_request MoreSamples.response_doc
      Samples.pad32 MoreSamples.uuid_text MoreSamples.inet_text 10%Z 20%N
      MoreSamples.tables0 (MoreSamples.enroll "a") in
  Enrollment.answer out
  = DeviceRest.json_response 201 "20 10.100.0.4 ACTIVE"
  /\ Queries.GetDevice (Enrollment.base (Enrollment.tables_after out)) 20%N
     = Ok (Store.mkDevice 1%N "pk-a" "wgpk-a" "10.100.0.4/32" "0.1.0" "linux-arm64" None
             Store.ACTIVE None 10%Z)
  /\ Enrollment.used_count <$> Enrollment.enrollment_tokens MoreSamples.tables0 !! 5%N
     = Some 0%Z
  /\ Enrollment.used_count
       <$> Enrollment.enrollment_tokens (Enrollment.tables_after out) !! 5%N
     = Some 1%Z.
Proof.
  destruct (EnrollDevice_enrolls MoreSamples.decode_request MoreSamples.response_doc
              Samples.pad32 MoreSamples.uuid_text MoreSamples.inet_text 10%Z 20%N
              MoreSamples.tables0 (MoreSamples.enroll "a") MoreSamples.request_a 5%N
              MoreSamples.token5 2%Z)
    as (Hanswer & _ & Hget & _ & Hcount).
  - reflexivity.
  - reflexivity.
  - reflexivity.
  - simpl. lia.
  - simpl. lia.
  - simpl. unfold Enrollment.max_int32. lia.
  - intros id tok Htok _.
    change (Enrollment.enrollment_tokens MoreSamples.tables0)
      with ({[ 5%N := MoreSamples.token5 ]} : gmap Store.UUID Enrollment.EnrollmentToken)
      in Htok.
    sample_row Htok. reflexivity.
  - vm_compute. reflexivity.
  - reflexivity.
  - intros id d Hd.
    change (Store.devices (Enrollment.base MoreSamples.tables0))
      with MoreSamples.fleet in Hd.
    unfold MoreSamples.fleet in Hd. sample_row Hd; split; discriminate.
  - exists (Enrollment.mkOrganization "acme" 0%Z). reflexivity.
  - split; [exact Hanswer|]. split; [exact Hget|]. split; [reflexivity | exact Hcount].
Defined.

Lemma EnrollDevice_counts_failed_use_witness :
  let out :=
    Enrollment.EnrollDevice MoreSamples.decode_request MoreSamples.response_doc
      Samples.pad32 MoreSamples.uuid_text MoreSamples.inet_text 10%Z 20%N
      MoreSamples.tables0 (MoreSamples.enroll "taken") in
  Enrollment.answer out = Rest.http_Error "internal error" 500
  /\ Enrollment.base (Enrollment.tables_after out) = Enrollment.base MoreSamples.tables0
  /\ Enrollment.used_count <$> Enrollment.enrollment_tokens MoreSamples.tables0 !! 5%N
     = Some 0%Z
  /\ Enrollment.used_count
       <$> Enrollment.enrollment_tokens (Enrollment.tables_after out) !! 5%N
     = Some 1%Z.
Proof.
  destruct (EnrollDevice_counts_failed_use MoreSamples.decode_request
              MoreSamples.response_doc Samples.pad32 MoreSamples.uuid_text
              MoreSamples.inet_text 10%Z 20%N MoreSamples.tables0
              (MoreSamples.enroll "taken") MoreSamples.request_taken
              5%N MoreSamples.token5 2%Z 10%N MoreSamples.device10)
    as (Hanswer & Hbase & _ & Hcount).
  - reflexivity.
  - reflexivity.
  - reflexivity.
  - simpl. lia.
  - simpl. lia.
  - simpl. unfold Enrollment.max_int32. lia.
  - intros id tok Htok _.
    change (Enrollment.enrollment_tokens MoreSamples.tables0)
      with ({[ 5%N := MoreSamples.token5 ]} : gmap Store.UUID Enrollment.EnrollmentToken)
      in Htok.
    sample_row Htok. reflexivity.
  - vm_compute. reflexivity.
  - reflexivity.
  - reflexivity.
  - split; [exact Hanswer|]. split; [exact Hbase|]. split; [reflexivity | exact Hcount].
Defined.

Lemma EnrollDevice_reissues_address_witness :
  let enroll :=
    Enrollment.EnrollDevice MoreSamples.decode_request MoreSamples.response_doc
      Samples.pad32 MoreSamples.uuid_text MoreSamples.inet_text in
  let t1 := Enrollment.tables_after (enroll 10%Z 20%N MoreSamples.tables0
                                       (MoreSamples.enroll "a")) in
  let t2 := Enrollment.set_base t1
              (DeviceRest.served_db
                 (DeviceRest.SuspendDevice Samples.parse_uuid MoreSamples.device_doc
                    (Enrollment.base t1) MoreSamples.suspend9)) in
  let out := enroll 30%Z 21%N t2 (MoreSamples.enroll "b") in
  Enrollment.answer out = DeviceRest.json_response 201 "21 10.100.0.4 ACTIVE"
  /\ exists d1 d2 : Store.Device,
       Store.devices (Enrollment.base (Enrollment.tables_after out)) !! 20%N = Some d1
       /\ Store.devices (Enrollment.base (Enrollment.tables_after out)) !! 21%N = Some d2
       /\ Store.device_status d1 = Store.ACTIVE /\ Store.device_status d2 = Store.ACTIVE
       /\ Store.device_organization_id d1 = Store.device_organization_id d2
       /\ Store.wireguard_ip d1 = "10.100.0.4/32"
       /\ Store.wireguard_ip d2 = Store.wireguard_ip d1.
Proof.
  apply (EnrollDevice_reissues_address MoreSamples.decode_request
           MoreSamples.response_doc Samples.pad32 MoreSamples.uuid_text
           MoreSamples.inet_text
           Samples.parse_uuid MoreSamples.device_doc 10%Z 30%Z 20%N 21%N
           MoreSamples.tables0 (MoreSamples.enroll "a") (MoreSamples.enroll "b")
           MoreSamples.suspend9 MoreSamples.request_a MoreSamples.request_b
           5%N MoreSamples.token5 2%Z 9%N Samples.device9).
  - reflexivity.
  - reflexivity.
  - reflexivity.
  - reflexivity.
  - reflexivity.
  - simpl. lia.
  - simpl. lia.
  - simpl. lia.
  - simpl. unfold Enrollment.max_int32. lia.
  - intros id tok Htok _.
    change (Enrollment.enrollment_tokens MoreSamples.tables0)
      with ({[ 5%N := MoreSamples.token5 ]} : gmap Store.UUID Enrollment.EnrollmentToken)
      in Htok.
    sample_row Htok. reflexivity.
  - vm_compute. reflexivity.
  - reflexivity.
  - reflexivity.
  - discriminate.
  - intros id d Hd.
    change (Store.devices (Enrollment.base MoreSamples.tables0))
      with MoreSamples.fleet in Hd.
    unfold MoreSamples.fleet in Hd. sample_row Hd; split_and!; discriminate.
  - discriminate.
  - discriminate.
  - exists (Enrollment.mkOrganization "acme" 0%Z). reflexivity.
  - reflexivity.
  - reflexivity.
  - reflexivity.
  - reflexivity.
Defined.

Lemma EnrollDevice_interleaved_overuse_witness :
  let a : Enrollment.Slot := (0%nat, 10%Z, 20%N) in
  let b : Enrollment.Slot := (1%nat, 10%Z, 21%N) in
  let out := Enrollment.serve MoreSamples.decode_request MoreSamples.response_doc
               Samples.pad32 MoreSamples.uuid_text MoreSamples.inet_text
               MoreSamples.tables_last_use
               [Enrollment.Received (MoreSamples.enroll "a");
                Enrollment.Received (MoreSamples.enroll "b")]
               [a; b; a; a; a; b; b; b] in
  let enroll :=
    Enrollment.EnrollDevice MoreSamples.decode_request MoreSamples.response_doc
      Samples.pad32 MoreSamples.uuid_text MoreSamples.inet_text in
  (exists loga logb : list Registry.LogEntry,
      snd out
      = [Enrollment.Answered loga (DeviceRest.json_response 201 "20 10.100.0.4 ACTIVE");
         Enrollment.Answered logb (DeviceRest.json_response 201 "21 10.100.0.5 ACTIVE")])
  /\ Enrollment.used_count <$> Enrollment.enrollment_tokens (fst out) !! 8%N = Some 2%Z
  /\ Enrollment.max_uses <$> Enrollment.enrollment_tokens (fst out) !! 8%N = Some 1%Z
  /\ Store.device_status <$> Store.devices (Enrollment.base (fst out)) !! 20%N
     = Some Store.ACTIVE
  /\ Store.device_status <$> Store.devices (Enrollment.base (fst out)) !! 21%N
     = Some Store.ACTIVE
  /\ Enrollment.answer
       (enroll 10%Z 21%N
          (Enrollment.tables_after
             (enroll 10%Z 20%N MoreSamples.tables_last_use (MoreSamples.enroll "a")))
          (MoreSamples.enroll "b"))
     = Rest.http_Error "unauthorized" 401.
Proof.
  apply (EnrollDevice_interleaved_overuse MoreSamples.decode_request
           MoreSamples.response_doc Samples.pad32 MoreSamples.uuid_text
           MoreSamples.inet_text 10%Z 20%N 21%N MoreSamples.tables_last_use
           (MoreSamples.enroll "a") (MoreSamples.enroll "b")
           MoreSamples.request_a MoreSamples.request_b 8%N MoreSamples.token8 2%Z).
  - reflexivity.
  - reflexivity.
  - reflexivity.
  - reflexivity.
  - reflexivity.
  - simpl. lia.
  - reflexivity.
  - simpl. unfold Enrollment.max_int32. lia.
  - intros id tok Htok _.
    change (Enrollment.enrollment_tokens MoreSamples.tables_last_use)
      with ({[ 8%N := MoreSamples.token8 ]} : gmap Store.UUID Enrollment.EnrollmentToken)
      in Htok.
    sample_row Htok. reflexivity.
  - vm_compute. reflexivity.
  - reflexivity.
  - reflexivity.
  - discriminate.
  - intros id d Hd.
    change (Store.devices (Enrollment.base MoreSamples.tables_last_use))
      with MoreSamples.fleet in Hd.
    unfold MoreSamples.fleet in Hd. sample_row Hd; split_and!; discriminate.
  - discriminate.
  - discriminate.
  - exists (Enrollment.mkOrganization "acme" 0%Z). reflexivity.
Defined.

Lemma session_listed_until_expiry_witness :
  let out := Sessions.CreateAccessSession 10%Z 30%N MoreSamples.sessions0 9%N
               "ops@acme.io" "peer-config" 500%Z in
  snd out = Ok (30%N, MoreSamples.open_session)
  /\ Sessions.GetAccessSession (fst out) 30%N = Ok MoreSamples.open_session
  /\ Sessions.GetAccessSession (fst (Sessions.ExpireOldSessions 500%Z (fst out))) 30%N
     = Ok MoreSamples.open_session
  /\ Sessions.GetAccessSession (fst (Sessions.ExpireOldSessions 501%Z (fst out))) 30%N
     = Err Store.ErrNoRows.
Proof.
  destruct (session_listed_until_expiry 10%Z 30%N MoreSamples.sessions0 9%N
              "ops@acme.io" "peer-config" 500%Z)
    as (Hout & Hget & _ & Hkept & Hswept).
  - reflexivity.
  - reflexivity.
  - exists Samples.device9. reflexivity.
  - split; [exact Hout|]. split; [exact Hget|]. split.
    + apply (Hkept 500%Z). lia.
    + apply (Hswept 501%Z). lia.
Defined.

Lemma ExpireOldSessions_sweeps_once_witness :
  Sessions.access_sessions (fst (Sessions.ExpireOldSessions 600%Z MoreSamples.sessions1))
    !! 31%N = Some MoreSamples.ended_session
  /\ Sessions.ListActiveAccessSessions 700%Z
       (fst (Sessions.ExpireOldSessions 600%Z MoreSamples.sessions1)) 9%N
     = Sessions.ListActiveAccessSessions 700%Z MoreSamples.sessions1 9%N.
Proof.
  destruct (ExpireOldSessions_sweeps_once 600%Z MoreSamples.sessions1)
    as (_ & Hended & _ & Hlist & _).
  split.
  - apply (Hended 31%N MoreSamples.ended_session 40%Z); reflexivity.
  - apply (Hlist 700%Z 9%N). lia.
Defined.

Lemma TerminateAccessSession_overwrites_witness :
  let t' := fst (Sessions.TerminateAccessSession 50%Z MoreSamples.sessions1 30%N) in
  Sessions.GetAccessSession t' 30%N = Err Store.ErrNoRows
  /\ snd (Sessions.TerminateAccessSession 60%Z t' 30%N)
     = Ok (Sessions.set_terminated_at 60%Z MoreSamples.open_session)
  /\ Sessions.access_sessions (fst (Sessions.ExpireOldSessions 600%Z t')) !! 30%N
     = Some (Sessions.set_terminated_at 50%Z MoreSamples.open_session).
Proof.
  destruct (TerminateAccessSession_overwrites 50%Z MoreSamples.sessions1 30%N
              MoreSamples.open_session)
    as (_ & Hget & _ & Hagain & Hsweep & _); [reflexivity..|].
  split; [exact Hget|]. split.
  - apply (Hagain 60%Z).
  - apply (Hsweep 600%Z).
Defined.

Lemma DeleteExpiredTokens_keeps_usable_witness :
  let t' := fst (Enrollment.DeleteExpiredTokens 10%Z MoreSamples.tables_swept) in
  Enrollment.GetEnrollmentTokenByHash 20%Z t' (Enrollment.hash_of Samples.pad32 "secret")
  = Enrollment.GetEnrollmentTokenByHash 20%Z MoreSamples.tables_swept
      (Enrollment.hash_of Samples.pad32 "secret")
  /\ Enrollment.enrollment_tokens t' !! 7%N = Some MoreSamples.token7
  /\ Enrollment.enrollment_tokens t' !! 6%N = None.
Proof.
  destruct (DeleteExpiredTokens_keeps_usable 10%Z MoreSamples.tables_swept)
    as (_ & _ & _ & Hsame & Hspent & Hlost).
  split; [|split].
  - apply (Hsame 20%Z). lia.
  - apply (Hspent 7%N MoreSamples.token7); [reflexivity | simpl; lia].
  - apply (Hlost 6%N MoreSamples.token6); [reflexivity | reflexivity | simpl; lia..].
Defined.

Lemma CreateArtifact_keeps_hashes_unique_witness :
  snd (Artifacts.CreateArtifact 10%Z 4%N MoreSamples.tables_artifacts 1%N "firmware-2"
         "BINARY" "no-hash-either" [] "unknown-key" "s3://bucket/fw2" 2048%Z)
  = Ok (4%N, Store.mkArtifact 1%N "firmware-2" Store.BINARY "no-hash-either" []
               "unknown-key" "s3://bucket/fw2" 2048%Z 10%Z).
Proof.
  apply (proj2 (proj2 (CreateArtifact_keeps_hashes_unique 10%Z 4%N
                         MoreSamples.tables_artifacts 1%N "firmware-2" "BINARY"
                         "no-hash-either" [] "unknown-key" "s3://bucket/fw2" 2048%Z))
           Store.BINARY).
  - reflexivity.
  - reflexivity.
  - reflexivity.
  - intros id a' Ha'.
    change (Store.artifacts (Enrollment.base MoreSamples.tables_artifacts))
      with ({[ 3%N := Samples.bad_artifact ]} : gmap Store.UUID Store.Artifact) in Ha'.
    apply lookup_singleton_Some in Ha' as [<- <-]. discriminate.
  - exists (Enrollment.mkOrganization "acme" 0%Z). reflexivity.
Defined.

